(** * Chennai electricity analytics: the metrics and the report run

    A shallow embedding of [chennai_electricity_analytics_main.py] (class
    [ChennaiElectricityAnalytics] and [main]) and of the metric
    expressions of [chennai_electricity_standalone.py].

    Numbers.  The program computes on pandas columns of 64-bit floats.
    In the embedding of the methods a number is an exact real or one of
    the three special values of the floating-point format: rounding,
    overflow and the sign of zero are abstracted away, the outcomes of
    dividing by zero and of arithmetic on missing values are kept.  A
    missing value of a numeric column is [NaN], as in pandas.  What is
    stated of a computed number is therefore stated in the operations
    the program applies ([fdiv], [fsub], [fmul], [fpow]), not as an
    identity of real arithmetic.  The facts that depend on rounding are
    stated on the processor's binary64 numbers, in [Binary64].

    Effects.  Methods run in a state monad over the instance (the
    dataset registry [self.data]) and the printed output; a raised
    exception keeps the state reached so far, as in Python. *)

From Stdlib Require Import Reals Lra Lia ZArith List String.
From Stdlib Require PrimFloat.
From stdpp Require Import gmap strings list fin_maps.

(* ===================================================================== *)
(** ** Numbers *)
(* ===================================================================== *)

Module F64.

Local Open Scope R_scope.

Inductive f64 : Type :=
| Fin (r : R)
| PInf
| NInf
| NaN.

(** Sign of a real, decided by the total order. *)
Definition Rsgn (r : R) : comparison :=
  match total_order_T r 0 with
  | inleft (left _) => Lt
  | inleft (right _) => Eq
  | inright _ => Gt
  end.

Definition fneg (x : f64) : f64 :=
  match x with
  | Fin r => Fin (- r)
  | PInf => NInf
  | NInf => PInf
  | NaN => NaN
  end.

Definition fadd (x y : f64) : f64 :=
  match x, y with
  | NaN, _ | _, NaN => NaN
  | Fin a, Fin b => Fin (a + b)
  | PInf, NInf | NInf, PInf => NaN
  | PInf, _ | _, PInf => PInf
  | NInf, _ | _, NInf => NInf
  end.

Definition fsub (x y : f64) : f64 := fadd x (fneg y).

Arguments Rsgn : simpl never.

(** An infinity of the sign [s]; no sign gives the invalid result. *)
Definition inf_of (s : comparison) : f64 :=
  match s with
  | Gt => PInf
  | Lt => NInf
  | Eq => NaN
  end.

Definition fsgn (x : f64) : option comparison :=
  match x with
  | Fin r => Some (Rsgn r)
  | PInf => Some Gt
  | NInf => Some Lt
  | NaN => None
  end.

Definition sgn_mul (s t : comparison) : comparison :=
  match s, t with
  | Eq, _ | _, Eq => Eq
  | Gt, Gt | Lt, Lt => Gt
  | Gt, Lt | Lt, Gt => Lt
  end.

Definition fmul (x y : f64) : f64 :=
  match x, y with
  | NaN, _ | _, NaN => NaN
  | Fin a, Fin b => Fin (a * b)
  | _, _ =>
      match fsgn x, fsgn y with
      | Some s, Some t => inf_of (sgn_mul s t)
      | _, _ => NaN
      end
  end.

(** Division.  A zero divisor gives an infinity of the sign of the
    dividend, and the invalid result for a zero dividend. *)
Definition fdiv (x y : f64) : f64 :=
  match x, y with
  | NaN, _ | _, NaN => NaN
  | Fin a, Fin b =>
      match Rsgn b with
      | Eq => inf_of (Rsgn a)
      | _ => Fin (a / b)
      end
  | Fin _, _ => Fin 0
  | PInf, Fin b => match Rsgn b with Lt => NInf | _ => PInf end
  | NInf, Fin b => match Rsgn b with Lt => PInf | _ => NInf end
  | _, _ => NaN
  end.

Definition is_int (e : R) : bool :=
  if Req_dec_T e (IZR (Int_part e)) then true else false.

Definition odd_int (e : R) : bool := is_int e && Z.odd (Int_part e).

(** [x ** e] for a finite exponent [e], by the cases of the C library's
    [pow]. *)
Definition fpow (x : f64) (e : R) : f64 :=
  match Rsgn e with
  | Eq => Fin 1
  | Gt =>
      match x with
      | NaN => NaN
      | PInf => PInf
      | NInf => if odd_int e then NInf else PInf
      | Fin r =>
          match Rsgn r with
          | Gt => Fin (Rpower r e)
          | Eq => Fin 0
          | Lt => if is_int e then Fin (powerRZ r (Int_part e)) else NaN
          end
      end
  | Lt =>
      match x with
      | NaN => NaN
      | PInf | NInf => Fin 0
      | Fin r =>
          match Rsgn r with
          | Gt => Fin (Rpower r e)
          | Eq => PInf
          | Lt => if is_int e then Fin (powerRZ r (Int_part e)) else NaN
          end
      end
  end.

(** [pd.notna]: only the invalid value is null; infinities are values. *)
Definition notna (x : f64) : bool :=
  match x with
  | NaN => false
  | _ => true
  end.

Definition is_fin (x : f64) : Prop :=
  match x with
  | Fin _ => True
  | _ => False
  end.

Definition of_nat (n : nat) : f64 := Fin (INR n).
Definition of_Z (z : Z) : f64 := Fin (IZR z).

Definition f64_eq_dec (x y : f64) : {x = y} + {x <> y}.
Proof.
  destruct x as [a| | |], y as [b| | |];
    try (left; reflexivity); try (right; discriminate).
  destruct (Req_dec_T a b) as [->|Hne]; [left; reflexivity|].
  right; intros [= Heq]; exact (Hne Heq).
Defined.

(** [x <= y] on non-null numbers, by the order of the extended line. *)
Definition fleb (x y : f64) : bool :=
  match x, y with
  | NInf, _ | _, PInf => true
  | Fin a, Fin b => if Rle_dec a b then true else false
  | _, _ => false
  end.

End F64.

Export F64.

(* ===================================================================== *)
(** ** pandas: series of numbers *)
(* ===================================================================== *)

Module Series.

(** [s.ffill()]: a missing entry takes the last value seen before it. *)
Fixpoint ffill_from (last : f64) (xs : list f64) : list f64 :=
  match xs with
  | [] => []
  | x :: xs' =>
      let v := if notna x then x else last in
      v :: ffill_from v xs'
  end.

Definition ffill (xs : list f64) : list f64 := ffill_from NaN xs.

(** [s.shift(1)]: every entry moves one row down, the first row is
    missing, the length is kept. *)
Definition shift (xs : list f64) : list f64 :=
  take (length xs) (NaN :: xs).

(** [s.pct_change()] with its default arguments: missing values are
    filled forward, then [data / data.shift(1) - 1].  (The releases of
    pandas that no longer fill compute the same on a column without
    missing values.) *)
Definition pct_change (xs : list f64) : list f64 :=
  let data := ffill xs in
  zip_with (fun a b => fsub (fdiv a b) (Fin 1)) data (shift data).

(** [s * 100] *)
Definition times100 (xs : list f64) : list f64 :=
  map (fun x => fmul x (Fin 100)) xs.

(** [df[col].pct_change() * 100], the growth column of
    [analyze_historical_trends]. *)
Definition growth_pct (xs : list f64) : list f64 := times100 (pct_change xs).

Definition count_notna (xs : list f64) : nat :=
  length (filter (fun x => notna x = true) xs).

Definition fsum (xs : list f64) : f64 := foldl fadd (Fin 0) xs.

(** [s.mean()]: the mean of the non-missing entries, missing when there
    is none. *)
Definition mean (xs : list f64) : f64 :=
  let ys := filter (fun x => notna x = true) xs in
  match ys with
  | [] => NaN
  | _ => fdiv (fsum ys) (of_nat (length ys))
  end.

End Series.

(* ===================================================================== *)
(** ** Python: exceptions and ordered dictionaries *)
(* ===================================================================== *)

Inductive exn : Type :=
| FileNotFoundError (filename : string)
| KeyError (key : string)
| TypeError
| IndexError
| ZeroDivisionError
| OtherError (msg : string).

Inductive result (A : Type) : Type :=
| Ok (a : A)
| Raise (e : exn).
Arguments Ok {A} a.
Arguments Raise {A} e.

#[global] Instance result_ret : MRet result := fun A a => Ok a.
#[global] Instance result_bind : MBind result := fun A B k r =>
  match r with
  | Ok a => k a
  | Raise e => Raise e
  end.

(** [a / b] on Python integers. *)
Definition int_truediv (a b : Z) : result R :=
  if decide (b = 0%Z) then Raise ZeroDivisionError
  else Ok (IZR a / IZR b)%R.

(** A [dict] with string keys: the entries in insertion order, one per
    key.  The columns of a table are kept the same way. *)
Module Dict.

Abbreviation t V := (list (string * V)) (only parsing).

Definition keys {V} (d : t V) : list string := map fst d.

Fixpoint get {V} (k : string) (d : t V) : option V :=
  match d with
  | [] => None
  | (k', v) :: d' => if decide (k = k') then Some v else get k d'
  end.

(** [d[k] = v]: an existing entry is replaced where it stands, a new one
    is appended. *)
Fixpoint set {V} (k : string) (v : V) (d : t V) : t V :=
  match d with
  | [] => [(k, v)]
  | (k', v') :: d' =>
      if decide (k = k') then (k, v) :: d'
      else (k', v') :: set k v d'
  end.

End Dict.

(* ===================================================================== *)
(** ** pandas: tables *)
(* ===================================================================== *)

Module Frame.

Import Series.

(** A scalar of a table read from a CSV file: a number (also the
    missing value, [NaN]) or a string. *)
Inductive cell : Type :=
| CNum (x : f64)
| CStr (s : string).

#[global] Instance cell_eq_dec : EqDecision cell.
Proof.
  intros [x|s] [y|t]; try (right; discriminate).
  - destruct (f64_eq_dec x y) as [->|Hne]; [left; reflexivity|].
    right; intros [= Heq]; exact (Hne Heq).
  - destruct (decide (s = t)) as [->|Hne]; [left; reflexivity|].
    right; intros [= Heq]; exact (Hne Heq).
Defined.

Abbreviation column := (list cell) (only parsing).

(** A table: its columns in order, each under its name.  Rows are the
    positions of the columns, which all have the same length. *)
Abbreviation DataFrame := (Dict.t column) (only parsing).

Definition nrows (df : DataFrame) : nat :=
  match df with
  | [] => 0
  | (_, col) :: _ => length col
  end.

(** [df.shape] *)
Definition shape (df : DataFrame) : nat * nat := (nrows df, length df).

(** [df.head(n)] *)
Definition head_rows (n : nat) (df : DataFrame) : DataFrame :=
  map (fun '(c, col) => (c, take n col)) df.

(** [df[c]] *)
Definition get_col (c : string) (df : DataFrame) : result column :=
  match Dict.get c df with
  | Some col => Ok col
  | None => Raise (KeyError c)
  end.

(** [df[[c1; ..; cn]]]; the error names the first absent column. *)
Fixpoint select_cols (cs : list string) (df : DataFrame) : result DataFrame :=
  match cs with
  | [] => Ok []
  | c :: cs' =>
      col ← get_col c df;
      rest ← select_cols cs' df;
      Ok ((c, col) :: rest)
  end.

(** The number in a cell; arithmetic on a string raises [TypeError]. *)
Definition num_of (c : cell) : result f64 :=
  match c with
  | CNum x => Ok x
  | CStr _ => Raise TypeError
  end.

(** The numbers of a column. *)
Fixpoint to_floats (col : column) : result (list f64) :=
  match col with
  | [] => Ok []
  | c :: col' =>
      x ← num_of c;
      xs ← to_floats col';
      Ok (x :: xs)
  end.

Definition of_floats (xs : list f64) : column := map CNum xs.

Definition cell_notna (c : cell) : bool :=
  match c with
  | CNum x => notna x
  | CStr _ => true
  end.

(** [s.ffill()] on the cells of a column of any type: a string is a
    value. *)
Fixpoint ffill_cells_from (last : cell) (col : column) : column :=
  match col with
  | [] => []
  | c :: col' =>
      let v := if cell_notna c then c else last in
      v :: ffill_cells_from v col'
  end.

Definition ffill_cells (col : column) : column :=
  ffill_cells_from (CNum NaN) col.

(** The rows of [data] and [data.shift(1)] in which both hold a value:
    the value of the row and the value of the row before it. *)
Definition present_pairs (data : column) : list (cell * cell) :=
  filter (fun p => cell_notna p.1 && cell_notna p.2 = true)
    (zip data (CNum NaN :: data)).

(** [s.iloc[0]] and [s.iloc[-1]] *)
Definition iloc_first {A} (xs : list A) : result A :=
  match xs with
  | [] => Raise IndexError
  | x :: _ => Ok x
  end.

Definition iloc_last {A} (xs : list A) : result A :=
  match last xs with
  | None => Raise IndexError
  | Some x => Ok x
  end.

(** [s == v] and [s.isin(vs)], row by row. *)
Definition col_eq (col : column) (v : cell) : list bool :=
  map (fun c => bool_decide (c = v)) col.

Definition isin (col : column) (vs : list cell) : list bool :=
  map (fun c => bool_decide (c ∈ vs)) col.

(** [xs[mask]]: the entries whose mask is true. *)
Fixpoint select {A} (mask : list bool) (xs : list A) : list A :=
  match mask, xs with
  | b :: mask', x :: xs' => if b then x :: select mask' xs' else select mask' xs'
  | _, _ => []
  end.

(** [df[mask]] *)
Definition filter_rows (mask : list bool) (df : DataFrame) : DataFrame :=
  map (fun '(c, col) => (c, select mask col)) df.

(** *** Sorting, and sorted distinct keys *)

Definition cell_leb (a b : cell) : bool :=
  match a, b with
  | CNum x, CNum y => fleb x y
  | CNum _, CStr _ => true
  | CStr _, CNum _ => false
  | CStr s, CStr t => String.leb s t
  end.

(** Insertion into a list kept in the order [le], after the entries
    that compare equal (rows that tie keep their order). *)
Fixpoint insert_by {A} (le : A -> A -> bool) (x : A) (xs : list A) : list A :=
  match xs with
  | [] => [x]
  | y :: ys => if le y x then y :: insert_by le x ys else x :: xs
  end.

Definition sort_by {A} (le : A -> A -> bool) (xs : list A) : list A :=
  foldl (fun acc x => insert_by le x acc) [] xs.

Definition sorted_unique (ks : list cell) : list cell :=
  sort_by cell_leb (remove_dups ks).

(** *** Group by *)

(** A series with an index: label and value of each row. *)
Abbreviation series := (list (cell * f64)) (only parsing).

Definition labels (s : series) : list cell := map fst s.
Definition values (s : series) : list f64 := map snd s.

(** The group keys of [df.groupby(key)]: the distinct non-missing keys,
    sorted. *)
Definition group_keys (keys : column) : list cell :=
  sorted_unique (filter (fun c => cell_notna c = true) keys).

(** The values of the rows whose key is [k]. *)
Definition group_values (k : cell) (keys : column) (vals : list f64) : list f64 :=
  select (col_eq keys k) vals.

(** [df.groupby(key)[val].mean()] *)
Definition groupby_mean (key val : string) (df : DataFrame) : result series :=
  keys ← get_col key df;
  col ← get_col val df;
  vals ← to_floats col;
  Ok (map (fun k => (k, mean (group_values k keys vals))) (group_keys keys)).

(** *** Indexed arithmetic *)

(** [df.set_index(key)[val]] as numbers. *)
Definition indexed (key val : string) (df : DataFrame) : result series :=
  keys ← get_col key df;
  col ← get_col val df;
  vals ← to_floats col;
  Ok (zip keys vals).

(** The values a series holds under a label, the missing value when it
    has none. *)
Definition at_label (k : cell) (s : series) : list f64 :=
  match map snd (filter (fun kv => kv.1 = k) s) with
  | [] => [NaN]
  | vs => vs
  end.

(** The index of the result of arithmetic on two series: the common
    index when both are the same, the sorted union of the labels
    otherwise. *)
Definition union_index (l r : list cell) : list cell :=
  if decide (l = r) then l
  else match l, r with
       | [], _ => r
       | _, [] => l
       | _, _ => sorted_unique (l ++ r)
       end.

(** [l / r] on indexed series: rows are matched by label, not by
    position; a label of only one side has a missing value on the other.
    Labels are unique in each series in every use this development makes
    of the result. *)
Definition series_div (l r : series) : series :=
  if decide (labels l = labels r) then
    zip_with (fun a b => (a.1, fdiv a.2 b.2)) l r
  else
    k ← union_index (labels l) (labels r);
    a ← at_label k l;
    b ← at_label k r;
    [(k, fdiv a b)].

Definition series_map (f : f64 -> f64) (s : series) : series :=
  map (fun kv => (kv.1, f kv.2)) s.

(** *** Largest and smallest rows *)

(** [rows.nlargest(n, col)] and [rows.nsmallest(n, col)], [val] reading
    the column: rows with a missing value come last. *)
Definition nlargest {A} (n : nat) (val : A -> f64) (rows : list A) : list A :=
  take n (sort_by (fun a b => fleb (val b) (val a))
            (filter (fun r => notna (val r) = true) rows)
          ++ filter (fun r => notna (val r) = false) rows).

Definition nsmallest {A} (n : nat) (val : A -> f64) (rows : list A) : list A :=
  take n (sort_by (fun a b => fleb (val a) (val b))
            (filter (fun r => notna (val r) = true) rows)
          ++ filter (fun r => notna (val r) = false) rows).

End Frame.

(* ===================================================================== *)
(** ** The instance, the output and the methods' monad *)
(* ===================================================================== *)

Module Py.

Import Frame.

(** What the drawing libraries are asked to draw.  Drawing is the work
    of matplotlib and seaborn; the program only hands over columns. *)
Inductive chart : Type :=
| DemandBars (year demand : column)
| CostLine (year cost : column)
| SeasonalHeatmap (df : DataFrame)
| SectorPie (demand sector : column)
| WeekdayProfile (avg : series)
| WeekendProfile (avg : series)
| GenerationBars (year capacity : column)
| RenewableLines (year capacity renewable : column)
| SmartMeterBars (year meters : column)
| LossesLine (year losses : column)
| Show (title : string).

(** The collaborators of a run: the CSV reader and the drawing calls. *)
Record world : Type := {
  read_csv : string -> result DataFrame;
  draw : chart -> result unit
}.

(** One printed item.  Numbers are kept as numbers, not as formatted
    text. *)
Inductive event : Type :=
| Banner (title : string)
| Say (text : string)
| Loaded (filename : string) (shape : nat * nat)
| NotFound (filename : string)
| LoadedCount (n : nat)
| LoadFailed (e : exn)
| Summary (key : string) (shape : nat * nat) (columns : list string) (sample : DataFrame)
| NotAvailable (what : string)
| Metric (label : string) (value : f64)
| Table (title : string) (rows : DataFrame)
| SectorGrowth (sector : cell) (growth : f64)
| MainFailed (e : exn).

(** The instance: [self.data], and what has been printed so far. *)
Record state : Type := {
  data : Dict.t DataFrame;
  out : list event
}.

Definition M (A : Type) : Type := state -> result A * state.

#[global] Instance M_ret : MRet M := fun A a s => (Ok a, s).
#[global] Instance M_bind : MBind M := fun A B k m s =>
  match m s with
  | (Ok a, s') => k a s'
  | (Raise e, s') => (Raise e, s')
  end.

Definition lift {A} (r : result A) : M A := fun s => (r, s).

Definition print (e : event) : M unit :=
  fun s => (Ok tt, {| data := data s; out := out s ++ [e] |}).

Definition get_data : M (Dict.t DataFrame) := fun s => (Ok (data s), s).

Definition put_data (d : Dict.t DataFrame) : M unit :=
  fun s => (Ok tt, {| data := d; out := out s |}).

(** [try: body except <handles> as e: handler e] *)
Definition try_except {A} (body : M A) (handles : exn -> bool)
    (handler : exn -> M A) : M A :=
  fun s =>
    match body s with
    | (Raise e, s') => if handles e then handler e s' else (Raise e, s')
    | r => r
    end.

Definition is_FileNotFoundError (e : exn) : bool :=
  match e with
  | FileNotFoundError _ => true
  | _ => false
  end.

(** Every exception of this model is an [Exception]. *)
Definition is_Exception (e : exn) : bool := true.

(** [for x in xs: body x] *)
Fixpoint for_each {A} (xs : list A) (body : A -> M unit) : M unit :=
  match xs with
  | [] => mret tt
  | x :: xs' => body x ;; for_each xs' body
  end.

(** The table a local [df = self.data[key]] names.  [df] is the object
    stored in the registry, so what is assigned to [df] is seen through
    the registry, and the other way round. *)
Definition table (key : string) : M DataFrame :=
  d ← get_data;
  match Dict.get key d with
  | Some df => mret df
  | None => lift (Raise (KeyError key))
  end.

(** [df[c]] for [df = self.data[key]] *)
Definition column_of (key c : string) : M column :=
  df ← table key;
  lift (get_col c df).

(** [df[c] = col] for [df = self.data[key]] *)
Definition assign_column (key c : string) (col : column) : M unit :=
  df ← table key;
  d ← get_data;
  put_data (Dict.set key (Dict.set c col df) d).

End Py.

(* ===================================================================== *)
(** ** [chennai_electricity_analytics_main.py] *)
(* ===================================================================== *)

Module Main.

Import Series Frame Py.

(** [((last / first) ** (1 / num_periods) - 1) * 100], the expression of
    the three growth-rate metrics; the programs write the number of
    periods as the literal 4 or 5. *)
Definition cagr (first last : f64) (num_periods : Z) : result f64 :=
  let ratio := fdiv last first in
  e ← int_truediv 1 num_periods;
  Ok (fmul (fsub (fpow ratio e) (Fin 1)) (Fin 100)).

(** [(s.iloc[-1] / s.iloc[0]) ** (1/n) - 1) * 100] on a column. *)
Definition column_cagr (col : column) (num_periods : Z) : result f64 :=
  l ← iloc_last col;
  f ← iloc_first col;
  last ← num_of l;
  first ← num_of f;
  cagr first last num_periods.

(** [s.iloc[-1] - s.iloc[0]] on a column. *)
Definition column_rise (col : column) : result f64 :=
  l ← iloc_last col;
  f ← iloc_first col;
  last ← num_of l;
  first ← num_of f;
  Ok (fsub last first).

(** [df[c].pct_change() * 100].  On a column that holds a string the
    division [data / data.shift(1)] is Python's, and pandas applies it
    only to the rows in which the value and the value before it are
    both present: it raises [TypeError] when there is such a row, and
    leaves every row null when there is none. *)
Definition growth_column (col : column) : result column :=
  match to_floats col with
  | Ok xs => Ok (of_floats (growth_pct xs))
  | Raise e =>
      match present_pairs (ffill_cells col) with
      | [] => Ok (map (fun _ => CNum NaN) col)
      | _ :: _ => Raise e
      end
  end.

Definition data_files : list (string * string) :=
  [ ("historical", "chennai_electricity_historical_2020_2024.csv");
    ("monthly_detailed", "chennai_electricity_monthly_detailed_2023_2025.csv");
    ("projections", "chennai_electricity_projections_2025_2030.csv");
    ("sector_wise", "chennai_electricity_sector_wise_2025_2030.csv");
    ("daily_load", "chennai_electricity_daily_load_profile.csv");
    ("infrastructure", "chennai_electricity_infrastructure_2025_2030.csv");
    ("economic", "chennai_economic_demographic_factors_2020_2030.csv");
    ("weather", "chennai_weather_data_2023_2025.csv");
    ("tariff", "chennai_electricity_tariff_structure_2025_2030.csv") ].

(** [__init__] *)
Definition init : M unit :=
  put_data [] ;;
  print (Say "Chennai Electricity Analytics Program Initialized").

(** The body of the loop of [load_all_data] for one file. *)
Definition load_one (w : world) (key filename : string) : M unit :=
  try_except
    (df ← lift (read_csv w filename);
     d ← get_data;
     put_data (Dict.set key df d) ;;
     print (Loaded filename (shape df)))
    is_FileNotFoundError
    (fun _ => print (NotFound filename)).

Definition load_all_data (w : world) : M bool :=
  try_except
    (for_each data_files (fun kf => load_one w kf.1 kf.2) ;;
     d ← get_data;
     print (LoadedCount (length d)) ;;
     mret true)
    is_Exception
    (fun e => print (LoadFailed e) ;; mret false).

Definition display_data_summary : M unit :=
  print (Banner "DATA SUMMARY") ;;
  d ← get_data;
  for_each d (fun kdf =>
    let df := kdf.2 in
    print (Summary kdf.1 (shape df) (Dict.keys df)
             (if decide (nrows df <= 10)%nat then df else head_rows 3 df))).

Definition analyze_historical_trends : M (option DataFrame) :=
  d ← get_data;
  match Dict.get "historical" d with
  | None => print (NotAvailable "Historical data") ;; mret None
  | Some _ =>
      print (Banner "HISTORICAL TRENDS ANALYSIS (2020-2024)") ;;
      demand ← column_of "historical" "Demand_MU";
      g ← lift (growth_column demand);
      assign_column "historical" "Demand_Growth_%" g ;;
      cost ← column_of "historical" "Cost_Rs_per_unit";
      g ← lift (growth_column cost);
      assign_column "historical" "Cost_Growth_%" g ;;
      demand ← column_of "historical" "Demand_MU";
      demand_cagr ← lift (column_cagr demand 4);
      cost ← column_of "historical" "Cost_Rs_per_unit";
      cost_cagr ← lift (column_cagr cost 4);
      print (Metric "Demand CAGR (2020-2024)" demand_cagr) ;;
      print (Metric "Cost CAGR (2020-2024)" cost_cagr) ;;
      peak ← column_of "historical" "Peak_Demand_MW";
      rise ← lift (column_rise peak);
      print (Metric "Peak Demand Growth" rise) ;;
      df ← table "historical";
      mret (Some df)
  end.

(** The rows of [monthly_avg]: month, average demand, seasonal index. *)
Abbreviation seasonal_row := (cell * f64 * f64)%type (only parsing).

(** [monthly_avg['Demand_MU'] / monthly_avg['Demand_MU'].mean()] *)
Definition seasonal_index (avgs : list f64) : list f64 :=
  let m := mean avgs in
  map (fun a => fdiv a m) avgs.

Definition monthly_avg (df : DataFrame) : result (list seasonal_row) :=
  avg ← groupby_mean "Month" "Demand_MU" df;
  Ok (zip_with (fun kv i => (kv.1, kv.2, i)) avg (seasonal_index (values avg))).

Definition seasonal_table (rows : list seasonal_row) : DataFrame :=
  [ ("Month", map (fun r => r.1.1) rows);
    ("Demand_MU", map (fun r => CNum r.1.2) rows);
    ("Seasonal_Index", map (fun r => CNum r.2) rows) ].

Definition analyze_seasonal_patterns : M (option (list seasonal_row)) :=
  d ← get_data;
  match Dict.get "monthly_detailed" d with
  | None => print (NotAvailable "Monthly detailed data") ;; mret None
  | Some _ =>
      df ← table "monthly_detailed";
      print (Banner "SEASONAL PATTERNS ANALYSIS") ;;
      rows ← lift (monthly_avg df);
      let peak_months := nlargest 3 (fun r => r.1.2) rows in
      let low_months := nsmallest 3 (fun r => r.1.2) rows in
      print (Table "PEAK DEMAND MONTHS:" (seasonal_table peak_months)) ;;
      print (Table "LOW DEMAND MONTHS:" (seasonal_table low_months)) ;;
      mret (Some rows)
  end.

(** [df[df['Year'] == year]] *)
Definition of_year (year : Z) (df : DataFrame) : result DataFrame :=
  years ← get_col "Year" df;
  Ok (filter_rows (col_eq years (CNum (of_Z year))) df).

(** [(df_b.set_index(key)[val] / df_a.set_index(key)[val] - 1) * 100] *)
Definition sector_growth (df_a df_b : DataFrame) (key val : string) : result series :=
  b ← indexed key val df_b;
  a ← indexed key val df_a;
  Ok (series_map (fun x => fmul x (Fin 100))
        (series_map (fun x => fsub x (Fin 1)) (series_div b a))).

Definition analyze_sector_wise_consumption : M (option (DataFrame * DataFrame)) :=
  d ← get_data;
  match Dict.get "sector_wise" d with
  | None => print (NotAvailable "Sector-wise data") ;; mret None
  | Some _ =>
      df ← table "sector_wise";
      print (Banner "SECTOR-WISE CONSUMPTION ANALYSIS") ;;
      df_2025 ← lift (of_year 2025 df);
      df_2030 ← lift (of_year 2030 df);
      t ← lift (select_cols ["Sector"; "Demand_MU"; "Share_%"] df_2025);
      print (Table "2025 SECTOR BREAKDOWN:" t) ;;
      t ← lift (select_cols ["Sector"; "Demand_MU"; "Share_%"] df_2030);
      print (Table "2030 PROJECTED SECTOR BREAKDOWN:" t) ;;
      growth ← lift (sector_growth df_2025 df_2030 "Sector" "Demand_MU");
      print (Say "SECTOR GROWTH (2025-2030):") ;;
      for_each growth (fun sg => print (SectorGrowth sg.1 sg.2)) ;;
      mret (Some (df_2025, df_2030))
  end.

(** The figure a chart method returns is not modelled: no caller uses
    it. *)
Definition create_demand_projection_chart (w : world) : M unit :=
  d ← get_data;
  match Dict.get "projections" d with
  | None => print (NotAvailable "Projection data")
  | Some _ =>
      year ← column_of "projections" "Year";
      demand ← column_of "projections" "Demand_MU";
      lift (draw w (DemandBars year demand)) ;;
      year ← column_of "projections" "Year";
      cost ← column_of "projections" "Cost_Rs_per_unit";
      lift (draw w (CostLine year cost)) ;;
      lift (draw w (Show "Chennai Electricity: Demand Growth vs Cost Increase (2025-2030)"))
  end.

(** The pivot of the table by year and month is left to the collaborator
    together with the drawing. *)
Definition create_seasonal_heatmap (w : world) : M unit :=
  d ← get_data;
  match Dict.get "monthly_detailed" d with
  | None => print (NotAvailable "Monthly detailed data")
  | Some _ =>
      df ← table "monthly_detailed";
      lift (draw w (SeasonalHeatmap df)) ;;
      lift (draw w (Show "Chennai Monthly Electricity Demand Heatmap (2023-2025)"))
  end.

Definition create_sector_pie_chart (w : world) : M unit :=
  d ← get_data;
  match Dict.get "sector_wise" d with
  | None => print (NotAvailable "Sector-wise data")
  | Some _ =>
      df ← table "sector_wise";
      df_2025 ← lift (of_year 2025 df);
      demand ← lift (get_col "Demand_MU" df_2025);
      sector ← lift (get_col "Sector" df_2025);
      lift (draw w (SectorPie demand sector)) ;;
      lift (draw w (Show "Chennai Electricity Consumption by Sector (2025)"))
  end.

Definition weekend_days : list cell := [CStr "Saturday"; CStr "Sunday"].

(** [df[~df[day].isin(weekend)].groupby(hour)[value].mean()] *)
Definition weekday_profile (df : DataFrame) (day hour value : string)
    (weekend : list cell) : result series :=
  days ← get_col day df;
  groupby_mean hour value (filter_rows (map negb (isin days weekend)) df).

(** [df[df[day].isin(weekend)].groupby(hour)[value].mean()] *)
Definition weekend_profile (df : DataFrame) (day hour value : string)
    (weekend : list cell) : result series :=
  days ← get_col day df;
  groupby_mean hour value (filter_rows (isin days weekend) df).

Definition create_daily_load_profile (w : world) : M unit :=
  d ← get_data;
  match Dict.get "daily_load" d with
  | None => print (NotAvailable "Daily load data")
  | Some _ =>
      df ← table "daily_load";
      weekday_avg ← lift (weekday_profile df "Day" "Hour" "Demand_MW" weekend_days);
      lift (draw w (WeekdayProfile weekday_avg)) ;;
      weekend_avg ← lift (weekend_profile df "Day" "Hour" "Demand_MW" weekend_days);
      lift (draw w (WeekendProfile weekend_avg)) ;;
      lift (draw w (Show "Chennai Daily Electricity Load Profiles"))
  end.

Definition create_infrastructure_dashboard (w : world) : M unit :=
  d ← get_data;
  match Dict.get "infrastructure" d with
  | None => print (NotAvailable "Infrastructure data")
  | Some _ =>
      year ← column_of "infrastructure" "Year";
      capacity ← column_of "infrastructure" "Generation_Capacity_MW";
      lift (draw w (GenerationBars year capacity)) ;;
      renewable ← column_of "infrastructure" "Renewable_Capacity_MW";
      lift (draw w (RenewableLines year capacity renewable)) ;;
      meters ← column_of "infrastructure" "Smart_Meters_Deployed";
      lift (draw w (SmartMeterBars year meters)) ;;
      losses ← column_of "infrastructure" "T_D_Losses_%";
      lift (draw w (LossesLine year losses)) ;;
      lift (draw w (Show "Chennai Electricity Infrastructure Dashboard (2025-2030)"))
  end.

(** A call whose value the caller drops. *)
Definition call {A} (m : M A) : M unit := m ;; mret tt.

(** The statements of [generate_comprehensive_report], in order. *)
Definition report_statements (w : world) : list (M unit) :=
  [ print (Banner "COMPREHENSIVE CHENNAI ELECTRICITY ANALYTICS REPORT");
    call (load_all_data w);
    display_data_summary;
    print (Say "Analyzing Historical Trends...");
    call analyze_historical_trends;
    print (Say "Analyzing Seasonal Patterns...");
    call analyze_seasonal_patterns;
    print (Say "Analyzing Sector-wise Consumption...");
    call analyze_sector_wise_consumption;
    print (Say "Creating Visualizations...");
    print (Say "1. Demand Projection Chart:");
    create_demand_projection_chart w;
    print (Say "2. Seasonal Heatmap:");
    create_seasonal_heatmap w;
    print (Say "3. Sector Pie Chart:");
    create_sector_pie_chart w;
    print (Say "4. Daily Load Profile:");
    create_daily_load_profile w;
    print (Say "5. Infrastructure Dashboard:");
    create_infrastructure_dashboard w;
    print (Say "Comprehensive analysis completed!");
    print (Say "All visualizations generated successfully!") ].

Definition generate_comprehensive_report (w : world) : M unit :=
  for_each (report_statements w) (fun statement => statement).

Definition main (w : world) : M unit :=
  try_except
    (init ;; generate_comprehensive_report w)
    is_Exception
    (fun e =>
       print (MainFailed e) ;;
       print (Say "Please ensure all CSV files are in the same directory as this script.")).

(** The state a process starts [main] in: no instance yet, nothing
    printed. *)
Definition start : state := {| data := []; out := [] |}.

(** The analysis and chart methods, each with the registry key it
    looks for and the name it prints when the key is absent. *)
Definition dependent_analyses (w : world) : list (string * string * M unit) :=
  [ ("historical", "Historical data", call analyze_historical_trends);
    ("monthly_detailed", "Monthly detailed data", call analyze_seasonal_patterns);
    ("sector_wise", "Sector-wise data", call analyze_sector_wise_consumption);
    ("projections", "Projection data", create_demand_projection_chart w);
    ("monthly_detailed", "Monthly detailed data", create_seasonal_heatmap w);
    ("sector_wise", "Sector-wise data", create_sector_pie_chart w);
    ("daily_load", "Daily load data", create_daily_load_profile w);
    ("infrastructure", "Infrastructure data", create_infrastructure_dashboard w) ].

End Main.

(* ===================================================================== *)
(** ** [chennai_electricity_standalone.py]: the metrics of
       [display_key_metrics] *)
(* ===================================================================== *)

Module Standalone.

Import Frame.

(** [((s.iloc[-1] / s.iloc[0]) - 1) * 100] *)
Definition total_growth (col : column) : result f64 :=
  l ← iloc_last col;
  f ← iloc_first col;
  last ← num_of l;
  first ← num_of f;
  Ok (fmul (fsub (fdiv last first) (Fin 1)) (Fin 100)).

Definition total_demand_growth (df_proj : DataFrame) : result f64 :=
  col ← get_col "Demand_MU" df_proj;
  total_growth col.

Definition total_cost_increase (df_proj : DataFrame) : result f64 :=
  col ← get_col "Cost_Rs_per_unit" df_proj;
  total_growth col.

Definition market_value_cagr (df_proj : DataFrame) : result f64 :=
  col ← get_col "Market_Value_Cr" df_proj;
  Main.column_cagr col 5.

End Standalone.

(* ===================================================================== *)
(** ** The expressions on binary64 numbers *)
(* ===================================================================== *)

(** The numbers of the program are IEEE 754 binary64 numbers (the
    [float] of Python, the [float64] of numpy), rounded to nearest.
    These are the expressions of the growth column and of the seasonal
    index on those numbers, for what depends on the rounding. *)
Module Binary64.

Import PrimFloat.
Local Open Scope float_scope.

(** One row of [df[c].pct_change() * 100]: [(cur / prev - 1) * 100]. *)
Definition growth_step (cur prev : float) : float :=
  (cur / prev - 1) * 100.

(** In the words of the specification:
    [(value[i] - value[i-1]) / value[i-1] * 100]. *)
Definition growth_by_difference (cur prev : float) : float :=
  (cur - prev) / prev * 100.

(** [s.sum()] on a series without missing values and with fewer than 8
    rows, which numpy adds in the order of the rows. *)
Definition sum (xs : list float) : float := fold_left add xs 0.

(** The number of rows, as a float. *)
Definition count (xs : list float) : float :=
  fold_left (fun n _ => n + 1) xs 0.

(** [s.mean()] on such a series. *)
Definition mean (xs : list float) : float := sum xs / count xs.

(** [monthly_avg['Demand_MU'] / monthly_avg['Demand_MU'].mean()] *)
Definition seasonal_index (avgs : list float) : list float :=
  map (fun a => a / mean avgs) avgs.

End Binary64.

(* ===================================================================== *)
(** ** Vocabulary of the statements *)
(* ===================================================================== *)

Module Spec.

Import Series Frame Py Main.

(** One step of growth, as the program computes it:
    [(cur / prev - 1) * 100]. *)
Definition growth_step (cur prev : f64) : f64 :=
  fmul (fsub (fdiv cur prev) (Fin 1)) (Fin 100).

(** The growth entries after the first row, given the row before. *)
Fixpoint growth_after (prev : f64) (xs : list f64) : list f64 :=
  match xs with
  | [] => []
  | x :: xs' => growth_step x prev :: growth_after x xs'
  end.

(** No zero is directly followed by a zero. *)
Definition no_zero_pair (xs : list f64) : Prop :=
  forall i : nat, xs !! i = Some (Fin 0) -> xs !! (S i) = Some (Fin 0) -> False.

(** The compound annual growth rate on positive reals, in the words of
    the specification: [((last / first) ** (1 / num_periods) - 1) * 100]. *)
Definition compound_annual_growth_rate (first_value last_value : R)
    (num_periods : Z) : R :=
  ((Rpower (last_value / first_value) (1 / IZR num_periods) - 1) * 100)%R.

(** The historical table once both growth columns are assigned. *)
Definition with_growth (df : DataFrame) (demand cost : list f64) : DataFrame :=
  Dict.set "Cost_Growth_%" (of_floats (growth_pct cost))
    (Dict.set "Demand_Growth_%" (of_floats (growth_pct demand)) df).

(** What [analyze_historical_trends] prints on a table it can work on. *)
Definition historical_report (demand_cagr cost_cagr rise : f64) : list event :=
  [ Banner "HISTORICAL TRENDS ANALYSIS (2020-2024)";
    Metric "Demand CAGR (2020-2024)" demand_cagr;
    Metric "Cost CAGR (2020-2024)" cost_cagr;
    Metric "Peak Demand Growth" rise ].


(** A table of the documented schema of the historical file,
    [Year, Demand_MU, Cost_Rs_per_unit, Peak_Demand_MW]. *)
Definition historical_table (year demand cost peak : list f64) : DataFrame :=
  [ ("Year", of_floats year);
    ("Demand_MU", of_floats demand);
    ("Cost_Rs_per_unit", of_floats cost);
    ("Peak_Demand_MW", of_floats peak) ].


(** The value a series holds under a label, null when it has none. *)
Definition value_at (k : cell) (s : series) : f64 :=
  default NaN (head (at_label k s)).

(** What [analyze_sector_wise_consumption] prints on a table it can work
    on: the banner, the two breakdowns, and one line for each row of the
    growth. *)
Definition sector_report (t_2025 t_2030 : DataFrame) (growth : series) : list event :=
  [ Banner "SECTOR-WISE CONSUMPTION ANALYSIS";
    Table "2025 SECTOR BREAKDOWN:" t_2025;
    Table "2030 PROJECTED SECTOR BREAKDOWN:" t_2030;
    Say "SECTOR GROWTH (2025-2030):" ]
  ++ map (fun sg => SectorGrowth sg.1 sg.2) growth.

Definition sector_table (year : list f64) (sector : list string)
    (demand share : list f64) : DataFrame :=
  [ ("Year", of_floats year);
    ("Sector", map CStr sector);
    ("Demand_MU", of_floats demand);
    ("Share_%", of_floats share) ].

Definition sample_sectors : DataFrame :=
  sector_table [Fin 2025; Fin 2030; Fin 2030] ["Domestic"; "Domestic"; "Transport"]
    [Fin 100; Fin 150; Fin 100] [Fin 100; Fin 60; Fin 40].

(** A row of the daily-load table: day, hour, demand. *)
Abbreviation load_row := (cell * cell * f64)%type (only parsing).





(** The two columns [analyze_historical_trends] computes. *)
Definition growth_columns : list string := ["Demand_Growth_%"; "Cost_Growth_%"].

(** What a table may differ in after the method: every column but the
    computed ones is as before, in the same place, and the columns that
    are new come last and are computed ones. *)
Definition column_frame (df df' : DataFrame) : Prop :=
  (forall c, c ∉ growth_columns -> Dict.get c df' = Dict.get c df) /\
  exists added, Dict.keys df' = Dict.keys df ++ added /\
                forall c, c ∈ added -> c ∈ growth_columns.

(** What the registry may differ in after the method: the same keys in
    the same order, every other dataset as before, the historical table
    within [column_frame]. *)
Definition historical_frame (d d' : Dict.t DataFrame) : Prop :=
  Dict.keys d' = Dict.keys d /\
  (forall key, key <> "historical" -> Dict.get key d' = Dict.get key d) /\
  (forall df, Dict.get "historical" d = Some df ->
     exists df', Dict.get "historical" d' = Some df' /\ column_frame df df').

(** The registry is as before. *)
Definition same_data (d d' : Dict.t DataFrame) : Prop := d' = d.

(** Whatever the outcome of [m], the registry before and after it are
    related by [R]. *)
Definition keeps (R : Dict.t DataFrame -> Dict.t DataFrame -> Prop) {A} (m : M A) : Prop :=
  forall s r s', m s = (r, s') -> R (data s) (data s').

(** Reading [filename] succeeds or finds no file: nothing else goes
    wrong. *)
Definition found_or_missing (w : world) (filename : string) : Prop :=
  (exists df, read_csv w filename = Ok df) \/
  (exists f, read_csv w filename = Raise (FileNotFoundError f)).

(** No input file exists. *)
Definition all_missing (w : world) : Prop :=
  forall filename, exists f, read_csv w filename = Raise (FileNotFoundError f).

(** A world without any input file. *)
Definition no_files : world :=
  {| read_csv := fun filename => Raise (FileNotFoundError filename);
     draw := fun _ => Ok tt |}.

(** A world whose only input file is the historical one, and it lacks
    the demand column. *)
Definition no_demand_column : world :=
  {| read_csv := fun filename =>
       if decide (filename = "chennai_electricity_historical_2020_2024.csv")
       then Ok [("Year", [CStr "2020"; CStr "2021"])]
       else Raise (FileNotFoundError filename);
     draw := fun _ => Ok tt |}.

(** What a whole report prints when no input file exists. *)
Definition report_without_files : list event :=
  [ Banner "COMPREHENSIVE CHENNAI ELECTRICITY ANALYTICS REPORT" ]
  ++ map (fun kf => NotFound kf.2) data_files
  ++ [ LoadedCount 0;
       Banner "DATA SUMMARY";
       Say "Analyzing Historical Trends...";
       NotAvailable "Historical data";
       Say "Analyzing Seasonal Patterns...";
       NotAvailable "Monthly detailed data";
       Say "Analyzing Sector-wise Consumption...";
       NotAvailable "Sector-wise data";
       Say "Creating Visualizations...";
       Say "1. Demand Projection Chart:";
       NotAvailable "Projection data";
       Say "2. Seasonal Heatmap:";
       NotAvailable "Monthly detailed data";
       Say "3. Sector Pie Chart:";
       NotAvailable "Sector-wise data";
       Say "4. Daily Load Profile:";
       NotAvailable "Daily load data";
       Say "5. Infrastructure Dashboard:";
       NotAvailable "Infrastructure data";
       Say "Comprehensive analysis completed!";
       Say "All visualizations generated successfully!" ].

(** The two lines [main] prints for an exception it catches. *)
Definition main_failure (e : exn) : list event :=
  [ MainFailed e;
    Say "Please ensure all CSV files are in the same directory as this script." ].

(** What the run prints up to the statement that fails in the world
    [no_demand_column]. *)
Definition no_demand_column_output : list event :=
  [ Say "Chennai Electricity Analytics Program Initialized";
    Banner "COMPREHENSIVE CHENNAI ELECTRICITY ANALYTICS REPORT";
    Loaded "chennai_electricity_historical_2020_2024.csv" (2, 1) ]
  ++ map (fun kf => NotFound kf.2) (tail data_files)
  ++ [ LoadedCount 1;
       Banner "DATA SUMMARY";
       Summary "historical" (2, 1) ["Year"] [("Year", [CStr "2020"; CStr "2021"])];
       Say "Analyzing Historical Trends...";
       Banner "HISTORICAL TRENDS ANALYSIS (2020-2024)" ].

(** An instance that holds one dataset and has printed nothing. *)
Definition holding (key : string) (df : DataFrame) : state :=
  {| data := [(key, df)]; out := [] |}.

End Spec.

(* ===================================================================== *)
(** ** [chennai_electricity_standalone.py]: the series of the growth
       charts of [create_comprehensive_visualizations] *)
(* ===================================================================== *)

Module Dashboard.

Import Series Frame.

(** [s.dropna()] *)
Definition dropna (xs : list f64) : list f64 :=
  filter (fun x => notna x = true) xs.

(** [df_proj[c].pct_change() * 100] and then [.dropna()]: the heights of
    the bars of the two year-over-year charts. *)
Definition growth_rates (col : column) : result (list f64) :=
  xs ← to_floats col;
  Ok (dropna (growth_pct xs)).

(** [df_proj['Year'].iloc[1:]]: the positions of those bars. *)
Definition years_after_first (year : column) : column := drop 1 year.

(** [df_proj[c] / df_proj[c].iloc[0] * 100]: the cumulative growth
    index. *)
Definition growth_index (col : column) : result (list f64) :=
  f ← iloc_first col;
  xs ← to_floats col;
  first ← num_of f;
  Ok (map (fun x => fmul (fdiv x first) (Fin 100)) xs).

End Dashboard.

(* ===================================================================== *)
(** ** More vocabulary of the statements *)
(* ===================================================================== *)

Module Terms.

Import Series Frame Py Main Spec.

(** Reading [filename] succeeds. *)
Definition is_found (w : world) (filename : string) : bool :=
  match read_csv w filename with
  | Ok _ => true
  | Raise _ => false
  end.

(** The entries of [data_files] whose file can be read. *)
Definition found_files (w : world) (files : list (string * string)) : list (string * string) :=
  filter (fun kf => is_found w kf.2 = true) files.

(** A world in which the monthly file cannot be parsed and no other
    file exists but the historical one. *)
Definition unreadable_monthly : world :=
  {| read_csv := fun filename =>
       if decide (filename = "chennai_electricity_historical_2020_2024.csv")
       then Ok [("Year", [CStr "2020"])]
       else if decide (filename = "chennai_electricity_monthly_detailed_2023_2025.csv")
       then Raise (OtherError "ParserError")
       else Raise (FileNotFoundError filename);
     draw := fun _ => Ok tt |}.

(** A world in which no file exists but the first one, which cannot be
    parsed. *)
Definition unreadable_historical : world :=
  {| read_csv := fun filename =>
       if decide (filename = "chennai_electricity_historical_2020_2024.csv")
       then Raise (OtherError "ParserError")
       else Raise (FileNotFoundError filename);
     draw := fun _ => Ok tt |}.

(** The methods of the report that only read the registry. *)
Definition reading_methods (w : world) : list (M unit) :=
  [ display_data_summary;
    call analyze_seasonal_patterns;
    call analyze_sector_wise_consumption;
    create_demand_projection_chart w;
    create_seasonal_heatmap w;
    create_sector_pie_chart w;
    create_daily_load_profile w;
    create_infrastructure_dashboard w ].

(** What the report prints after the loading when the registry is
    empty. *)
Definition nothing_to_analyse : list event :=
  [ Banner "DATA SUMMARY";
    Say "Analyzing Historical Trends...";
    NotAvailable "Historical data";
    Say "Analyzing Seasonal Patterns...";
    NotAvailable "Monthly detailed data";
    Say "Analyzing Sector-wise Consumption...";
    NotAvailable "Sector-wise data";
    Say "Creating Visualizations...";
    Say "1. Demand Projection Chart:";
    NotAvailable "Projection data";
    Say "2. Seasonal Heatmap:";
    NotAvailable "Monthly detailed data";
    Say "3. Sector Pie Chart:";
    NotAvailable "Sector-wise data";
    Say "4. Daily Load Profile:";
    NotAvailable "Daily load data";
    Say "5. Infrastructure Dashboard:";
    NotAvailable "Infrastructure data";
    Say "Comprehensive analysis completed!";
    Say "All visualizations generated successfully!" ].




End Terms.

(* ===================================================================== *)
(** * Properties *)
(* ===================================================================== *)

Import Series Frame Py Main Spec.

(** ** Arithmetic on numbers *)

Section Arithmetic.

Local Open Scope R_scope.

Lemma Rsgn_spec (r : R) :
  match Rsgn r with
  | Lt => r < 0
  | Eq => r = 0
  | Gt => 0 < r
  end.
Proof. unfold Rsgn. destruct (total_order_T r 0) as [[H|H]|H]; assumption. Qed.

Lemma Rsgn_pos (r : R) : 0 < r -> Rsgn r = Gt.
Proof. intros H. pose proof (Rsgn_spec r) as S. destruct (Rsgn r); [lra | lra | reflexivity]. Qed.

Lemma Rsgn_neg (r : R) : r < 0 -> Rsgn r = Lt.
Proof. intros H. pose proof (Rsgn_spec r) as S. destruct (Rsgn r); [lra | reflexivity | lra]. Qed.

Lemma Rsgn_zero : Rsgn 0 = Eq.
Proof. pose proof (Rsgn_spec 0) as S. destruct (Rsgn 0); [reflexivity | lra | lra]. Qed.

Lemma Rsgn_nonzero (r : R) : r <> 0 -> Rsgn r <> Eq.
Proof. intros H E. pose proof (Rsgn_spec r) as S. rewrite E in S. contradiction. Qed.

Lemma fdiv_fin (a b : R) : b <> 0 -> fdiv (Fin a) (Fin b) = Fin (a / b).
Proof.
  intros H. simpl. pose proof (Rsgn_nonzero b H) as S.
  destruct (Rsgn b); [contradiction | reflexivity | reflexivity].
Qed.

Lemma fdiv_fin_zero (a : R) : fdiv (Fin a) (Fin 0) = inf_of (Rsgn a).
Proof. simpl. rewrite Rsgn_zero. reflexivity. Qed.

Lemma inf_of_notna (r : R) : r <> 0 -> notna (inf_of (Rsgn r)) = true.
Proof.
  intros H. pose proof (Rsgn_nonzero r H) as S.
  destruct (Rsgn r); [contradiction | reflexivity | reflexivity].
Qed.

Lemma growth_step_fin (c p : R) :
  p <> 0 -> growth_step (Fin c) (Fin p) = Fin ((c - p) / p * 100).
Proof.
  intros Hp. unfold growth_step. rewrite fdiv_fin by assumption.
  cbn. f_equal. field. assumption.
Qed.

Lemma growth_step_notna (c p : R) :
  ~ (c = 0 /\ p = 0) -> notna (growth_step (Fin c) (Fin p)) = true.
Proof.
  intros H. unfold growth_step.
  destruct (Req_dec_T p 0) as [->|Hp].
  - assert (Hc : c <> 0) by (intros ->; apply H; split; reflexivity).
    rewrite fdiv_fin_zero. pose proof (Rsgn_nonzero c Hc) as S.
    assert (H100 : Rsgn 100 = Gt) by (apply Rsgn_pos; lra).
    destruct (Rsgn c); [contradiction | |]; cbn; rewrite H100; reflexivity.
  - rewrite fdiv_fin by assumption. reflexivity.
Qed.

End Arithmetic.

(** ** Period-over-period growth *)

Section Growth.

Lemma ffill_from_fin (l : f64) (xs : list f64) :
  Forall is_fin xs -> ffill_from l xs = xs.
Proof.
  intros H. revert l. induction H as [|x xs Hx _ IH]; intros l; [reflexivity|].
  destruct x; try contradiction. cbn. f_equal. apply IH.
Qed.

Lemma pct_change_after (p : f64) (xs : list f64) :
  times100 (zip_with (fun a b => fsub (fdiv a b) (Fin 1)) xs (take (length xs) (p :: xs)))
  = growth_after p xs.
Proof.
  revert p. induction xs as [|x xs IH]; intros p; [reflexivity|].
  cbn. f_equal. apply IH.
Qed.

Lemma growth_pct_fin (x : f64) (xs : list f64) :
  Forall is_fin (x :: xs) -> growth_pct (x :: xs) = NaN :: growth_after x xs.
Proof.
  intros H. unfold growth_pct, pct_change, ffill, shift.
  rewrite (ffill_from_fin _ _ H).
  change (take (length (x :: xs)) (NaN :: x :: xs))
    with (NaN :: take (length xs) (x :: xs)).
  cbn [zip_with times100 map]. f_equal.
  - destruct x; reflexivity.
  - apply pct_change_after.
Qed.

Lemma growth_after_length (p : f64) (xs : list f64) :
  length (growth_after p xs) = length xs.
Proof. revert p. induction xs as [|x xs IH]; intros p; cbn; [|rewrite IH]; reflexivity. Qed.

Lemma growth_after_lookup (p : f64) (xs : list f64) (i : nat) (prev cur : f64) :
  (p :: xs) !! i = Some prev -> xs !! i = Some cur ->
  growth_after p xs !! i = Some (growth_step cur prev).
Proof.
  revert p i. induction xs as [|x xs IH]; intros p i Hp Hc; [discriminate|].
  destruct i as [|i]; cbn in *.
  - congruence.
  - apply IH; assumption.
Qed.

Lemma growth_after_all_notna (p : f64) (xs : list f64) :
  Forall is_fin (p :: xs) -> no_zero_pair (p :: xs) ->
  count_notna (growth_after p xs) = length xs.
Proof.
  revert p. induction xs as [|x xs IH]; intros p Hfin Hz; [reflexivity|].
  inversion Hfin as [|? ? Hp Hfin']; subst.
  inversion Hfin' as [|? ? Hx _]; subst.
  destruct p as [a| | |]; try contradiction.
  destruct x as [b| | |]; try contradiction.
  unfold count_notna in *. cbn [growth_after].
  rewrite filter_cons_True.
  - cbn [length]. f_equal. apply IH; [assumption|].
    intros i H1 H2. exact (Hz (S i) H1 H2).
  - apply growth_step_notna. intros [-> ->]. exact (Hz 0%nat eq_refl eq_refl).
Qed.

End Growth.

(** C1, as the program has it.  For a column of [N >= 2] finite numbers
    in which no zero is directly followed by a zero, the growth column
    [df[col].pct_change() * 100] has [N] rows of which exactly [N - 1]
    are non-null; the first row is null; every later row [i] is
    [(value[i] / value[i-1] - 1) * 100] as the program computes it, and
    is not null. *)
Theorem period_growth_values (xs : list f64) :
  (2 <= length xs)%nat -> Forall is_fin xs -> no_zero_pair xs ->
  length (growth_pct xs) = length xs /\
  count_notna (growth_pct xs) = (length xs - 1)%nat /\
  growth_pct xs !! 0%nat = Some NaN /\
  forall (i : nat) (prev cur : f64),
    xs !! i = Some prev -> xs !! (S i) = Some cur ->
    growth_pct xs !! (S i)
      = Some (fmul (fsub (fdiv cur prev) (Fin 1)) (Fin 100)) /\
    notna (fmul (fsub (fdiv cur prev) (Fin 1)) (Fin 100)) = true.
Proof.
  intros Hlen Hfin Hz.
  destruct xs as [|x xs]; [cbn in Hlen; lia|].
  rewrite (growth_pct_fin _ _ Hfin).
  split; [|split; [|split]].
  - cbn. f_equal. apply growth_after_length.
  - unfold count_notna. rewrite filter_cons_False by (cbn; discriminate).
    change (count_notna (growth_after x xs) = (length (x :: xs) - 1)%nat).
    rewrite (growth_after_all_notna _ _ Hfin Hz). cbn. lia.
  - reflexivity.
  - intros i prev cur Hprev Hcur. split.
    + apply (growth_after_lookup x xs i); assumption.
    + rewrite Forall_forall in Hfin.
      pose proof (Hfin prev (list_elem_of_lookup_2 _ _ _ Hprev)) as Fp.
      pose proof (Hfin cur (list_elem_of_lookup_2 _ _ _ Hcur)) as Fc.
      destruct prev as [p| | |]; try contradiction.
      destruct cur as [c| | |]; try contradiction.
      apply (growth_step_notna c p). intros [-> ->]. exact (Hz i Hprev Hcur).
Qed.

Lemma period_growth_values_witness :
  let xs := [Fin 100; Fin 110; Fin 121] in
  (2 <= length xs)%nat /\ Forall is_fin xs /\ no_zero_pair xs /\
  count_notna (growth_pct xs) = 2%nat /\
  growth_pct xs !! 2%nat
  = Some (fmul (fsub (fdiv (Fin 121) (Fin 110)) (Fin 1)) (Fin 100)).
Proof.
  intros xs.
  assert (Hlen : (2 <= length xs)%nat) by (cbn; lia).
  assert (Hfin : Forall is_fin xs) by (repeat constructor).
  assert (Hz : no_zero_pair xs).
  { intros [|[|[|i]]]; cbn; intros [= H]; lra. }
  destruct (period_growth_values xs Hlen Hfin Hz) as (_ & Hcount & _ & Hrows).
  destruct (Hrows 1%nat (Fin 110) (Fin 121) eq_refl eq_refl) as (Hval & _).
  split; [exact Hlen|]. split; [exact Hfin|]. split; [exact Hz|].
  split; [exact Hcount | exact Hval].
Defined.

(** C1 as stated fails where a zero follows a zero: both rows of the
    growth column are then null, not one of the two. *)
Lemma period_growth_zero_after_zero :
  growth_pct [Fin 0; Fin 0] = [NaN; NaN] /\
  count_notna (growth_pct [Fin 0; Fin 0]) <> (length [Fin 0; Fin 0] - 1)%nat.
Proof.
  assert (E : growth_pct [Fin 0; Fin 0] = [NaN; NaN]).
  { cbn. rewrite !Rsgn_zero. reflexivity. }
  split; [exact E|]. rewrite E. cbn. discriminate.
Qed.

(** On the program's numbers a row is not always the number that
    [(value[i] - value[i-1]) / value[i-1] * 100] gives: from 110 to 121
    that formula gives 10, the program a number above 10. *)
Section GrowthRounding.

Import PrimFloat.
Local Open Scope float_scope.

Lemma growth_differs_from_difference_formula :
  (Binary64.growth_by_difference 121 110 =? 10) = true /\
  (10 <? Binary64.growth_step 121 110) = true.
Proof. split; vm_compute; reflexivity. Qed.

End GrowthRounding.

(** ** Dictionaries *)

Section DictFacts.

Context {V : Type}.
Implicit Types (d : Dict.t V) (k : string) (v : V).

Lemma get_set_eq k v d : Dict.get k (Dict.set k v d) = Some v.
Proof.
  induction d as [|[k' v'] d IH]; cbn.
  - rewrite decide_True by reflexivity. reflexivity.
  - destruct (decide (k = k')) as [->|Hne]; cbn.
    + rewrite decide_True by reflexivity. reflexivity.
    + rewrite decide_False by assumption. exact IH.
Qed.

Lemma get_set_ne k k' v d : k <> k' -> Dict.get k' (Dict.set k v d) = Dict.get k' d.
Proof.
  intros Hne. induction d as [|[k0 v0] d IH]; cbn.
  - rewrite decide_False by congruence. reflexivity.
  - destruct (decide (k = k0)) as [->|Hk]; cbn.
    + rewrite !decide_False by congruence. reflexivity.
    + destruct (decide (k' = k0)); [reflexivity | exact IH].
Qed.

Lemma set_set k v v' d : Dict.set k v' (Dict.set k v d) = Dict.set k v' d.
Proof.
  induction d as [|[k0 v0] d IH]; cbn.
  - rewrite decide_True by reflexivity. reflexivity.
  - destruct (decide (k = k0)) as [->|Hk]; cbn.
    + rewrite decide_True by reflexivity. reflexivity.
    + rewrite decide_False by assumption. f_equal. exact IH.
Qed.

Lemma get_None_keys k d : Dict.get k d = None <-> k ∉ Dict.keys d.
Proof.
  induction d as [|[k0 v0] d IH]; cbn.
  - split; [intros _; apply not_elem_of_nil | reflexivity].
  - destruct (decide (k = k0)) as [->|Hk].
    + split; [discriminate | intros H; exfalso; apply H; left].
    + rewrite IH. rewrite not_elem_of_cons. tauto.
Qed.

Lemma keys_set_present k v d :
  k ∈ Dict.keys d -> Dict.keys (Dict.set k v d) = Dict.keys d.
Proof.
  induction d as [|[k0 v0] d IH]; cbn; intros Hin.
  - apply elem_of_nil in Hin. contradiction.
  - destruct (decide (k = k0)) as [->|Hk]; cbn; [reflexivity|].
    f_equal. apply IH. apply elem_of_cons in Hin as [?|?]; [contradiction | assumption].
Qed.

Lemma keys_set_absent k v d :
  k ∉ Dict.keys d -> Dict.keys (Dict.set k v d) = Dict.keys d ++ [k].
Proof.
  induction d as [|[k0 v0] d IH]; cbn; intros Hout; [reflexivity|].
  apply not_elem_of_cons in Hout as [Hk Hout].
  rewrite decide_False by assumption. cbn. f_equal. apply IH, Hout.
Qed.

End DictFacts.

(** ** Running methods *)

Section Running.

Lemma bind_ok {A B} (m : M A) (k : A -> M B) (s s1 : state) (a : A) :
  m s = (Ok a, s1) -> (m ≫= k) s = k a s1.
Proof. intros H. unfold mbind, M_bind. rewrite H. reflexivity. Qed.

Lemma bind_raise {A B} (m : M A) (k : A -> M B) (s s1 : state) (e : exn) :
  m s = (Raise e, s1) -> (m ≫= k) s = (Raise e, s1).
Proof. intros H. unfold mbind, M_bind. rewrite H. reflexivity. Qed.

Lemma table_run (key : string) (df : DataFrame) (s : state) :
  Dict.get key (data s) = Some df -> table key s = (Ok df, s).
Proof.
  intros H. unfold table. rewrite (bind_ok _ _ s s (data s)) by reflexivity.
  rewrite H. reflexivity.
Qed.

Lemma column_of_run (key c : string) (df : DataFrame) (col : column) (s : state) :
  Dict.get key (data s) = Some df -> Dict.get c df = Some col ->
  column_of key c s = (Ok col, s).
Proof.
  intros H Hc. unfold column_of.
  rewrite (bind_ok _ _ _ _ _ (table_run _ _ _ H)).
  unfold lift, get_col. rewrite Hc. reflexivity.
Qed.

Lemma column_of_missing (key c : string) (df : DataFrame) (s : state) :
  Dict.get key (data s) = Some df -> Dict.get c df = None ->
  column_of key c s = (Raise (KeyError c), s).
Proof.
  intros H Hc. unfold column_of.
  rewrite (bind_ok _ _ _ _ _ (table_run _ _ _ H)).
  unfold lift, get_col. rewrite Hc. reflexivity.
Qed.

Lemma assign_column_run (key c : string) (col : column) (df : DataFrame) (s : state) :
  Dict.get key (data s) = Some df ->
  assign_column key c col s
  = (Ok tt, {| data := Dict.set key (Dict.set c col df) (data s); out := out s |}).
Proof.
  intros H. unfold assign_column.
  rewrite (bind_ok _ _ _ _ _ (table_run _ _ _ H)).
  reflexivity.
Qed.

Lemma to_floats_of_floats (xs : list f64) : to_floats (of_floats xs) = Ok xs.
Proof.
  unfold of_floats. induction xs as [|x xs IH]; cbn; [|rewrite IH]; reflexivity.
Qed.

Lemma growth_column_of_floats (xs : list f64) :
  growth_column (of_floats xs) = Ok (of_floats (growth_pct xs)).
Proof. unfold growth_column. rewrite to_floats_of_floats. reflexivity. Qed.

End Running.

(** ** [analyze_historical_trends] on a numeric table *)

Section Historical.

Lemma print_run (e : event) (s : state) :
  print e s = (Ok tt, {| data := data s; out := out s ++ [e] |}).
Proof. reflexivity. Qed.

Lemma lift_run {A} (r : result A) (s : state) : lift r s = (r, s).
Proof. reflexivity. Qed.

(** The method assigns both growth columns to the table in the
    registry, prints its three metrics and returns the table. *)
Lemma analyze_historical_trends_numeric (s : state) (df : DataFrame)
    (demand cost peak : list f64) (dc cc r : f64) :
  Dict.get "historical" (data s) = Some df ->
  Dict.get "Demand_MU" df = Some (of_floats demand) ->
  Dict.get "Cost_Rs_per_unit" df = Some (of_floats cost) ->
  Dict.get "Peak_Demand_MW" df = Some (of_floats peak) ->
  column_cagr (of_floats demand) 4 = Ok dc ->
  column_cagr (of_floats cost) 4 = Ok cc ->
  column_rise (of_floats peak) = Ok r ->
  analyze_historical_trends s
  = (Ok (Some (with_growth df demand cost)),
     {| data := Dict.set "historical" (with_growth df demand cost) (data s);
        out := out s ++ historical_report dc cc r |}).
Proof.
  intros Hh Hd Hc Hp Hdc Hcc Hr.
  unfold analyze_historical_trends.
  rewrite (bind_ok _ _ s s (data s)) by reflexivity.
  rewrite Hh.
  rewrite (bind_ok _ _ _ _ _ (print_run _ _)).
  set (s1 := {| data := data s; out := _ |}).
  rewrite (bind_ok _ _ _ _ _ (column_of_run "historical" "Demand_MU" df _ s1 Hh Hd)).
  rewrite growth_column_of_floats.
  rewrite (bind_ok _ _ _ _ _ (lift_run _ _)).
  rewrite (bind_ok _ _ _ _ _ (assign_column_run "historical" _ _ df s1 Hh)).
  set (df1 := Dict.set "Demand_Growth_%" _ df).
  set (s2 := {| data := Dict.set "historical" df1 (data s1); out := out s1 |}).
  assert (H2 : Dict.get "historical" (data s2) = Some df1) by apply get_set_eq.
  assert (Hc1 : Dict.get "Cost_Rs_per_unit" df1 = Some (of_floats cost)).
  { unfold df1. rewrite get_set_ne by discriminate. exact Hc. }
  rewrite (bind_ok _ _ _ _ _ (column_of_run _ _ _ _ s2 H2 Hc1)).
  rewrite growth_column_of_floats.
  rewrite (bind_ok _ _ _ _ _ (lift_run _ _)).
  rewrite (bind_ok _ _ _ _ _ (assign_column_run "historical" _ _ df1 s2 H2)).
  set (df2 := Dict.set "Cost_Growth_%" _ df1).
  set (s3 := {| data := Dict.set "historical" df2 (data s2); out := out s2 |}).
  assert (H3 : Dict.get "historical" (data s3) = Some df2) by apply get_set_eq.
  assert (Hd2 : Dict.get "Demand_MU" df2 = Some (of_floats demand)).
  { unfold df2, df1. rewrite !get_set_ne by discriminate. exact Hd. }
  assert (Hc2 : Dict.get "Cost_Rs_per_unit" df2 = Some (of_floats cost)).
  { unfold df2. rewrite get_set_ne by discriminate. exact Hc1. }
  assert (Hp2 : Dict.get "Peak_Demand_MW" df2 = Some (of_floats peak)).
  { unfold df2, df1. rewrite !get_set_ne by discriminate. exact Hp. }
  rewrite (bind_ok _ _ _ _ _ (column_of_run _ _ _ _ s3 H3 Hd2)).
  rewrite Hdc, (bind_ok _ _ _ _ _ (lift_run _ _)).
  rewrite (bind_ok _ _ _ _ _ (column_of_run _ _ _ _ s3 H3 Hc2)).
  rewrite Hcc, (bind_ok _ _ _ _ _ (lift_run _ _)).
  rewrite (bind_ok _ _ _ _ _ (print_run _ _)).
  rewrite (bind_ok _ _ _ _ _ (print_run _ _)).
  set (s5 := {| data := _; out := _ |}).
  assert (H5 : Dict.get "historical" (data s5) = Some df2) by exact H3.
  rewrite (bind_ok _ _ _ _ _ (column_of_run _ _ _ _ s5 H5 Hp2)).
  rewrite Hr, (bind_ok _ _ _ _ _ (lift_run _ _)).
  rewrite (bind_ok _ _ _ _ _ (print_run _ _)).
  set (s6 := {| data := _; out := _ |}).
  assert (H6 : Dict.get "historical" (data s6) = Some df2) by exact H3.
  rewrite (bind_ok _ _ _ _ _ (table_run _ _ s6 H6)).
  unfold mret, M_ret, s6, s5, s3, s2, s1, historical_report. cbn [data out].
  rewrite set_set. rewrite <- !app_assoc. reflexivity.
Qed.

End Historical.

(** ** The compound annual growth rate *)

Section Cagr.
Local Open Scope R_scope.

Lemma int_truediv_nonzero (a b : Z) :
  b <> 0%Z -> int_truediv a b = Ok (IZR a / IZR b).
Proof. intros H. unfold int_truediv. rewrite decide_False by assumption. reflexivity. Qed.

Lemma inv_periods_pos (n : Z) : (0 < n)%Z -> 0 < 1 / IZR n.
Proof.
  intros H. apply Rdiv_lt_0_compat; [lra|]. apply IZR_lt in H. exact H.
Qed.

Lemma inv_periods_lt_1 (n : Z) : (2 <= n)%Z -> 1 / IZR n < 1.
Proof.
  intros H. apply IZR_le in H.
  apply (Rmult_lt_reg_r (IZR n)); [lra|].
  unfold Rdiv. rewrite Rmult_assoc, Rinv_l by lra. lra.
Qed.

Lemma fraction_not_int (e : R) : 0 < e -> e < 1 -> is_int e = false.
Proof.
  intros H0 H1. unfold is_int.
  destruct (Req_dec_T e (IZR (Int_part e))) as [Heq|]; [|reflexivity].
  exfalso. rewrite Heq in H0, H1.
  apply lt_IZR in H0. apply lt_IZR in H1. lia.
Qed.

Lemma cagr_positive (first last : R) (n : Z) :
  0 < first -> 0 < last -> (0 < n)%Z ->
  cagr (Fin first) (Fin last) n
  = Ok (Fin (compound_annual_growth_rate first last n)).
Proof.
  intros Hf Hl Hn. unfold cagr.
  rewrite int_truediv_nonzero by lia. cbn [mbind result_bind].
  rewrite fdiv_fin by lra.
  unfold fpow. rewrite (Rsgn_pos _ (inv_periods_pos n Hn)).
  rewrite Rsgn_pos by (apply Rdiv_lt_0_compat; assumption).
  reflexivity.
Qed.

Lemma cagr_zero_periods (first last : f64) :
  cagr first last 0 = Raise ZeroDivisionError.
Proof. reflexivity. Qed.

Lemma fmul_inf_100 : fmul PInf (Fin 100) = PInf.
Proof. cbn. rewrite Rsgn_pos by lra. reflexivity. Qed.

Lemma cagr_zero_first (last : R) (n : Z) :
  (2 <= n)%Z -> last <> 0 -> cagr (Fin 0) (Fin last) n = Ok PInf.
Proof.
  intros Hn Hl. unfold cagr.
  rewrite int_truediv_nonzero by lia. cbn [mbind result_bind].
  rewrite fdiv_fin_zero.
  assert (He : 0 < 1 / IZR n) by (apply inv_periods_pos; lia).
  assert (Hi : odd_int (1 / IZR n) = false).
  { unfold odd_int. rewrite fraction_not_int; [reflexivity | exact He |].
    apply inv_periods_lt_1, Hn. }
  unfold fpow. rewrite (Rsgn_pos _ He).
  pose proof (Rsgn_nonzero last Hl) as S.
  destruct (Rsgn last); [contradiction | |]; cbn [inf_of]; rewrite ?Hi;
    cbn [fsub fneg fadd]; rewrite fmul_inf_100; reflexivity.
Qed.

Lemma cagr_zero_both (n : Z) :
  n <> 0%Z -> cagr (Fin 0) (Fin 0) n = Ok NaN.
Proof.
  intros Hn. unfold cagr.
  rewrite int_truediv_nonzero by assumption. cbn [mbind result_bind].
  rewrite fdiv_fin_zero, Rsgn_zero. cbn [inf_of].
  unfold fpow.
  assert (He : 1 / IZR n <> 0).
  { unfold Rdiv. rewrite Rmult_1_l. apply Rinv_neq_0_compat.
    intros H. apply eq_IZR in H. contradiction. }
  pose proof (Rsgn_nonzero _ He) as S.
  destruct (Rsgn (1 / IZR n)); [contradiction | |]; reflexivity.
Qed.

(** The expression, whatever the numbers. *)
Lemma cagr_value (first last : f64) (n : Z) :
  n <> 0%Z ->
  cagr first last n
  = Ok (fmul (fsub (fpow (fdiv last first) (1 / IZR n)) (Fin 1)) (Fin 100)).
Proof.
  intros Hn. unfold cagr. rewrite int_truediv_nonzero by exact Hn. reflexivity.
Qed.

(** A fourth root between two bounds. *)
Lemma fourth_root_bounds (x lo hi : R) :
  0 < lo -> lo ^ 4 < x -> x < hi ^ 4 -> 0 < hi ->
  lo < Rpower x (1 / 4) < hi.
Proof.
  intros Hlo Hx1 Hx2 Hhi.
  assert (Hx : 0 < x) by (pose proof (pow_lt lo 4 Hlo); lra).
  assert (E : forall y, 0 < y -> Rpower (y ^ 4) (1 / 4) = y).
  { intros y Hy. rewrite <- (Rpower_pow 4 y Hy), Rpower_mult.
    replace (INR 4 * (1 / 4)) with 1 by (simpl; lra). apply Rpower_1, Hy. }
  split.
  - apply Rle_lt_trans with (Rpower (lo ^ 4) (1 / 4)); [rewrite (E lo Hlo); lra|].
    apply Rlt_Rpower_l; [lra|]. split; [apply pow_lt, Hlo | exact Hx1].
  - apply Rlt_le_trans with (Rpower (hi ^ 4) (1 / 4)); [|rewrite (E hi Hhi); lra].
    apply Rlt_Rpower_l; [lra|]. split; [exact Hx | exact Hx2].
Qed.

Lemma iloc_last_of_floats (xs : list f64) (x : f64) :
  last xs = Some x -> iloc_last (of_floats xs) = Ok (CNum x).
Proof.
  intros H. unfold iloc_last, of_floats.
  change (map CNum xs) with (CNum <$> xs). rewrite fmap_last, H. reflexivity.
Qed.

Lemma iloc_first_of_floats (xs : list f64) (x : f64) :
  xs !! 0%nat = Some x -> iloc_first (of_floats xs) = Ok (CNum x).
Proof. destruct xs as [|y xs]; cbn; [discriminate | intros [= ->]; reflexivity]. Qed.

Lemma column_cagr_ends (xs : list f64) (first last : f64) (n : Z) :
  xs !! 0%nat = Some first -> list.last xs = Some last ->
  column_cagr (of_floats xs) n = cagr first last n.
Proof.
  intros Hf Hl. unfold column_cagr.
  rewrite (iloc_last_of_floats _ _ Hl), (iloc_first_of_floats _ _ Hf).
  reflexivity.
Qed.

Lemma column_rise_ends (xs : list f64) (first last : f64) :
  xs !! 0%nat = Some first -> list.last xs = Some last ->
  column_rise (of_floats xs) = Ok (fsub last first).
Proof.
  intros Hf Hl. unfold column_rise.
  rewrite (iloc_last_of_floats _ _ Hl), (iloc_first_of_floats _ _ Hf).
  reflexivity.
Qed.

Lemma nonempty_ends {A} (xs : list A) :
  xs <> [] -> exists x y, xs !! 0%nat = Some x /\ last xs = Some y.
Proof.
  intros H. destruct xs as [|x xs]; [contradiction|].
  exists x. destruct (last (x :: xs)) as [l|] eqn:E.
  - exists l. split; reflexivity.
  - apply last_None in E. discriminate.
Qed.

End Cagr.

(** C2, as the program has it.  The growth rate is
    [((last / first) ** (1 / num_periods) - 1) * 100] with the number of
    periods written in the code, not taken from the data:
    [analyze_historical_trends] prints it for the demand and for the
    cost column with [1/4], whatever the number of rows of the table,
    and [market_value_cagr] of the standalone program takes it with
    [1/5]. *)
Theorem cagr_formula :
  (forall (s : state) (df : DataFrame) (demand cost peak : list f64)
          (d0 dn c0 cn : f64),
     Dict.get "historical" (data s) = Some df ->
     Dict.get "Demand_MU" df = Some (of_floats demand) ->
     Dict.get "Cost_Rs_per_unit" df = Some (of_floats cost) ->
     Dict.get "Peak_Demand_MW" df = Some (of_floats peak) ->
     demand !! 0%nat = Some d0 -> last demand = Some dn ->
     cost !! 0%nat = Some c0 -> last cost = Some cn ->
     peak <> [] ->
     exists rise,
       analyze_historical_trends s
       = (Ok (Some (with_growth df demand cost)),
          {| data := Dict.set "historical" (with_growth df demand cost) (data s);
             out := out s ++
               historical_report
                 (fmul (fsub (fpow (fdiv dn d0) (1 / 4)) (Fin 1)) (Fin 100))
                 (fmul (fsub (fpow (fdiv cn c0) (1 / 4)) (Fin 1)) (Fin 100))
                 rise |})) /\
  (forall (df_proj : DataFrame) (value : list f64) (v0 vn : f64),
     Dict.get "Market_Value_Cr" df_proj = Some (of_floats value) ->
     value !! 0%nat = Some v0 -> last value = Some vn ->
     Standalone.market_value_cagr df_proj
     = Ok (fmul (fsub (fpow (fdiv vn v0) (1 / 5)) (Fin 1)) (Fin 100))).
Proof.
  split.
  - intros s df demand cost peak d0 dn c0 cn Hh Hd Hc Hp Hd0 Hdn Hc0 Hcn Hpk.
    destruct (nonempty_ends peak Hpk) as (p0 & pn & Hp0 & Hpn).
    exists (fsub pn p0).
    apply (analyze_historical_trends_numeric s df demand cost peak); try assumption.
    + rewrite (column_cagr_ends _ _ _ _ Hd0 Hdn). apply (cagr_value d0 dn 4). discriminate.
    + rewrite (column_cagr_ends _ _ _ _ Hc0 Hcn). apply (cagr_value c0 cn 4). discriminate.
    + apply column_rise_ends; assumption.
  - intros df_proj value v0 vn Hv H0 Hn.
    unfold Standalone.market_value_cagr, get_col. rewrite Hv. cbn [mbind result_bind].
    rewrite (column_cagr_ends _ _ _ _ H0 Hn). apply (cagr_value v0 vn 5). discriminate.
Qed.

Lemma cagr_formula_witness :
  let df := historical_table [Fin 2020; Fin 2021; Fin 2022] [Fin 100; Fin 110; Fin 121]
              [Fin 4; Fin 5; Fin 6] [Fin 3000; Fin 3200; Fin 3500] in
  (exists rise,
     out (analyze_historical_trends (holding "historical" df)).2
     = historical_report
         (fmul (fsub (fpow (fdiv (Fin 121) (Fin 100)) (1 / 4)) (Fin 1)) (Fin 100))
         (fmul (fsub (fpow (fdiv (Fin 6) (Fin 4)) (1 / 4)) (Fin 1)) (Fin 100))
         rise) /\
  Standalone.market_value_cagr [("Market_Value_Cr", of_floats [Fin 100; Fin 121])]
  = Ok (fmul (fsub (fpow (fdiv (Fin 121) (Fin 100)) (1 / 5)) (Fin 1)) (Fin 100)).
Proof.
  intros df. destruct cagr_formula as (Hrun & Hmarket).
  split.
  - destruct (Hrun (holding "historical" df) df
                [Fin 100; Fin 110; Fin 121] [Fin 4; Fin 5; Fin 6]
                [Fin 3000; Fin 3200; Fin 3500] (Fin 100) (Fin 121) (Fin 4) (Fin 6)
                eq_refl eq_refl eq_refl eq_refl eq_refl eq_refl eq_refl eq_refl
                ltac:(discriminate))
      as [rise Hr].
    exists rise. rewrite Hr. reflexivity.
  - exact (Hmarket [("Market_Value_Cr", of_floats [Fin 100; Fin 121])]
             [Fin 100; Fin 121] (Fin 100) (Fin 121) eq_refl eq_refl eq_refl).
Defined.

(** C2 as stated fails on the demand values 100, 110, 121 of the
    specification, three rows and so two periods: the program takes the
    fourth root all the same and prints a demand growth rate between 4
    and 5, not 10. *)
Lemma cagr_of_two_periods_is_not_10 :
  let df := historical_table [Fin 2020; Fin 2021; Fin 2022] [Fin 100; Fin 110; Fin 121]
              [Fin 4; Fin 5; Fin 6] [Fin 3000; Fin 3200; Fin 3500] in
  exists (g : R) (cost_cagr rise : f64),
    out (analyze_historical_trends (holding "historical" df)).2
    = historical_report (Fin g) cost_cagr rise /\
    (4 < g < 5)%R /\ Fin g <> Fin 10.
Proof.
  intros df.
  assert (Hg : (4 < compound_annual_growth_rate 100 121 4 < 5)%R).
  { unfold compound_annual_growth_rate.
    pose proof (fourth_root_bounds (121 / 100) (104 / 100) (105 / 100)) as H.
    destruct H as [H1 H2]; lra. }
  set (cc := fmul (fsub (fpow (fdiv (Fin 6) (Fin 4)) (1 / 4)) (Fin 1)) (Fin 100)).
  assert (Hcc : column_cagr (of_floats [Fin 4; Fin 5; Fin 6]) 4 = Ok cc).
  { rewrite (column_cagr_ends [Fin 4; Fin 5; Fin 6] (Fin 4) (Fin 6) 4 eq_refl eq_refl).
    apply cagr_value. discriminate. }
  exists (compound_annual_growth_rate 100 121 4), cc, (fsub (Fin 3500) (Fin 3000)).
  split; [|split; [exact Hg|]].
  - rewrite (analyze_historical_trends_numeric (holding "historical" df) df
               [Fin 100; Fin 110; Fin 121] [Fin 4; Fin 5; Fin 6]
               [Fin 3000; Fin 3200; Fin 3500]
               (Fin (compound_annual_growth_rate 100 121 4)) cc
               (fsub (Fin 3500) (Fin 3000)) eq_refl eq_refl eq_refl eq_refl);
      [reflexivity | | exact Hcc | reflexivity].
    rewrite (column_cagr_ends [Fin 100; Fin 110; Fin 121] (Fin 100) (Fin 121) 4
               eq_refl eq_refl).
    apply cagr_positive; (lra || lia).
  - intros [= E]. lra.
Qed.

(** C3, as the program has it.  With no period the expression raises
    [ZeroDivisionError], but the programs write 4 and 5 periods.  With a
    first value of 0 and at least 2 periods nothing fails: the rate is
    the positive infinity for a non-zero last value and null for a last
    value of 0, and [analyze_historical_trends] prints it on the demand
    line like any other value, followed by the rest of its report. *)
Theorem cagr_zero_first_value :
  (forall first last : f64, cagr first last 0 = Raise ZeroDivisionError) /\
  (forall (last : R) (n : Z),
     (2 <= n)%Z -> last <> 0%R -> cagr (Fin 0) (Fin last) n = Ok PInf) /\
  (forall n : Z, n <> 0%Z -> cagr (Fin 0) (Fin 0) n = Ok NaN) /\
  (forall (s : state) (df : DataFrame) (demand cost peak : list f64) (dn : R),
     Dict.get "historical" (data s) = Some df ->
     Dict.get "Demand_MU" df = Some (of_floats demand) ->
     Dict.get "Cost_Rs_per_unit" df = Some (of_floats cost) ->
     Dict.get "Peak_Demand_MW" df = Some (of_floats peak) ->
     demand !! 0%nat = Some (Fin 0) -> last demand = Some (Fin dn) ->
     cost <> [] -> peak <> [] ->
     exists cost_cagr rise,
       analyze_historical_trends s
       = (Ok (Some (with_growth df demand cost)),
          {| data := Dict.set "historical" (with_growth df demand cost) (data s);
             out := out s ++
               historical_report (if Req_dec_T dn 0 then NaN else PInf)
                 cost_cagr rise |})).
Proof.
  split; [exact cagr_zero_periods|]. split; [exact cagr_zero_first|].
  split; [exact cagr_zero_both|].
  intros s df demand cost peak dn Hh Hd Hc Hp Hd0 Hdn Hck Hpk.
  destruct (nonempty_ends cost Hck) as (c0 & cn & Hc0 & Hcn).
  destruct (nonempty_ends peak Hpk) as (p0 & pn & Hp0 & Hpn).
  destruct (cagr c0 cn 4) as [cc|e] eqn:Ecc; [|discriminate].
  exists cc, (fsub pn p0).
  apply (analyze_historical_trends_numeric s df demand cost peak); try assumption.
  - rewrite (column_cagr_ends _ _ _ _ Hd0 Hdn).
    destruct (Req_dec_T dn 0) as [->|Hne].
    + apply cagr_zero_both. discriminate.
    + apply cagr_zero_first; [lia | assumption].
  - rewrite (column_cagr_ends _ _ _ _ Hc0 Hcn). exact Ecc.
  - apply column_rise_ends; assumption.
Qed.

Lemma cagr_zero_first_value_witness :
  let df := historical_table [Fin 2020; Fin 2021] [Fin 0; Fin 121]
              [Fin 4; Fin 5] [Fin 3000; Fin 3500] in
  cagr (Fin 0) (Fin 121) 4 = Ok PInf /\
  cagr (Fin 0) (Fin 0) 4 = Ok NaN /\
  exists cost_cagr rise,
    analyze_historical_trends (holding "historical" df)
    = (Ok (Some (with_growth df [Fin 0; Fin 121] [Fin 4; Fin 5])),
       {| data := Dict.set "historical" (with_growth df [Fin 0; Fin 121] [Fin 4; Fin 5])
                    (data (holding "historical" df));
          out := out (holding "historical" df) ++
                 historical_report (if Req_dec_T 121 0 then NaN else PInf)
                   cost_cagr rise |}).
Proof.
  intros df. destruct cagr_zero_first_value as (_ & Hinf & Hnan & Hrun).
  split; [apply Hinf; [lia | lra]|]. split; [apply Hnan; lia|].
  apply (Hrun (holding "historical" df) df [Fin 0; Fin 121] [Fin 4; Fin 5]
           [Fin 3000; Fin 3500] 121%R); try reflexivity; discriminate.
Defined.

(** C3 as stated fails for a first value of 0: the expression returns
    the positive infinity, and the demand line of the report carries
    it. *)
Lemma cagr_zero_first_value_is_printed :
  let df := historical_table [Fin 2020; Fin 2021] [Fin 0; Fin 121]
              [Fin 4; Fin 5] [Fin 3000; Fin 3500] in
  cagr (Fin 0) (Fin 121) 4 = Ok PInf /\
  exists cost_cagr rise,
    (analyze_historical_trends (holding "historical" df)).1
      = Ok (Some (with_growth df [Fin 0; Fin 121] [Fin 4; Fin 5])) /\
    out (analyze_historical_trends (holding "historical" df)).2
      = historical_report PInf cost_cagr rise.
Proof.
  intros df.
  assert (Hd : cagr (Fin 0) (Fin 121) 4 = Ok PInf)
    by (apply cagr_zero_first; [lia | lra]).
  split; [exact Hd|].
  destruct (cagr (Fin 4) (Fin 5) 4) as [cc|e] eqn:Ecc; [|discriminate].
  exists cc, (fsub (Fin 3500) (Fin 3000)).
  rewrite (analyze_historical_trends_numeric (holding "historical" df) df
             [Fin 0; Fin 121] [Fin 4; Fin 5] [Fin 3000; Fin 3500]
             PInf cc (fsub (Fin 3500) (Fin 3000)));
    [split; reflexivity | reflexivity .. | exact Hd | exact Ecc | reflexivity].
Qed.

(** ** Means and the seasonal index *)

Section Means.
Local Open Scope R_scope.



End Means.

Section Seasonal.




End Seasonal.

(** The mean of [Series.mean] on short series, in the program's
    operations: a missing value is skipped, the mean of one value is
    that value, the mean of two values is their sum over 2. *)
Section ShortMeans.






End ShortMeans.



(** C4 as stated fails on the program's numbers: for the per-month
    averages 1500, 1850 and 1950, whose mean is positive, the mean of
    the three seasonal indices is below 1. *)
Section IndexRounding.

Import PrimFloat.
Local Open Scope float_scope.


End IndexRounding.

(** ** Sector growth: arithmetic on two indexed series *)

Section SortedUnique.

Lemma insert_by_perm {A} (le : A -> A -> bool) (x : A) (xs : list A) :
  insert_by le x xs ≡ₚ x :: xs.
Proof.
  induction xs as [|y ys IH]; cbn; [reflexivity|].
  destruct (le y x); [|reflexivity].
  rewrite IH. apply Permutation_swap.
Qed.

Lemma sort_by_perm {A} (le : A -> A -> bool) (xs : list A) :
  sort_by le xs ≡ₚ xs.
Proof.
  unfold sort_by.
  assert (H : forall acc, foldl (fun acc x => insert_by le x acc) acc xs ≡ₚ xs ++ acc).
  { induction xs as [|x xs IH]; intros acc; cbn; [reflexivity|].
    rewrite IH, insert_by_perm. symmetry. apply Permutation_middle. }
  rewrite H, app_nil_r. reflexivity.
Qed.

Lemma elem_of_sorted_unique (k : cell) (ks : list cell) :
  k ∈ sorted_unique ks <-> k ∈ ks.
Proof. unfold sorted_unique. rewrite sort_by_perm. apply elem_of_remove_dups. Qed.

Lemma NoDup_sorted_unique (ks : list cell) : NoDup (sorted_unique ks).
Proof. unfold sorted_unique. rewrite sort_by_perm. apply NoDup_remove_dups. Qed.

Lemma elem_of_union_index (k : cell) (l r : list cell) :
  k ∈ union_index l r <-> k ∈ l \/ k ∈ r.
Proof.
  unfold union_index. destruct (decide (l = r)) as [->|Hne]; [tauto|].
  destruct l as [|x l]; [rewrite elem_of_nil; tauto|].
  destruct r as [|y r]; [rewrite elem_of_nil; tauto|].
  rewrite elem_of_sorted_unique, elem_of_app. tauto.
Qed.

Lemma NoDup_union_index (l r : list cell) :
  NoDup l -> NoDup r -> NoDup (union_index l r).
Proof.
  intros Hl Hr. unfold union_index. destruct (decide (l = r)); [assumption|].
  destruct l as [|x l]; [assumption|].
  destruct r as [|y r]; [assumption|].
  apply NoDup_sorted_unique.
Qed.

End SortedUnique.

Section Alignment.

Lemma at_label_absent (k : cell) (s : series) :
  k ∉ labels s -> at_label k s = [NaN].
Proof.
  intros H. unfold at_label.
  assert (E : filter (fun kv : cell * f64 => kv.1 = k) s = []).
  { induction s as [|[k0 v0] s IH]; [reflexivity|].
    cbn in H. apply not_elem_of_cons in H as [Hk Hs].
    rewrite filter_cons_False by (cbn; congruence). apply IH, Hs. }
  rewrite E. reflexivity.
Qed.

Lemma at_label_present (k : cell) (v : f64) (s : series) :
  NoDup (labels s) -> (k, v) ∈ s -> at_label k s = [v].
Proof.
  intros Hnd Hin. unfold at_label.
  assert (E : filter (fun kv : cell * f64 => kv.1 = k) s = [(k, v)]).
  { induction s as [|[k0 v0] s IH]; [apply elem_of_nil in Hin; contradiction|].
    cbn in Hnd. apply NoDup_cons in Hnd as [Hk0 Hnd].
    apply elem_of_cons in Hin as [[= <- <-]|Hin].
    - rewrite filter_cons_True by reflexivity. f_equal.
      clear IH. induction s as [|[k1 v1] s IH]; [reflexivity|].
      cbn in Hk0. apply not_elem_of_cons in Hk0 as [Hne Hk0].
      apply NoDup_cons in Hnd as [_ Hnd].
      rewrite filter_cons_False by (cbn; congruence). apply IH; assumption.
    - rewrite filter_cons_False.
      + apply IH; assumption.
      + cbn. intros ->. apply Hk0. apply list_elem_of_fmap. exists (k, v). split; [reflexivity | assumption]. }
  rewrite E. reflexivity.
Qed.

Lemma value_at_absent (k : cell) (s : series) :
  k ∉ labels s -> value_at k s = NaN.
Proof. intros H. unfold value_at. rewrite at_label_absent by assumption. reflexivity. Qed.

Lemma value_at_present (k : cell) (v : f64) (s : series) :
  NoDup (labels s) -> (k, v) ∈ s -> value_at k s = v.
Proof.
  intros Hnd Hin. unfold value_at. rewrite (at_label_present k v) by assumption. reflexivity.
Qed.

Lemma at_label_value_at (k : cell) (s : series) :
  NoDup (labels s) -> at_label k s = [value_at k s].
Proof.
  intros Hnd. destruct (decide (k ∈ labels s)) as [Hin|Hout].
  - apply list_elem_of_fmap in Hin as ([k' v] & -> & Hin). cbn.
    rewrite (value_at_present _ v), (at_label_present _ v); auto.
  - rewrite value_at_absent, at_label_absent; auto.
Qed.

(** On series with unique labels, the quotient has one row for each
    label of the index of the result, holding the quotient of the two
    values under the label. *)
Lemma series_div_unique (l r : series) :
  NoDup (labels l) -> NoDup (labels r) ->
  series_div l r
  = map (fun k => (k, fdiv (value_at k l) (value_at k r)))
      (union_index (labels l) (labels r)).
Proof.
  intros Hl Hr. unfold series_div.
  destruct (decide (labels l = labels r)) as [Heq|Hne].
  - unfold union_index. rewrite decide_True by assumption.
    apply list_eq. intros i.
    assert (Hi : labels l !! i = labels r !! i) by (rewrite Heq; reflexivity).
    unfold labels in Hi |- *.
    change (map fst l) with (fst <$> l) in Hi |- *.
    change (map fst r) with (fst <$> r) in Hi.
    change (map ?f (fst <$> l)) with (f <$> (fst <$> l)).
    rewrite lookup_zip_with, !list_lookup_fmap. rewrite !list_lookup_fmap in Hi.
    destruct (l !! i) as [[k a]|] eqn:El; destruct (r !! i) as [[k' b]|] eqn:Er;
      cbn in Hi |- *; try discriminate; try reflexivity.
    injection Hi as <-.
    rewrite (value_at_present k a l), (value_at_present k b r);
      eauto using list_elem_of_lookup_2.
  - induction (union_index (labels l) (labels r)) as [|k ks IH]; [reflexivity|].
    cbn [mbind list_bind map]. change (mbind ?f ks) with (ks ≫= f). rewrite IH.
    rewrite (at_label_value_at k l Hl), (at_label_value_at k r Hr). reflexivity.
Qed.

End Alignment.

Section Sector.

Lemma for_each_print {A} (f : A -> event) (xs : list A) (s : state) :
  for_each xs (fun x => print (f x)) s
  = (Ok tt, {| data := data s; out := out s ++ map f xs |}).
Proof.
  revert s. induction xs as [|x xs IH]; intros s.
  - cbn. rewrite app_nil_r. destruct s; reflexivity.
  - cbn [for_each]. rewrite (bind_ok _ _ _ _ _ (print_run _ _)).
    rewrite IH. cbn [data out map]. rewrite <- app_assoc. reflexivity.
Qed.

Lemma analyze_sector_wise_consumption_run (s : state)
    (df df_2025 df_2030 t_2025 t_2030 : DataFrame) (growth : series) :
  Dict.get "sector_wise" (data s) = Some df ->
  of_year 2025 df = Ok df_2025 -> of_year 2030 df = Ok df_2030 ->
  select_cols ["Sector"; "Demand_MU"; "Share_%"] df_2025 = Ok t_2025 ->
  select_cols ["Sector"; "Demand_MU"; "Share_%"] df_2030 = Ok t_2030 ->
  sector_growth df_2025 df_2030 "Sector" "Demand_MU" = Ok growth ->
  analyze_sector_wise_consumption s
  = (Ok (Some (df_2025, df_2030)),
     {| data := data s; out := out s ++ sector_report t_2025 t_2030 growth |}).
Proof.
  intros Hs H25 H30 T25 T30 Hg. unfold analyze_sector_wise_consumption.
  rewrite (bind_ok _ _ s s (data s)) by reflexivity. rewrite Hs.
  rewrite (bind_ok _ _ _ _ _ (table_run _ _ _ Hs)).
  rewrite (bind_ok _ _ _ _ _ (print_run _ _)).
  rewrite H25, (bind_ok _ _ _ _ _ (lift_run _ _)).
  rewrite H30, (bind_ok _ _ _ _ _ (lift_run _ _)).
  rewrite T25, (bind_ok _ _ _ _ _ (lift_run _ _)).
  rewrite (bind_ok _ _ _ _ _ (print_run _ _)).
  rewrite T30, (bind_ok _ _ _ _ _ (lift_run _ _)).
  rewrite (bind_ok _ _ _ _ _ (print_run _ _)).
  rewrite Hg, (bind_ok _ _ _ _ _ (lift_run _ _)).
  rewrite (bind_ok _ _ _ _ _ (print_run _ _)).
  rewrite (bind_ok _ _ _ _ _ (for_each_print (fun sg : cell * f64 => SectorGrowth sg.1 sg.2) growth _)).
  unfold mret, M_ret, sector_report. cbn [data out].
  rewrite <- !app_assoc. reflexivity.
Qed.

Lemma growth_of_quotient (l r : series) :
  NoDup (labels l) -> NoDup (labels r) ->
  series_map (fun x => fmul x (Fin 100)) (series_map (fun x => fsub x (Fin 1)) (series_div l r))
  = map (fun k => (k, growth_step (value_at k l) (value_at k r)))
      (union_index (labels l) (labels r)).
Proof.
  intros Hl Hr. rewrite (series_div_unique l r Hl Hr).
  unfold series_map. rewrite !map_map. reflexivity.
Qed.

End Sector.

(** C5, as the program has it.  For two period tables with unique
    sectors, the sector growth has exactly one row for each sector of
    either period.  A sector of both periods holds
    [(value_b / value_a - 1) * 100]; a sector of one period only is not
    excluded: it holds the null value.  [analyze_sector_wise_consumption]
    prints one line for each row and nothing else after the header. *)
Theorem sector_growth_entries (s : state) (df df_a df_b t_a t_b : DataFrame)
    (a b : series) :
  Dict.get "sector_wise" (data s) = Some df ->
  of_year 2025 df = Ok df_a -> of_year 2030 df = Ok df_b ->
  select_cols ["Sector"; "Demand_MU"; "Share_%"] df_a = Ok t_a ->
  select_cols ["Sector"; "Demand_MU"; "Share_%"] df_b = Ok t_b ->
  indexed "Sector" "Demand_MU" df_a = Ok a ->
  indexed "Sector" "Demand_MU" df_b = Ok b ->
  NoDup (labels a) -> NoDup (labels b) ->
  exists g,
    sector_growth df_a df_b "Sector" "Demand_MU" = Ok g /\
    NoDup (labels g) /\
    (forall k, k ∈ labels g <-> k ∈ labels a \/ k ∈ labels b) /\
    (forall k va vb, (k, va) ∈ a -> (k, vb) ∈ b ->
       (k, fmul (fsub (fdiv vb va) (Fin 1)) (Fin 100)) ∈ g) /\
    (forall k v, (k, v) ∈ g -> ~ (k ∈ labels a /\ k ∈ labels b) -> v = NaN) /\
    analyze_sector_wise_consumption s
    = (Ok (Some (df_a, df_b)),
       {| data := data s; out := out s ++ sector_report t_a t_b g |}).
Proof.
  intros Hs Ha Hb Ta Tb Ia Ib Na Nb.
  set (g := map (fun k => (k, growth_step (value_at k b) (value_at k a)))
              (union_index (labels b) (labels a))).
  assert (Hg : sector_growth df_a df_b "Sector" "Demand_MU" = Ok g).
  { unfold sector_growth. rewrite Ib, Ia. cbn [mbind result_bind].
    rewrite (growth_of_quotient b a Nb Na). reflexivity. }
  assert (Hlab : labels g = union_index (labels b) (labels a)).
  { unfold g, labels. rewrite map_map. cbn [fst]. apply map_id. }
  exists g. split; [exact Hg|]. split; [|split; [|split; [|split]]].
  - rewrite Hlab. apply NoDup_union_index; assumption.
  - intros k. rewrite Hlab, elem_of_union_index. tauto.
  - intros k va vb Hka Hkb. unfold g.
    apply list_elem_of_fmap. exists k. split.
    + rewrite (value_at_present k vb b Nb Hkb), (value_at_present k va a Na Hka). reflexivity.
    + apply elem_of_union_index. left.
      apply list_elem_of_fmap. exists (k, vb). split; [reflexivity | assumption].
  - intros k v Hin Hnot. unfold g in Hin.
    apply list_elem_of_fmap in Hin as (k' & [= -> ->] & _).
    destruct (decide (k' ∈ labels b)) as [Hb'|Hb'].
    + assert (Ha' : k' ∉ labels a) by tauto.
      rewrite (value_at_absent k' a Ha'). unfold growth_step.
      destruct (value_at k' b); reflexivity.
    + rewrite (value_at_absent k' b Hb'). reflexivity.
  - apply (analyze_sector_wise_consumption_run s df df_a df_b t_a t_b g); assumption.
Qed.

Section SampleSectors.

Lemma year_eqb (a b : Z) :
  bool_decide (CNum (Fin (IZR a)) = CNum (of_Z b)) = bool_decide (a = b).
Proof.
  apply bool_decide_ext. unfold of_Z. split.
  - intros [= H]. apply eq_IZR, H.
  - intros ->. reflexivity.
Qed.

Lemma sample_sectors_2025 :
  of_year 2025 sample_sectors
  = Ok (sector_table [Fin 2025] ["Domestic"] [Fin 100] [Fin 100]).
Proof.
  unfold of_year.
  change (get_col "Year" sample_sectors) with (Ok (of_floats [Fin 2025; Fin 2030; Fin 2030])).
  cbn [mbind result_bind]. unfold col_eq. cbn [map of_floats].
  rewrite !year_eqb. reflexivity.
Qed.

Lemma sample_sectors_2030 :
  of_year 2030 sample_sectors
  = Ok (sector_table [Fin 2030; Fin 2030] ["Domestic"; "Transport"]
          [Fin 150; Fin 100] [Fin 60; Fin 40]).
Proof.
  unfold of_year.
  change (get_col "Year" sample_sectors) with (Ok (of_floats [Fin 2025; Fin 2030; Fin 2030])).
  cbn [mbind result_bind]. unfold col_eq. cbn [map of_floats].
  rewrite !year_eqb. reflexivity.
Qed.

Lemma sample_sectors_growth :
  sector_growth (sector_table [Fin 2025] ["Domestic"] [Fin 100] [Fin 100])
    (sector_table [Fin 2030; Fin 2030] ["Domestic"; "Transport"]
       [Fin 150; Fin 100] [Fin 60; Fin 40]) "Sector" "Demand_MU"
  = Ok [(CStr "Domestic", Fin 50); (CStr "Transport", NaN)].
Proof.
  unfold sector_growth.
  change (indexed "Sector" "Demand_MU" (sector_table [Fin 2030; Fin 2030] _ _ _))
    with (Ok [(CStr "Domestic", Fin 150); (CStr "Transport", Fin 100)]).
  change (indexed "Sector" "Demand_MU" (sector_table [Fin 2025] _ _ _))
    with (Ok [(CStr "Domestic", Fin 100)]).
  cbn [mbind result_bind].
  rewrite growth_of_quotient by (apply (bool_decide_unpack _); vm_compute; exact I).
  change (union_index _ _) with [CStr "Domestic"; CStr "Transport"].
  cbn [map].
  change (value_at (CStr "Domestic") [(CStr "Domestic", Fin 150); (CStr "Transport", Fin 100)]) with (Fin 150).
  change (value_at (CStr "Transport") [(CStr "Domestic", Fin 150); (CStr "Transport", Fin 100)]) with (Fin 100).
  change (value_at (CStr "Domestic") [(CStr "Domestic", Fin 100)]) with (Fin 100).
  change (value_at (CStr "Transport") [(CStr "Domestic", Fin 100)]) with NaN.
  rewrite growth_step_fin by lra.
  replace ((150 - 100) / 100 * 100)%R with 50%R by lra.
  reflexivity.
Qed.

End SampleSectors.

Lemma sector_growth_entries_witness :
  exists g,
    sector_growth (sector_table [Fin 2025] ["Domestic"] [Fin 100] [Fin 100])
      (sector_table [Fin 2030; Fin 2030] ["Domestic"; "Transport"]
         [Fin 150; Fin 100] [Fin 60; Fin 40]) "Sector" "Demand_MU" = Ok g /\
    (CStr "Domestic", fmul (fsub (fdiv (Fin 150) (Fin 100)) (Fin 1)) (Fin 100)) ∈ g /\
    (forall v, (CStr "Transport", v) ∈ g -> v = NaN).
Proof.
  destruct (sector_growth_entries (holding "sector_wise" sample_sectors) sample_sectors
              (sector_table [Fin 2025] ["Domestic"] [Fin 100] [Fin 100])
              (sector_table [Fin 2030; Fin 2030] ["Domestic"; "Transport"]
                 [Fin 150; Fin 100] [Fin 60; Fin 40])
              [("Sector", [CStr "Domestic"]); ("Demand_MU", [CNum (Fin 100)]);
               ("Share_%", [CNum (Fin 100)])]
              [("Sector", [CStr "Domestic"; CStr "Transport"]);
               ("Demand_MU", [CNum (Fin 150); CNum (Fin 100)]);
               ("Share_%", [CNum (Fin 60); CNum (Fin 40)])]
              [(CStr "Domestic", Fin 100)]
              [(CStr "Domestic", Fin 150); (CStr "Transport", Fin 100)])
    as (g & Hg & _ & _ & Hboth & Hone & _).
  - reflexivity.
  - exact sample_sectors_2025.
  - exact sample_sectors_2030.
  - reflexivity.
  - reflexivity.
  - reflexivity.
  - reflexivity.
  - apply (bool_decide_unpack _); vm_compute; exact I.
  - apply (bool_decide_unpack _); vm_compute; exact I.
  - exists g. split; [exact Hg|]. split.
    + apply Hboth; repeat constructor.
    + intros v Hv. apply (Hone _ _ Hv). intros [Ha _].
      apply list_elem_of_singleton in Ha. discriminate.
Defined.

(** C5 as stated fails for a sector of one period only: the sector keeps
    a row in the growth, with a null value, and the row is printed like
    the others; no warning is. *)
Lemma sector_growth_keeps_unshared_key :
  sector_growth (sector_table [Fin 2025] ["Domestic"] [Fin 100] [Fin 100])
    (sector_table [Fin 2030; Fin 2030] ["Domestic"; "Transport"]
       [Fin 150; Fin 100] [Fin 60; Fin 40]) "Sector" "Demand_MU"
  = Ok [(CStr "Domestic", Fin 50); (CStr "Transport", NaN)] /\
  exists t_2025 t_2030,
    out (analyze_sector_wise_consumption (holding "sector_wise" sample_sectors)).2
    = [ Banner "SECTOR-WISE CONSUMPTION ANALYSIS";
        Table "2025 SECTOR BREAKDOWN:" t_2025;
        Table "2030 PROJECTED SECTOR BREAKDOWN:" t_2030;
        Say "SECTOR GROWTH (2025-2030):";
        SectorGrowth (CStr "Domestic") (Fin 50);
        SectorGrowth (CStr "Transport") NaN ].
Proof.
  split; [exact sample_sectors_growth|].
  eexists _, _.
  rewrite (analyze_sector_wise_consumption_run (holding "sector_wise" sample_sectors)
             sample_sectors _ _ _ _ _ eq_refl sample_sectors_2025 sample_sectors_2030
             eq_refl eq_refl sample_sectors_growth).
  reflexivity.
Qed.

(** ** The weekday and weekend load profiles *)

Section Profile.








End Profile.



(** ** What a method may change in the registry *)

Section Keeps.

Variable R : Dict.t DataFrame -> Dict.t DataFrame -> Prop.
Hypothesis R_refl : forall d, R d d.
Hypothesis R_trans : forall d1 d2 d3, R d1 d2 -> R d2 d3 -> R d1 d3.

Lemma keeps_ret {A} (a : A) : keeps R (mret a).
Proof. intros s r s' [= <- <-]. apply R_refl. Qed.

Lemma keeps_lift {A} (x : result A) : keeps R (lift x).
Proof. intros s r s' [= <- <-]. apply R_refl. Qed.

Lemma keeps_print (e : event) : keeps R (print e).
Proof. intros s r s' [= <- <-]. apply R_refl. Qed.

Lemma keeps_get_data : keeps R get_data.
Proof. intros s r s' [= <- <-]. apply R_refl. Qed.

Lemma keeps_bind {A B} (m : M A) (k : A -> M B) :
  keeps R m -> (forall a, keeps R (k a)) -> keeps R (m ≫= k).
Proof.
  intros Hm Hk s r s'. unfold mbind, M_bind.
  destruct (m s) as [[a|e] s1] eqn:E.
  - intros H. apply (R_trans _ (data s1)); [apply (Hm _ _ _ E) | apply (Hk a _ _ _ H)].
  - intros [= <- <-]. apply (Hm _ _ _ E).
Qed.

Lemma keeps_table (key : string) : keeps R (table key).
Proof.
  unfold table. apply keeps_bind; [apply keeps_get_data|].
  intros d. destruct (Dict.get key d); [apply keeps_ret | apply keeps_lift].
Qed.

Lemma keeps_column_of (key c : string) : keeps R (column_of key c).
Proof.
  unfold column_of. apply keeps_bind; [apply keeps_table | intros; apply keeps_lift].
Qed.

Lemma keeps_for_each {A} (xs : list A) (body : A -> M unit) :
  (forall x, keeps R (body x)) -> keeps R (for_each xs body).
Proof.
  intros H. induction xs as [|x xs IH]; cbn [for_each].
  - apply keeps_ret.
  - apply keeps_bind; [apply H | intros; exact IH].
Qed.

Lemma keeps_call {A} (m : M A) : keeps R m -> keeps R (call m).
Proof. intros H. unfold call. apply keeps_bind; [exact H | intros; apply keeps_ret]. Qed.

Lemma keeps_try_except {A} (body : M A) (handles : exn -> bool) (handler : exn -> M A) :
  keeps R body -> (forall e, keeps R (handler e)) -> keeps R (try_except body handles handler).
Proof.
  intros Hb Hh s r s'. unfold try_except.
  destruct (body s) as [[a|e] s1] eqn:E.
  - intros [= <- <-]. apply (Hb _ _ _ E).
  - destruct (handles e).
    + intros H. apply (R_trans _ (data s1)); [apply (Hb _ _ _ E) | apply (Hh e _ _ _ H)].
    + intros [= <- <-]. apply (Hb _ _ _ E).
Qed.

End Keeps.

(** One step through a method body, for a relation with the proofs [Hr]
    and [Ht] that it is reflexive and transitive. *)
Ltac keeps_step Hr Ht :=
  first
    [ apply (keeps_ret _ Hr) | apply (keeps_lift _ Hr) | apply (keeps_print _ Hr)
    | apply (keeps_get_data _ Hr)
    | apply (keeps_table _ Hr Ht) | apply (keeps_column_of _ Hr Ht)
    | apply (keeps_call _ Hr Ht)
    | apply (keeps_for_each _ Hr Ht); intros
    | apply (keeps_bind _ Ht); [|intros] ].

Section Frames.

Lemma same_data_refl d : same_data d d.
Proof. reflexivity. Qed.

Lemma same_data_trans d1 d2 d3 : same_data d1 d2 -> same_data d2 d3 -> same_data d1 d3.
Proof. unfold same_data. congruence. Qed.

Lemma column_frame_refl df : column_frame df df.
Proof.
  split; [reflexivity|]. exists []. rewrite app_nil_r.
  split; [reflexivity|]. intros c Hc. apply elem_of_nil in Hc. contradiction.
Qed.

Lemma column_frame_trans df1 df2 df3 :
  column_frame df1 df2 -> column_frame df2 df3 -> column_frame df1 df3.
Proof.
  intros [H1 (a1 & K1 & A1)] [H2 (a2 & K2 & A2)]. split.
  - intros c Hc. rewrite (H2 c Hc). apply (H1 c Hc).
  - exists (a1 ++ a2). rewrite K2, K1, app_assoc. split; [reflexivity|].
    intros c Hc. apply elem_of_app in Hc as [Hc|Hc]; auto.
Qed.

Lemma column_frame_set (c : string) (col : column) (df : DataFrame) :
  c ∈ growth_columns -> column_frame df (Dict.set c col df).
Proof.
  intros Hc. split.
  - intros c' Hc'. apply get_set_ne. intros ->. contradiction.
  - destruct (decide (c ∈ Dict.keys df)) as [Hin|Hout].
    + exists []. rewrite app_nil_r, keys_set_present by assumption.
      split; [reflexivity|]. intros c' H. apply elem_of_nil in H. contradiction.
    + exists [c]. rewrite keys_set_absent by assumption.
      split; [reflexivity|]. intros c' H. apply list_elem_of_singleton in H as ->. exact Hc.
Qed.

Lemma historical_frame_refl d : historical_frame d d.
Proof.
  split; [reflexivity|]. split; [reflexivity|].
  intros df H. exists df. split; [exact H | apply column_frame_refl].
Qed.

Lemma historical_frame_trans d1 d2 d3 :
  historical_frame d1 d2 -> historical_frame d2 d3 -> historical_frame d1 d3.
Proof.
  intros (K1 & O1 & H1) (K2 & O2 & H2). split; [congruence|]. split.
  - intros key Hk. rewrite (O2 key Hk). apply (O1 key Hk).
  - intros df Hdf. destruct (H1 df Hdf) as (df2 & Hdf2 & F1).
    destruct (H2 df2 Hdf2) as (df3 & Hdf3 & F2).
    exists df3. split; [exact Hdf3 | apply (column_frame_trans _ df2); assumption].
Qed.

Lemma get_Some_keys {V} (k : string) (v : V) (d : Dict.t V) :
  Dict.get k d = Some v -> k ∈ Dict.keys d.
Proof.
  intros H. destruct (decide (k ∈ Dict.keys d)) as [Hin|Hout]; [exact Hin|].
  apply get_None_keys in Hout. congruence.
Qed.

Lemma table_missing (key : string) (s : state) :
  Dict.get key (data s) = None -> table key s = (Raise (KeyError key), s).
Proof.
  intros H. unfold table. rewrite (bind_ok _ _ s s (data s)) by reflexivity.
  rewrite H. reflexivity.
Qed.

Lemma keeps_assign_growth (c : string) (col : column) :
  c ∈ growth_columns -> keeps historical_frame (assign_column "historical" c col).
Proof.
  intros Hc s r s'. unfold assign_column.
  destruct (Dict.get "historical" (data s)) as [df|] eqn:E.
  - rewrite (bind_ok _ _ _ _ _ (table_run _ _ _ E)).
    rewrite (bind_ok _ _ s s (data s)) by reflexivity.
    intros [= <- <-]. cbn [data]. split; [|split].
    + apply keys_set_present. apply (get_Some_keys _ _ _ E).
    + intros key Hk. apply get_set_ne. congruence.
    + intros df0 Hdf0. rewrite E in Hdf0. injection Hdf0 as <-.
      exists (Dict.set c col df). split; [apply get_set_eq | apply column_frame_set, Hc].
  - rewrite (bind_raise _ _ _ _ _ (table_missing _ _ E)).
    intros [= <- <-]. apply historical_frame_refl.
Qed.

Lemma historical_analysis_keeps_frame : keeps historical_frame analyze_historical_trends.
Proof.
  pose proof historical_frame_refl as Hr. pose proof historical_frame_trans as Ht.
  unfold analyze_historical_trends.
  apply (keeps_bind _ Ht); [apply (keeps_get_data _ Hr)|]. intros d.
  destruct (Dict.get "historical" d).
  - repeat first
      [ apply keeps_assign_growth; repeat constructor
      | keeps_step Hr Ht ].
  - repeat keeps_step Hr Ht.
Qed.

End Frames.

Section Again.

Lemma set_id {V} (k : string) (v : V) (d : Dict.t V) :
  Dict.get k d = Some v -> Dict.set k v d = d.
Proof.
  induction d as [|[k0 v0] d IH]; cbn; [discriminate|].
  destruct (decide (k = k0)) as [->|Hne].
  - intros [= ->]. reflexivity.
  - intros H. f_equal. apply IH, H.
Qed.

Lemma with_growth_again (df : DataFrame) (demand cost : list f64) :
  with_growth (with_growth df demand cost) demand cost = with_growth df demand cost.
Proof.
  unfold with_growth.
  set (df1 := Dict.set "Demand_Growth_%" _ df).
  set (df2 := Dict.set "Cost_Growth_%" _ df1).
  rewrite (set_id "Demand_Growth_%" _ df2).
  - apply set_id. apply get_set_eq.
  - unfold df2. rewrite get_set_ne by discriminate. apply get_set_eq.
Qed.

Lemma with_growth_keys (df : DataFrame) (demand cost : list f64) :
  "Demand_Growth_%" ∉ Dict.keys df -> "Cost_Growth_%" ∉ Dict.keys df ->
  Dict.keys (with_growth df demand cost)
  = Dict.keys df ++ ["Demand_Growth_%"; "Cost_Growth_%"].
Proof.
  intros Hd Hc. unfold with_growth.
  rewrite keys_set_absent.
  - rewrite keys_set_absent by assumption. rewrite <- app_assoc. reflexivity.
  - rewrite keys_set_absent by assumption.
    rewrite elem_of_app, list_elem_of_singleton. intros [H|H]; [contradiction | discriminate].
Qed.

(** The columns of the table after both assignments: the columns it
    had, then the growth columns it did not have. *)
Lemma with_growth_all_keys (df : DataFrame) (demand cost : list f64) :
  Dict.keys (with_growth df demand cost)
  = Dict.keys df ++ filter (fun c => c ∉ Dict.keys df) growth_columns.
Proof.
  unfold with_growth, growth_columns.
  set (df1 := Dict.set "Demand_Growth_%" _ df).
  destruct (decide ("Demand_Growth_%" ∈ Dict.keys df)) as [Hd|Hd];
    destruct (decide ("Cost_Growth_%" ∈ Dict.keys df)) as [Hc|Hc].
  - rewrite filter_cons_False by (intros H; exact (H Hd)).
    rewrite filter_cons_False by (intros H; exact (H Hc)).
    rewrite filter_nil, app_nil_r.
    assert (K1 : Dict.keys df1 = Dict.keys df) by (apply keys_set_present, Hd).
    rewrite keys_set_present by (rewrite K1; exact Hc). exact K1.
  - rewrite filter_cons_False by (intros H; exact (H Hd)).
    rewrite filter_cons_True by exact Hc. rewrite filter_nil.
    assert (K1 : Dict.keys df1 = Dict.keys df) by (apply keys_set_present, Hd).
    rewrite keys_set_absent by (rewrite K1; exact Hc). rewrite K1. reflexivity.
  - rewrite filter_cons_True by exact Hd.
    rewrite filter_cons_False by (intros H; exact (H Hc)). rewrite filter_nil.
    assert (K1 : Dict.keys df1 = Dict.keys df ++ ["Demand_Growth_%"])
      by (apply keys_set_absent, Hd).
    rewrite keys_set_present by (rewrite K1; apply elem_of_app; left; exact Hc).
    exact K1.
  - rewrite filter_cons_True by exact Hd.
    rewrite filter_cons_True by exact Hc. rewrite filter_nil.
    assert (K1 : Dict.keys df1 = Dict.keys df ++ ["Demand_Growth_%"])
      by (apply keys_set_absent, Hd).
    rewrite keys_set_absent.
    + rewrite K1, <- app_assoc. reflexivity.
    + rewrite K1, elem_of_app, list_elem_of_singleton.
      intros [H|H]; [contradiction | discriminate].
Qed.

Lemma cagr_total (first last : f64) (n : Z) :
  n <> 0%Z -> exists v, cagr first last n = Ok v.
Proof.
  intros Hn. unfold cagr. rewrite int_truediv_nonzero by assumption.
  cbn [mbind result_bind]. eexists. reflexivity.
Qed.

Lemma column_cagr_total (xs : list f64) (n : Z) :
  xs <> [] -> n <> 0%Z -> exists v, column_cagr (of_floats xs) n = Ok v.
Proof.
  intros Hx Hn. destruct (nonempty_ends xs Hx) as (x & y & H0 & Hl).
  rewrite (column_cagr_ends _ _ _ _ H0 Hl). apply cagr_total, Hn.
Qed.

Lemma column_rise_total (xs : list f64) :
  xs <> [] -> exists v, column_rise (of_floats xs) = Ok v.
Proof.
  intros Hx. destruct (nonempty_ends xs Hx) as (x & y & H0 & Hl).
  rewrite (column_rise_ends _ _ _ H0 Hl). eexists. reflexivity.
Qed.

End Again.

(** C8, as the program has it.  Whatever its outcome,
    [analyze_historical_trends] leaves the registry with the same
    datasets in the same order, every dataset but the historical one as
    it was, and in the historical table every column other than the two
    growth columns as it was and where it was.  On a table of numbers
    the two growth columns hold the computed growth afterwards: a
    growth column the table did not have is added after the columns the
    table had, one it had is overwritten where it stands.  A second run
    returns the same table and leaves the registry as the first left
    it.  The seasonal and the sector analysis leave the registry as it
    was. *)
Theorem historical_trends_frame :
  (forall (s : state) (r : result (option DataFrame)) (s' : state),
     analyze_historical_trends s = (r, s') -> historical_frame (data s) (data s')) /\
  (forall (s s' : state) (df : DataFrame) (demand cost peak : list f64)
          (r : result (option DataFrame)),
     Dict.get "historical" (data s) = Some df ->
     Dict.get "Demand_MU" df = Some (of_floats demand) ->
     Dict.get "Cost_Rs_per_unit" df = Some (of_floats cost) ->
     Dict.get "Peak_Demand_MW" df = Some (of_floats peak) ->
     demand <> [] -> cost <> [] -> peak <> [] ->
     analyze_historical_trends s = (r, s') ->
     r = Ok (Some (with_growth df demand cost)) /\
     data s' = Dict.set "historical" (with_growth df demand cost) (data s) /\
     Dict.get "Demand_Growth_%" (with_growth df demand cost)
       = Some (of_floats (growth_pct demand)) /\
     Dict.get "Cost_Growth_%" (with_growth df demand cost)
       = Some (of_floats (growth_pct cost)) /\
     ("Demand_Growth_%" ∉ Dict.keys df -> "Cost_Growth_%" ∉ Dict.keys df ->
      Dict.keys (with_growth df demand cost) = Dict.keys df ++ growth_columns /\
      forall c col, Dict.get c df = Some col ->
                    Dict.get c (with_growth df demand cost) = Some col) /\
     Dict.keys (with_growth df demand cost)
       = Dict.keys df ++ filter (fun c => c ∉ Dict.keys df) growth_columns /\
     (analyze_historical_trends s').1 = r /\
     data (analyze_historical_trends s').2 = data s') /\
  keeps same_data analyze_seasonal_patterns /\
  keeps same_data analyze_sector_wise_consumption.
Proof.
  split; [exact historical_analysis_keeps_frame|]. split; [|split].
  - intros s s' df demand cost peak r Hh Hd Hc Hp Nd Nc Np Hrun.
    destruct (column_cagr_total demand 4 Nd) as [dc Hdc]; [lia|].
    destruct (column_cagr_total cost 4 Nc) as [cc Hcc]; [lia|].
    destruct (column_rise_total peak Np) as [rise Hrise].
    rewrite (analyze_historical_trends_numeric s df demand cost peak dc cc rise
               Hh Hd Hc Hp Hdc Hcc Hrise) in Hrun.
    injection Hrun as <- <-. cbn [data].
    set (df' := with_growth df demand cost).
    assert (Hd' : Dict.get "Demand_MU" df' = Some (of_floats demand)).
    { unfold df', with_growth. rewrite !get_set_ne by discriminate. exact Hd. }
    assert (Hc' : Dict.get "Cost_Rs_per_unit" df' = Some (of_floats cost)).
    { unfold df', with_growth. rewrite !get_set_ne by discriminate. exact Hc. }
    assert (Hp' : Dict.get "Peak_Demand_MW" df' = Some (of_floats peak)).
    { unfold df', with_growth. rewrite !get_set_ne by discriminate. exact Hp. }
    split; [reflexivity|]. split; [reflexivity|]. split; [|split; [|split; [|split]]].
    + unfold df', with_growth. rewrite get_set_ne by discriminate. apply get_set_eq.
    + apply get_set_eq.
    + intros Kd Kc. split; [apply with_growth_keys; assumption|].
      intros c col Hcol. unfold df', with_growth.
      rewrite !get_set_ne; [exact Hcol | |];
        intros <-; apply get_Some_keys in Hcol; contradiction.
    + apply with_growth_all_keys.
    + set (s1 := {| data := Dict.set "historical" df' (data s); out := _ |}).
      assert (H1 : Dict.get "historical" (data s1) = Some df') by apply get_set_eq.
      rewrite (analyze_historical_trends_numeric s1 df' demand cost peak dc cc rise
                 H1 Hd' Hc' Hp' Hdc Hcc Hrise).
      unfold s1. cbn [fst snd data]. fold df'.
      replace (with_growth df' demand cost) with df'
        by (symmetry; apply with_growth_again).
      rewrite set_set. split; reflexivity.
  - pose proof same_data_refl as Hr. pose proof same_data_trans as Ht.
    unfold analyze_seasonal_patterns.
    apply (keeps_bind _ Ht); [apply (keeps_get_data _ Hr)|]. intros d.
    destruct (Dict.get "monthly_detailed" d); repeat keeps_step Hr Ht.
  - pose proof same_data_refl as Hr. pose proof same_data_trans as Ht.
    unfold analyze_sector_wise_consumption.
    apply (keeps_bind _ Ht); [apply (keeps_get_data _ Hr)|]. intros d.
    destruct (Dict.get "sector_wise" d); repeat keeps_step Hr Ht.
Qed.

Lemma historical_trends_frame_witness :
  let df := historical_table [Fin 2020; Fin 2021; Fin 2022] [Fin 100; Fin 110; Fin 121]
              [Fin 4; Fin 5; Fin 6] [Fin 3000; Fin 3200; Fin 3500] in
  let s := holding "historical" df in
  let s' := (analyze_historical_trends s).2 in
  Dict.keys (data s') = ["historical"] /\
  exists df',
    Dict.get "historical" (data s') = Some df' /\
    Dict.keys df' = Dict.keys df ++ growth_columns /\
    (forall c col, Dict.get c df = Some col -> Dict.get c df' = Some col) /\
    data (analyze_historical_trends s').2 = data s'.
Proof.
  intros df s s'.
  destruct historical_trends_frame as (Hframe & Hrun & _ & _).
  assert (Hs' : analyze_historical_trends s = ((analyze_historical_trends s).1, s')).
  { unfold s'. destruct (analyze_historical_trends s); reflexivity. }
  assert (Kd : "Demand_Growth_%" ∉ Dict.keys df)
    by (apply (bool_decide_unpack _); vm_compute; exact I).
  assert (Kc : "Cost_Growth_%" ∉ Dict.keys df)
    by (apply (bool_decide_unpack _); vm_compute; exact I).
  assert (Hget : Dict.get "historical" (data s) = Some df) by reflexivity.
  destruct (Hrun s s' df [Fin 100; Fin 110; Fin 121] [Fin 4; Fin 5; Fin 6]
              [Fin 3000; Fin 3200; Fin 3500] (analyze_historical_trends s).1
              Hget eq_refl eq_refl eq_refl ltac:(discriminate) ltac:(discriminate)
              ltac:(discriminate) Hs')
    as (_ & Hdata & _ & _ & Hkeys & _ & _ & Hagain).
  destruct (Hkeys Kd Kc) as [Hnames Hcols].
  split.
  - destruct (Hframe s _ s' Hs') as (Hk & _). exact Hk.
  - exists (with_growth df [Fin 100; Fin 110; Fin 121] [Fin 4; Fin 5; Fin 6]).
    split; [rewrite Hdata; apply get_set_eq|]. split; [exact Hnames|].
    split; [exact Hcols | exact Hagain].
Defined.

(** C8 as stated fails on a historical table that already has a column
    named [Demand_Growth_%]: the method does not leave that column as
    it was, it overwrites it with the computed growth. *)
Lemma historical_trends_overwrites_growth_column :
  let df := historical_table [Fin 2020; Fin 2021] [Fin 100; Fin 110]
              [Fin 4; Fin 5] [Fin 3000; Fin 3200]
            ++ [("Demand_Growth_%", [CStr "n/a"; CStr "n/a"])] in
  let s' := (analyze_historical_trends (holding "historical" df)).2 in
  Dict.get "Demand_Growth_%" df = Some [CStr "n/a"; CStr "n/a"] /\
  exists df',
    Dict.get "historical" (data s') = Some df' /\
    Dict.get "Demand_Growth_%" df' = Some (of_floats (growth_pct [Fin 100; Fin 110])) /\
    Dict.get "Demand_Growth_%" df' <> Dict.get "Demand_Growth_%" df.
Proof.
  intros df s'. split; [reflexivity|].
  destruct (column_cagr_total [Fin 100; Fin 110] 4) as [dc Hdc];
    [discriminate | discriminate |].
  destruct (column_cagr_total [Fin 4; Fin 5] 4) as [cc Hcc];
    [discriminate | discriminate |].
  destruct (column_rise_total [Fin 3000; Fin 3200]) as [rise Hrise]; [discriminate|].
  assert (Hrun : data s'
                 = Dict.set "historical"
                     (with_growth df [Fin 100; Fin 110] [Fin 4; Fin 5])
                     (data (holding "historical" df))).
  { unfold s'.
    rewrite (analyze_historical_trends_numeric (holding "historical" df) df
               [Fin 100; Fin 110] [Fin 4; Fin 5] [Fin 3000; Fin 3200] dc cc rise
               eq_refl eq_refl eq_refl eq_refl Hdc Hcc Hrise).
    reflexivity. }
  exists (with_growth df [Fin 100; Fin 110] [Fin 4; Fin 5]).
  assert (Hcol : Dict.get "Demand_Growth_%"
                   (with_growth df [Fin 100; Fin 110] [Fin 4; Fin 5])
                 = Some (of_floats (growth_pct [Fin 100; Fin 110]))).
  { unfold with_growth. rewrite get_set_ne by discriminate. apply get_set_eq. }
  split; [rewrite Hrun; apply get_set_eq|]. split; [exact Hcol|].
  rewrite Hcol.
  rewrite (growth_pct_fin (Fin 100) [Fin 110]) by (repeat constructor).
  discriminate.
Qed.

(** ** Loading, and the run of the whole report *)

Section Loading.

Variable w : world.

Lemma try_except_ok {A} (body : M A) (handles : exn -> bool) (handler : exn -> M A)
    (s s' : state) (a : A) :
  body s = (Ok a, s') -> try_except body handles handler s = (Ok a, s').
Proof. intros H. unfold try_except. rewrite H. reflexivity. Qed.

Lemma try_except_caught {A} (body : M A) (handles : exn -> bool) (handler : exn -> M A)
    (s s' : state) (e : exn) :
  body s = (Raise e, s') -> handles e = true ->
  try_except body handles handler s = handler e s'.
Proof. intros H He. unfold try_except. rewrite H, He. reflexivity. Qed.

Lemma try_except_passed {A} (body : M A) (handles : exn -> bool) (handler : exn -> M A)
    (s s' : state) (e : exn) :
  body s = (Raise e, s') -> handles e = false ->
  try_except body handles handler s = (Raise e, s').
Proof. intros H He. unfold try_except. rewrite H, He. reflexivity. Qed.

Lemma load_one_found (key filename : string) (df : DataFrame) (s : state) :
  read_csv w filename = Ok df ->
  load_one w key filename s
  = (Ok tt, {| data := Dict.set key df (data s);
               out := out s ++ [Loaded filename (shape df)] |}).
Proof.
  intros H. unfold load_one. apply try_except_ok.
  rewrite H, (bind_ok _ _ _ _ _ (lift_run _ _)).
  rewrite (bind_ok _ _ s s (data s)) by reflexivity.
  reflexivity.
Qed.

Lemma load_one_missing (key filename f : string) (s : state) :
  read_csv w filename = Raise (FileNotFoundError f) ->
  load_one w key filename s
  = (Ok tt, {| data := data s; out := out s ++ [NotFound filename] |}).
Proof.
  intros H. unfold load_one.
  rewrite (try_except_caught _ _ _ s s (FileNotFoundError f)); [reflexivity | | reflexivity].
  rewrite H. apply bind_raise. reflexivity.
Qed.

Lemma load_one_fails (key filename : string) (e : exn) (s : state) :
  read_csv w filename = Raise e -> is_FileNotFoundError e = false ->
  load_one w key filename s = (Raise e, s).
Proof.
  intros H He. unfold load_one. apply try_except_passed; [|exact He].
  rewrite H. apply bind_raise. reflexivity.
Qed.

(** What the loop of [load_all_data] leaves when every read succeeds or
    finds no file. *)
Lemma load_loop (files : list (string * string)) (s : state) :
  NoDup (map fst files) ->
  (forall kf, kf ∈ files -> found_or_missing w kf.2) ->
  exists s',
    for_each files (fun kf => load_one w kf.1 kf.2) s = (Ok tt, s') /\
    (exists printed, out s' = out s ++ printed /\
       forall kf f, kf ∈ files -> read_csv w kf.2 = Raise (FileNotFoundError f) ->
                    NotFound kf.2 ∈ printed) /\
    (forall key, key ∉ map fst files -> Dict.get key (data s') = Dict.get key (data s)) /\
    (forall kf f, kf ∈ files -> read_csv w kf.2 = Raise (FileNotFoundError f) ->
       Dict.get kf.1 (data s') = Dict.get kf.1 (data s)) /\
    (forall kf df, kf ∈ files -> read_csv w kf.2 = Ok df ->
       Dict.get kf.1 (data s') = Some df).
Proof.
  revert s. induction files as [|[key filename] files IH]; intros s Hnd Hall.
  - exists s. split; [reflexivity|]. split; [|split; [|split]].
    + exists []. rewrite app_nil_r. split; [reflexivity|].
      intros kf f H. apply elem_of_nil in H. contradiction.
    + reflexivity.
    + intros kf f H. apply elem_of_nil in H. contradiction.
    + intros kf f H. apply elem_of_nil in H. contradiction.
  - cbn [map fst] in Hnd. apply NoDup_cons in Hnd as [Hkey Hnd].
    assert (Hrest : forall kf, kf ∈ files -> found_or_missing w kf.2).
    { intros kf H. apply Hall. right. exact H. }
    assert (Hhere : found_or_missing w filename) by (apply (Hall (key, filename)); left).
    assert (Hfst : forall kf : string * string, kf ∈ files -> kf.1 <> key).
    { intros kf H E. apply Hkey. rewrite <- E.
      apply list_elem_of_fmap. exists kf. auto. }
    cbn [for_each fst snd].
    destruct Hhere as [[df Hdf]|[f Hf]].
    + rewrite (bind_ok _ _ _ _ _ (load_one_found key filename df s Hdf)).
      set (s1 := {| data := _; out := _ |}).
      destruct (IH s1 Hnd Hrest) as (s' & Hrun & (printed & Hout & Hwarn) & Hother & Hmiss & Hfound).
      exists s'. split; [exact Hrun|]. split; [|split; [|split]].
      * exists (Loaded filename (shape df) :: printed). split.
        -- rewrite Hout. unfold s1. cbn [out]. rewrite <- app_assoc. reflexivity.
        -- intros kf f Hkf Hr. apply elem_of_cons in Hkf as [->|Hkf].
           ++ cbn in Hr. congruence.
           ++ right. apply (Hwarn kf f Hkf Hr).
      * intros k Hk. cbn [map fst] in Hk. apply not_elem_of_cons in Hk as [Hne Hk].
        rewrite (Hother k Hk). unfold s1. cbn [data]. apply get_set_ne. congruence.
      * intros kf f Hkf Hr. apply elem_of_cons in Hkf as [->|Hkf].
        -- cbn in Hr. congruence.
        -- rewrite (Hmiss kf f Hkf Hr). unfold s1. cbn [data].
           apply get_set_ne. intros E. apply (Hfst kf Hkf). congruence.
      * intros kf df' Hkf Hr. apply elem_of_cons in Hkf as [->|Hkf].
        -- cbn in Hr |- *. rewrite (Hother key Hkey). unfold s1. cbn [data].
           rewrite get_set_eq. congruence.
        -- apply (Hfound kf df' Hkf Hr).
    + rewrite (bind_ok _ _ _ _ _ (load_one_missing key filename f s Hf)).
      set (s1 := {| data := _; out := _ |}).
      destruct (IH s1 Hnd Hrest) as (s' & Hrun & (printed & Hout & Hwarn) & Hother & Hmiss & Hfound).
      exists s'. split; [exact Hrun|]. split; [|split; [|split]].
      * exists (NotFound filename :: printed). split.
        -- rewrite Hout. unfold s1. cbn [out]. rewrite <- app_assoc. reflexivity.
        -- intros kf f' Hkf Hr. apply elem_of_cons in Hkf as [->|Hkf].
           ++ left.
           ++ right. apply (Hwarn kf f' Hkf Hr).
      * intros k Hk. cbn [map fst] in Hk. apply not_elem_of_cons in Hk as [Hne Hk].
        rewrite (Hother k Hk). reflexivity.
      * intros kf f' Hkf Hr. apply elem_of_cons in Hkf as [->|Hkf].
        -- cbn. rewrite (Hother key Hkey). reflexivity.
        -- rewrite (Hmiss kf f' Hkf Hr). reflexivity.
      * intros kf df' Hkf Hr. apply elem_of_cons in Hkf as [->|Hkf].
        -- cbn in Hr. congruence.
        -- apply (Hfound kf df' Hkf Hr).
Qed.

Lemma load_all_data_of_loop (s s1 : state) :
  for_each data_files (fun kf => load_one w kf.1 kf.2) s = (Ok tt, s1) ->
  load_all_data w s
  = (Ok true, {| data := data s1; out := out s1 ++ [LoadedCount (length (data s1))] |}).
Proof.
  intros H. unfold load_all_data. apply try_except_ok.
  rewrite (bind_ok _ _ _ _ _ H).
  rewrite (bind_ok _ _ s1 s1 (data s1)) by reflexivity.
  rewrite (bind_ok _ _ _ _ _ (print_run _ _)). reflexivity.
Qed.

Lemma data_files_keys : NoDup (map fst data_files).
Proof. apply (bool_decide_unpack _). vm_compute. exact I. Qed.

End Loading.

Section Report.

Variable w : world.

Lemma for_each_next {A} (x : A) (xs : list A) (body : A -> M unit) (s s1 : state) :
  body x s = (Ok tt, s1) -> for_each (x :: xs) body s = for_each xs body s1.
Proof.
  intros H. cbn [for_each]. exact (bind_ok _ (fun _ => for_each xs body) _ _ _ H).
Qed.

Lemma for_each_app {A} (xs ys : list A) (body : A -> M unit) (s s1 : state) :
  for_each xs body s = (Ok tt, s1) ->
  for_each (xs ++ ys) body s = for_each ys body s1.
Proof.
  revert s. induction xs as [|x xs IH]; intros s H.
  - cbn in H. injection H as <-. reflexivity.
  - cbn [app for_each] in H |- *. unfold mbind, M_bind in H |- *.
    destruct (body x s) as [[[]|e] s0]; [|discriminate].
    apply IH, H.
Qed.

Lemma for_each_raise {A} (x : A) (xs : list A) (body : A -> M unit)
    (s s1 : state) (e : exn) :
  body x s = (Raise e, s1) -> for_each (x :: xs) body s = (Raise e, s1).
Proof. intros H. cbn [for_each]. apply (bind_raise _ _ _ _ _ H). Qed.

Lemma call_run {A} (m : M A) (s s1 : state) (a : A) :
  m s = (Ok a, s1) -> call m s = (Ok tt, s1).
Proof. intros H. unfold call. rewrite (bind_ok _ _ _ _ _ H). reflexivity. Qed.

Lemma call_raise {A} (m : M A) (s s1 : state) (e : exn) :
  m s = (Raise e, s1) -> call m s = (Raise e, s1).
Proof. intros H. unfold call. apply (bind_raise _ _ _ _ _ H). Qed.

Lemma load_loop_missing (files : list (string * string)) (s : state) :
  all_missing w ->
  for_each files (fun kf => load_one w kf.1 kf.2) s
  = (Ok tt, {| data := data s; out := out s ++ map (fun kf => NotFound kf.2) files |}).
Proof.
  intros Hw. revert s. induction files as [|[key filename] files IH]; intros s.
  - cbn. rewrite app_nil_r. destruct s; reflexivity.
  - destruct (Hw filename) as [f Hf].
    rewrite (for_each_next (key, filename) files (fun kf => load_one w kf.1 kf.2) s _
               (load_one_missing w key filename f s Hf)).
    rewrite IH. cbn [data out map snd]. rewrite <- app_assoc. reflexivity.
Qed.

(** A method whose dataset is absent prints that it is not available
    and returns; it draws nothing and changes nothing. *)
Lemma absent_dataset (key what : string) (m : M unit) (s : state) :
  (key, what, m) ∈ dependent_analyses w ->
  Dict.get key (data s) = None ->
  m s = (Ok tt, {| data := data s; out := out s ++ [NotAvailable what] |}).
Proof.
  intros Hin Hnone. unfold dependent_analyses in Hin.
  repeat (apply elem_of_cons in Hin as [[= -> -> ->]|Hin]);
    [ .. | apply elem_of_nil in Hin; contradiction ].
  1-3: apply (call_run _ _ _ None).
  all: try unfold analyze_historical_trends; try unfold analyze_seasonal_patterns;
    try unfold analyze_sector_wise_consumption;
    try unfold create_demand_projection_chart; try unfold create_seasonal_heatmap;
    try unfold create_sector_pie_chart; try unfold create_daily_load_profile;
    try unfold create_infrastructure_dashboard;
    rewrite (bind_ok _ _ s s (data s)) by reflexivity; rewrite Hnone.
  1-3: rewrite (bind_ok _ _ _ _ _ (print_run _ _)).
  all: reflexivity.
Qed.

End Report.

(** One statement of a sequence, given the equation [H] of its run. *)
Ltac run_statement H :=
  match goal with
  | |- context [for_each (?x :: ?xs) ?body ?s] => rewrite (for_each_next x xs body s _ H)
  end.

Section WholeReport.

Variable w : world.

Lemma display_data_summary_empty (o : list event) :
  display_data_summary {| data := []; out := o |}
  = (Ok tt, {| data := []; out := o ++ [Banner "DATA SUMMARY"] |}).
Proof. reflexivity. Qed.

Lemma load_all_data_missing (o : list event) :
  all_missing w ->
  load_all_data w {| data := []; out := o |}
  = (Ok true, {| data := [];
                 out := o ++ map (fun kf => NotFound kf.2) data_files ++ [LoadedCount 0] |}).
Proof.
  intros Hw.
  rewrite (load_all_data_of_loop w _ _ (load_loop_missing w data_files _ Hw)).
  cbn [data out length]. rewrite <- app_assoc. reflexivity.
Qed.

Lemma absent_in_empty (key what : string) (m : M unit) (o : list event) :
  (key, what, m) ∈ dependent_analyses w ->
  m {| data := []; out := o |}
  = (Ok tt, {| data := []; out := o ++ [NotAvailable what] |}).
Proof.
  intros Hin.
  exact (absent_dataset w key what m {| data := []; out := o |} Hin eq_refl).
Qed.

Lemma report_without_files_run (o : list event) :
  all_missing w ->
  generate_comprehensive_report w {| data := []; out := o |}
  = (Ok tt, {| data := []; out := o ++ report_without_files |}).
Proof.
  intros Hw. unfold generate_comprehensive_report, report_statements.
  repeat
    match goal with
    | |- for_each (print ?e :: _) _ ?s = _ =>
        run_statement (print_run e s); cbn [data out]
    | |- for_each (call (load_all_data w) :: _) _ {| data := []; out := ?o' |} = _ =>
        run_statement (call_run _ _ _ _ (load_all_data_missing o' Hw))
    | |- for_each (display_data_summary :: _) _ {| data := []; out := ?o' |} = _ =>
        run_statement (display_data_summary_empty o')
    | |- for_each (?m :: _) _ {| data := []; out := ?o' |} = _ =>
        run_statement (absent_in_empty _ _ m o'
                         ltac:(unfold dependent_analyses; repeat constructor))
    end.
  cbn [for_each]. unfold mret, M_ret. do 2 f_equal.
  unfold report_without_files. rewrite <- !app_assoc. reflexivity.
Qed.

End WholeReport.

Section AbortOrigin.

Variable w : world.

Lemma display_data_summary_ok (s : state) :
  exists printed,
    display_data_summary s = (Ok tt, {| data := data s; out := out s ++ printed |}).
Proof.
  unfold display_data_summary.
  rewrite (bind_ok _ _ _ _ _ (print_run _ _)).
  match goal with |- context [(get_data ≫= ?k) ?s0] =>
    rewrite (bind_ok get_data k s0 s0 (data s0) eq_refl)
  end.
  rewrite (for_each_print
             (fun kdf : string * DataFrame =>
                Summary kdf.1 (shape kdf.2) (Dict.keys kdf.2)
                  (if decide (nrows kdf.2 <= 10)%nat then kdf.2 else head_rows 3 kdf.2))
             (data s) _).
  cbn [data out]. rewrite <- app_assoc. eexists. reflexivity.
Qed.

(** A statement of the report that is a method with a dataset: it
    returns, or it raises with its dataset in the registry. *)
Lemma dependent_statement (key what : string) (m : M unit) (rest : list (M unit))
    (s : state) (e : exn) (s' : state) :
  (key, what, m) ∈ dependent_analyses w ->
  (forall s1, m s = (Ok tt, s1) ->
     for_each rest (fun x => x) s1 = (Raise e, s') ->
     exists key what m s1,
       (key, what, m) ∈ dependent_analyses w /\ m s1 = (Raise e, s') /\
       Dict.get key (data s1) <> None) ->
  for_each (m :: rest) (fun x => x) s = (Raise e, s') ->
  exists key what m s1,
    (key, what, m) ∈ dependent_analyses w /\ m s1 = (Raise e, s') /\
    Dict.get key (data s1) <> None.
Proof.
  intros Hin Hnext. destruct (m s) as [[[]|e0] s1] eqn:E.
  - rewrite (for_each_next m rest (fun x => x) s s1 E). apply Hnext. reflexivity.
  - rewrite (for_each_raise m rest (fun x => x) s s1 e0 E). intros [= <- <-].
    exists key, what, m, s. split; [exact Hin|]. split; [exact E|].
    intros Hnone. rewrite (absent_dataset w key what m s Hin Hnone) in E. discriminate.
Qed.

Lemma report_abort_origin (o : list event) (e : exn) (s' : state) :
  (forall kf, kf ∈ data_files -> found_or_missing w kf.2) ->
  generate_comprehensive_report w {| data := []; out := o |} = (Raise e, s') ->
  exists key what m s1,
    (key, what, m) ∈ dependent_analyses w /\ m s1 = (Raise e, s') /\
    Dict.get key (data s1) <> None.
Proof.
  intros Hall. unfold generate_comprehensive_report, report_statements.
  run_statement (print_run (Banner "COMPREHENSIVE CHENNAI ELECTRICITY ANALYTICS REPORT")
                   {| data := []; out := o |}).
  match goal with |- for_each _ _ ?s = _ -> _ =>
    destruct (load_loop w data_files s data_files_keys Hall) as (s1 & Hloop & _);
    run_statement (call_run _ _ _ _ (load_all_data_of_loop w s s1 Hloop))
  end.
  match goal with |- for_each _ _ ?s = _ -> _ =>
    destruct (display_data_summary_ok s) as [printed Hsum]; run_statement Hsum
  end.
  repeat
    match goal with
    | |- for_each (print ?e :: _) _ ?s = _ -> _ => run_statement (print_run e s)
    | |- for_each (?m :: _) _ ?s = _ -> _ =>
        apply (dependent_statement _ _ m _ s e s'
                 ltac:(unfold dependent_analyses; repeat constructor));
        intros ? _
    end.
  discriminate.
Qed.

End AbortOrigin.

Section MainFacts.

Variable w : world.

Lemma init_run (s : state) :
  init s = (Ok tt, {| data := [];
                      out := out s ++ [Say "Chennai Electricity Analytics Program Initialized"] |}).
Proof. reflexivity. Qed.

Lemma main_of_failure (s s1 : state) (e : exn) :
  (init ;; generate_comprehensive_report w) s = (Raise e, s1) ->
  main w s = (Ok tt, {| data := data s1; out := out s1 ++ main_failure e |}).
Proof.
  intros H. unfold main.
  rewrite (try_except_caught _ _ _ _ _ _ H eq_refl).
  rewrite (bind_ok _ _ _ _ _ (print_run _ _)).
  rewrite print_run. cbn [data out]. rewrite <- app_assoc. reflexivity.
Qed.

Lemma main_returns (s : state) : exists s', main w s = (Ok tt, s').
Proof.
  destruct ((init ;; generate_comprehensive_report w) s) as [[[]|e] s1] eqn:E.
  - exists s1. unfold main. apply try_except_ok, E.
  - eexists. apply (main_of_failure _ _ _ E).
Qed.

Lemma report_stops (pre post : list (M unit)) (stmt : M unit)
    (s s1 s2 : state) (e : exn) :
  report_statements w = pre ++ stmt :: post ->
  for_each pre (fun m => m) s = (Ok tt, s1) ->
  stmt s1 = (Raise e, s2) ->
  generate_comprehensive_report w s = (Raise e, s2).
Proof.
  intros Hsplit Hpre Hstmt. unfold generate_comprehensive_report.
  rewrite Hsplit, (for_each_app _ _ _ _ _ Hpre).
  apply for_each_raise, Hstmt.
Qed.

End MainFacts.

(** C10.  [load_all_data] returns [True] whenever every read succeeds or
    finds no file; when no file exists at all it still returns [True],
    with an empty registry and a count of 0 datasets. *)
Theorem load_all_data_returns_true (w : world) :
  (forall s : state,
     (forall kf, kf ∈ data_files -> found_or_missing w kf.2) ->
     exists s', load_all_data w s = (Ok true, s')) /\
  (all_missing w ->
   load_all_data w start
   = (Ok true, {| data := [];
                  out := map (fun kf => NotFound kf.2) data_files ++ [LoadedCount 0] |})).
Proof.
  split.
  - intros s Hall.
    destruct (load_loop w data_files s data_files_keys Hall) as (s1 & Hrun & _).
    eexists. apply (load_all_data_of_loop w s s1 Hrun).
  - intros Hw. apply (load_all_data_missing w [] Hw).
Qed.

Lemma load_all_data_returns_true_witness :
  all_missing no_files /\
  (load_all_data no_files start).1 = Ok true /\
  data (load_all_data no_files start).2 = [].
Proof.
  assert (Hw : all_missing no_files) by (intros f; exists f; reflexivity).
  split; [exact Hw|].
  destruct (load_all_data_returns_true no_files) as [_ Hnone].
  rewrite (Hnone Hw). split; reflexivity.
Defined.

(** C6.  When every read succeeds or finds no file: [load_all_data] on a
    fresh instance returns [True], prints a warning for each missing
    file and leaves its key out of the registry, and registers each file
    it found.  A method whose dataset is absent prints that the dataset
    is not available and returns normally, with the registry as it was.
    If the report is aborted, the exception comes from a method whose
    dataset is in the registry, never from a missing file; when no file
    exists at all the whole report runs to its last line. *)
Theorem missing_files_are_not_fatal (w : world) :
  (forall kf, kf ∈ data_files -> found_or_missing w kf.2) ->
  (forall o : list event,
     exists s',
       load_all_data w {| data := []; out := o |} = (Ok true, s') /\
       forall key filename, (key, filename) ∈ data_files ->
         (forall f, read_csv w filename = Raise (FileNotFoundError f) ->
            NotFound filename ∈ out s' /\ Dict.get key (data s') = None) /\
         (forall df, read_csv w filename = Ok df ->
            Dict.get key (data s') = Some df)) /\
  (forall (key what : string) (m : M unit) (s : state),
     (key, what, m) ∈ dependent_analyses w ->
     Dict.get key (data s) = None ->
     m s = (Ok tt, {| data := data s; out := out s ++ [NotAvailable what] |})) /\
  (forall (o : list event) (e : exn) (s' : state),
     generate_comprehensive_report w {| data := []; out := o |} = (Raise e, s') ->
     exists key what m s1,
       (key, what, m) ∈ dependent_analyses w /\ m s1 = (Raise e, s') /\
       Dict.get key (data s1) <> None) /\
  (all_missing w ->
   forall o : list event,
     generate_comprehensive_report w {| data := []; out := o |}
     = (Ok tt, {| data := []; out := o ++ report_without_files |})).
Proof.
  intros Hall. split; [|split; [|split]].
  - intros o.
    destruct (load_loop w data_files {| data := []; out := o |} data_files_keys Hall)
      as (s1 & Hrun & (printed & Hout & Hwarn) & _ & Hmiss & Hfound).
    eexists. split; [apply (load_all_data_of_loop w _ s1 Hrun)|].
    cbn [data out]. intros key filename Hin. split.
    + intros f Hf. split.
      * rewrite Hout. apply elem_of_app. left. apply elem_of_app. right.
        apply (Hwarn (key, filename) f Hin Hf).
      * apply (Hmiss (key, filename) f Hin Hf).
    + intros df Hdf. apply (Hfound (key, filename) df Hin Hdf).
  - intros key what m s. apply absent_dataset.
  - intros o e s'. apply report_abort_origin, Hall.
  - intros Hw o. apply report_without_files_run, Hw.
Qed.

Lemma missing_files_are_not_fatal_witness :
  NotFound "chennai_electricity_historical_2020_2024.csv"
    ∈ out (load_all_data no_files start).2 /\
  (call analyze_historical_trends (load_all_data no_files start).2).1 = Ok tt /\
  generate_comprehensive_report no_files start
  = (Ok tt, {| data := []; out := report_without_files |}).
Proof.
  assert (Hw : all_missing no_files) by (intros f; exists f; reflexivity).
  assert (Hall : forall kf, kf ∈ data_files -> found_or_missing no_files kf.2).
  { intros kf _. right. exists kf.2. reflexivity. }
  destruct (missing_files_are_not_fatal no_files Hall) as (Hload & Habsent & _ & Hreport).
  destruct (Hload []) as (s' & Hs' & Hkeys).
  change {| data := []; out := [] |} with start in Hs'.
  rewrite Hs'. cbn [snd].
  destruct (Hkeys "historical" "chennai_electricity_historical_2020_2024.csv")
    as [Hmissing _]; [repeat constructor|].
  destruct (Hmissing _ eq_refl) as [Hwarned Hnone].
  split; [exact Hwarned|]. split.
  - rewrite (Habsent "historical" "Historical data" (call analyze_historical_trends) s');
      [reflexivity | unfold dependent_analyses; repeat constructor | exact Hnone].
  - apply (Hreport Hw []).
Defined.

(** C7, as the program has it.  An exception raised by a statement of
    [generate_comprehensive_report] leaves the method at once: the
    statements after it do not run.  [main] catches it, prints the error
    and its hint about the CSV files, and returns normally; [main] never
    raises. *)
Theorem failing_step_ends_report (w : world) :
  (forall (pre post : list (M unit)) (stmt : M unit) (s s1 s2 : state) (e : exn),
     report_statements w = pre ++ stmt :: post ->
     for_each pre (fun m => m) s = (Ok tt, s1) ->
     stmt s1 = (Raise e, s2) ->
     generate_comprehensive_report w s = (Raise e, s2)) /\
  (forall (s s1 : state) (e : exn),
     (init ;; generate_comprehensive_report w) s = (Raise e, s1) ->
     main w s = (Ok tt, {| data := data s1; out := out s1 ++ main_failure e |})) /\
  (forall s : state, exists s', main w s = (Ok tt, s')).
Proof.
  split; [exact (report_stops w)|]. split; [exact (main_of_failure w) | exact (main_returns w)].
Qed.

Lemma failing_step_ends_report_witness :
  main no_demand_column start
  = (Ok tt, {| data := [("historical", [("Year", [CStr "2020"; CStr "2021"])])];
               out := no_demand_column_output ++ main_failure (KeyError "Demand_MU") |}).
Proof.
  destruct (failing_step_ends_report no_demand_column) as (_ & Hmain & _).
  apply (Hmain start
           {| data := [("historical", [("Year", [CStr "2020"; CStr "2021"])])];
              out := no_demand_column_output |} (KeyError "Demand_MU")).
  reflexivity.
Defined.

(** C7 as stated fails when the historical file lacks its demand column:
    the report ends at the historical analysis, and the seasonal
    analysis and everything after it never run. *)
Lemma report_ends_at_failing_step :
  generate_comprehensive_report no_demand_column (init start).2
  = (Raise (KeyError "Demand_MU"),
     {| data := [("historical", [("Year", [CStr "2020"; CStr "2021"])])];
        out := no_demand_column_output |}) /\
  out (main no_demand_column start).2
  = no_demand_column_output ++ main_failure (KeyError "Demand_MU").
Proof. split; reflexivity. Qed.

(* ===================================================================== *)
(** * Further properties of the methods *)
(* ===================================================================== *)

Import Terms.

(** ** Loading *)

Section LoadingMore.

Variable w : world.

(** The loop of [load_all_data] over files that can all be read or are
    missing, on a registry that has none of their keys: the found keys
    are appended in order. *)
Lemma load_loop_keys (files : list (string * string)) (s s' : state) :
  NoDup (map fst files) ->
  (forall kf, kf ∈ files -> kf.1 ∉ Dict.keys (data s)) ->
  (forall kf, kf ∈ files -> found_or_missing w kf.2) ->
  for_each files (fun kf => load_one w kf.1 kf.2) s = (Ok tt, s') ->
  Dict.keys (data s') = Dict.keys (data s) ++ map fst (found_files w files).
Proof.
  revert s. induction files as [|[key filename] files IH]; intros s Hnd Hfresh Hall Hrun.
  - cbn in Hrun. injection Hrun as <-. cbn. rewrite app_nil_r. reflexivity.
  - cbn [map fst] in Hnd. apply NoDup_cons in Hnd as [Hkey Hnd].
    assert (Hrest : forall kf, kf ∈ files -> found_or_missing w kf.2)
      by (intros kf H; apply Hall; right; exact H).
    assert (Hfresh0 : key ∉ Dict.keys (data s)) by (apply (Hfresh (key, filename)); left).
    unfold found_files.
    destruct (Hall (key, filename) ltac:(left)) as [[df Hdf]|[f Hf]]; cbn [snd] in *.
    + rewrite (for_each_next (key, filename) files (fun kf => load_one w kf.1 kf.2) s _
                 (load_one_found w key filename df s Hdf)) in Hrun.
      rewrite filter_cons_True by (unfold is_found; cbn; rewrite Hdf; reflexivity).
      rewrite (IH _ Hnd) with (2 := Hrest) (3 := Hrun).
      * cbn [data map fst]. rewrite keys_set_absent by assumption.
        rewrite <- app_assoc. reflexivity.
      * cbn [data]. intros kf Hkf. rewrite keys_set_absent by assumption.
        rewrite elem_of_app, list_elem_of_singleton. intros [H|H].
        -- apply (Hfresh kf); [right; exact Hkf | exact H].
        -- apply Hkey. rewrite <- H. apply list_elem_of_fmap. exists kf. auto.
    + rewrite (for_each_next (key, filename) files (fun kf => load_one w kf.1 kf.2) s _
                 (load_one_missing w key filename f s Hf)) in Hrun.
      rewrite filter_cons_False by (unfold is_found; cbn; rewrite Hf; discriminate).
      rewrite (IH _ Hnd) with (2 := Hrest) (3 := Hrun); [reflexivity|].
      cbn [data]. intros kf Hkf. apply (Hfresh kf). right. exact Hkf.
Qed.

End LoadingMore.

Section LoadFailure.

Variable w : world.

Lemma load_all_data_of_failure (s s1 : state) (e : exn) :
  for_each data_files (fun kf => load_one w kf.1 kf.2) s = (Raise e, s1) ->
  load_all_data w s
  = (Ok false, {| data := data s1; out := out s1 ++ [LoadFailed e] |}).
Proof.
  intros H. unfold load_all_data.
  rewrite (try_except_caught _ _ _ s s1 e); [| |reflexivity].
  - rewrite (bind_ok _ _ _ _ _ (print_run _ _)). reflexivity.
  - apply bind_raise, H.
Qed.

End LoadFailure.

(** X1.  When every read succeeds or finds no file, [load_all_data] on a
    fresh registry registers exactly the files found, in the order of
    [data_files], and the count it prints last is their number. *)
Theorem loaded_count_is_files_found (w : world) (o : list event) :
  (forall kf, kf ∈ data_files -> found_or_missing w kf.2) ->
  exists s',
    load_all_data w {| data := []; out := o |} = (Ok true, s') /\
    Dict.keys (data s') = map fst (found_files w data_files) /\
    last (out s') = Some (LoadedCount (length (found_files w data_files))).
Proof.
  intros Hall.
  destruct (load_loop w data_files {| data := []; out := o |} data_files_keys Hall)
    as (s1 & Hrun & _).
  assert (Hkeys : Dict.keys (data s1) = map fst (found_files w data_files)).
  { rewrite (load_loop_keys w data_files _ s1 data_files_keys) with (3 := Hrun);
      [reflexivity | | exact Hall].
    intros kf _. apply not_elem_of_nil. }
  eexists. split; [apply (load_all_data_of_loop w _ s1 Hrun)|].
  cbn [data out]. split; [exact Hkeys|].
  rewrite last_snoc. do 2 f_equal.
  rewrite <- (length_map fst (data s1)), <- (length_map fst (found_files w data_files)).
  unfold Dict.keys in Hkeys. rewrite Hkeys. reflexivity.
Qed.

Lemma loaded_count_is_files_found_witness :
  exists s',
    load_all_data no_demand_column start = (Ok true, s') /\
    Dict.keys (data s') = ["historical"] /\
    last (out s') = Some (LoadedCount 1).
Proof.
  destruct (loaded_count_is_files_found no_demand_column []) as (s' & Hrun & Hkeys & Hlast).
  - intros kf _. unfold found_or_missing, no_demand_column. cbn [read_csv].
    destruct (decide _); [left | right]; eexists; reflexivity.
  - exists s'. split; [exact Hrun|]. split; [exact Hkeys | exact Hlast].
Defined.

(** X2.  When a read raises anything but [FileNotFoundError], the
    files before it having been read or found missing: [load_all_data]
    returns [False] and prints the error instead of the count; the
    files before it are registered as usual; the failing file and the
    files after it are not: their keys hold what they held before. *)
Theorem load_stops_at_first_error (w : world) (before after : list (string * string))
    (key filename : string) (e : exn) (s : state) :
  data_files = before ++ (key, filename) :: after ->
  (forall kf, kf ∈ before -> found_or_missing w kf.2) ->
  read_csv w filename = Raise e -> is_FileNotFoundError e = false ->
  exists s1,
    for_each before (fun kf => load_one w kf.1 kf.2) s = (Ok tt, s1) /\
    load_all_data w s
    = (Ok false, {| data := data s1; out := out s1 ++ [LoadFailed e] |}) /\
    (forall kf df, kf ∈ before -> read_csv w kf.2 = Ok df ->
       Dict.get kf.1 (data s1) = Some df) /\
    (forall kf, kf ∈ (key, filename) :: after ->
       Dict.get kf.1 (data s1) = Dict.get kf.1 (data s)).
Proof.
  intros Hsplit Hbefore Hread He.
  pose proof data_files_keys as Hnd. rewrite Hsplit in Hnd.
  rewrite map_app in Hnd. apply NoDup_app in Hnd as (Hnd1 & Hdisj & _).
  destruct (load_loop w before s Hnd1 Hbefore)
    as (s1 & Hrun & _ & Hother & _ & Hfound).
  exists s1. split; [exact Hrun|]. split; [|split].
  - apply load_all_data_of_failure. rewrite Hsplit.
    rewrite (for_each_app _ _ _ _ _ Hrun).
    apply (for_each_raise (key, filename) after (fun kf => load_one w kf.1 kf.2)).
    apply load_one_fails; assumption.
  - exact Hfound.
  - intros kf Hkf. apply Hother. intros Hin. apply (Hdisj _ Hin).
    apply list_elem_of_fmap. exists kf. split; [reflexivity | exact Hkf].
Qed.

Lemma load_stops_at_first_error_witness :
  load_all_data unreadable_monthly start
  = (Ok false,
     {| data := [("historical", [("Year", [CStr "2020"])])];
        out := [ Loaded "chennai_electricity_historical_2020_2024.csv" (1, 1);
                 LoadFailed (OtherError "ParserError") ] |}).
Proof.
  assert (Hbefore : forall kf : string * string,
            kf ∈ [("historical", "chennai_electricity_historical_2020_2024.csv")] ->
            found_or_missing unreadable_monthly kf.2).
  { intros kf Hkf. apply list_elem_of_singleton in Hkf as ->. left. eexists. reflexivity. }
  destruct (load_stops_at_first_error unreadable_monthly
              [("historical", "chennai_electricity_historical_2020_2024.csv")]
              (drop 2 data_files)
              "monthly_detailed" "chennai_electricity_monthly_detailed_2023_2025.csv"
              (OtherError "ParserError") start eq_refl Hbefore eq_refl eq_refl)
    as (s1 & Hpre & Hrun & _).
  rewrite Hrun. cbn in Hpre. injection Hpre as <-. reflexivity.
Defined.

(** X3.  On a registry that already holds datasets, when every read
    succeeds or finds no file: a file that is found replaces the
    dataset under its key, a file that is missing leaves the dataset
    the registry held under its key in place, and the keys that are
    not in [data_files] are untouched. *)
Theorem reload_keeps_stale_datasets (w : world) (s : state) :
  (forall kf, kf ∈ data_files -> found_or_missing w kf.2) ->
  exists s',
    load_all_data w s = (Ok true, s') /\
    (forall kf df, kf ∈ data_files -> read_csv w kf.2 = Ok df ->
       Dict.get kf.1 (data s') = Some df) /\
    (forall kf f, kf ∈ data_files -> read_csv w kf.2 = Raise (FileNotFoundError f) ->
       Dict.get kf.1 (data s') = Dict.get kf.1 (data s)) /\
    (forall key, key ∉ map fst data_files ->
       Dict.get key (data s') = Dict.get key (data s)).
Proof.
  intros Hall.
  destruct (load_loop w data_files s data_files_keys Hall)
    as (s1 & Hrun & _ & Hother & Hmiss & Hfound).
  eexists. split; [apply (load_all_data_of_loop w _ s1 Hrun)|].
  cbn [data]. split; [exact Hfound|]. split; [exact Hmiss | exact Hother].
Qed.

Lemma reload_keeps_stale_datasets_witness :
  let s := holding "historical" [("Year", [CStr "1999"])] in
  Dict.get "historical" (data (load_all_data no_files s).2)
  = Some [("Year", [CStr "1999"])].
Proof.
  intros s.
  destruct (reload_keeps_stale_datasets no_files s) as (s' & Hrun & _ & Hmiss & _).
  - intros kf _. right. exists kf.2. reflexivity.
  - rewrite Hrun. cbn [snd].
    exact (Hmiss ("historical", "chennai_electricity_historical_2020_2024.csv")
             "chennai_electricity_historical_2020_2024.csv"
             ltac:(repeat constructor) eq_refl).
Defined.

(** ** The data summary and the growth columns *)

Section SummaryFacts.



End SummaryFacts.



Section GrowthShape.

Lemma ffill_from_length (l : f64) (xs : list f64) :
  length (ffill_from l xs) = length xs.
Proof. revert l. induction xs as [|x xs IH]; intros l; cbn; [|rewrite IH]; reflexivity. Qed.

Lemma pct_change_length (xs : list f64) : length (pct_change xs) = length xs.
Proof.
  unfold pct_change, shift, ffill.
  rewrite length_zip_with, length_take, ffill_from_length. cbn [length].
  rewrite ffill_from_length. lia.
Qed.

Lemma growth_pct_length (xs : list f64) : length (growth_pct xs) = length xs.
Proof. unfold growth_pct, times100. rewrite length_map. apply pct_change_length. Qed.

Lemma growth_pct_first (x : f64) (xs : list f64) :
  growth_pct (x :: xs) !! 0%nat = Some NaN.
Proof.
  unfold growth_pct, pct_change, ffill, shift. cbn.
  destruct x; reflexivity.
Qed.

Lemma to_floats_length (col : column) (xs : list f64) :
  to_floats col = Ok xs -> length xs = length col.
Proof.
  revert xs. induction col as [|c col IH]; intros xs; cbn.
  - intros [= <-]. reflexivity.
  - destruct c as [x|s]; cbn; [|discriminate].
    destruct (to_floats col) as [ys|e]; cbn; [|discriminate].
    intros [= <-]. cbn. f_equal. apply IH. reflexivity.
Qed.

Lemma to_floats_string (col : column) :
  (exists t, CStr t ∈ col) -> to_floats col = Raise TypeError.
Proof.
  intros [t Hin]. induction col as [|c col IH]; [apply elem_of_nil in Hin; contradiction|].
  cbn. destruct c as [x|s]; [|reflexivity]. cbn.
  apply elem_of_cons in Hin as [H|Hin]; [discriminate|]. rewrite (IH Hin). reflexivity.
Qed.

Lemma to_floats_numbers (col : column) :
  (forall t, CStr t ∉ col) -> exists xs, to_floats col = Ok xs /\ col = of_floats xs.
Proof.
  induction col as [|c col IH]; intros H.
  - exists []. split; reflexivity.
  - destruct c as [x|t]; [|exfalso; apply (H t); left].
    destruct IH as (xs & Hxs & ->).
    + intros t Ht. apply (H t). right. exact Ht.
    + exists (x :: xs). cbn. change (to_floats (map CNum xs)) with (to_floats (of_floats xs)).
      rewrite to_floats_of_floats. split; reflexivity.
Qed.

(** No row of the filled column has a value in it and in the row
    before it exactly when every row before the last is null. *)
Lemma present_pairs_from (l : cell) (col : column) :
  filter (fun p : cell * cell => cell_notna p.1 && cell_notna p.2 = true)
    (zip (ffill_cells_from l col) (l :: ffill_cells_from l col)) = []
  <-> (if cell_notna l then col = []
       else Forall (fun c => cell_notna c = false) (removelast col)).
Proof.
  revert l. induction col as [|c col IH]; intros l.
  - cbn. destruct (cell_notna l); split; auto.
  - cbn [ffill_cells_from zip zip_with].
    set (v := if cell_notna c then c else l).
    change (zip_with pair (ffill_cells_from v col) (v :: ffill_cells_from v col))
      with (zip (ffill_cells_from v col) (v :: ffill_cells_from v col)).
    destruct (cell_notna l) eqn:El.
    + assert (Hv : cell_notna v = true) by (unfold v; destruct (cell_notna c) eqn:Ec; assumption).
      rewrite filter_cons_True by (cbn [fst snd]; rewrite Hv, El; reflexivity).
      split; discriminate.
    + rewrite filter_cons_False by (cbn [fst snd]; rewrite El, andb_false_r; discriminate).
      rewrite (IH v). unfold v. destruct (cell_notna c) eqn:Ec.
      * rewrite Ec. destruct col as [|c' col]; cbn [removelast].
        -- split; [constructor | reflexivity].
        -- split; [discriminate|]. intros H. apply Forall_cons in H as [H _]. congruence.
      * rewrite El. destruct col as [|c' col].
        -- cbn. split; constructor.
        -- change (removelast (c :: c' :: col)) with (c :: removelast (c' :: col)).
           rewrite Forall_cons. split; [auto | intros [_ H]; exact H].
Qed.

Lemma present_pairs_none (col : column) :
  present_pairs (ffill_cells col) = []
  <-> Forall (fun c => cell_notna c = false) (removelast col).
Proof. apply (present_pairs_from (CNum NaN) col). Qed.

(** The growth column of a column that holds a string. *)
Lemma growth_column_text (col : column) :
  (exists t, CStr t ∈ col) ->
  (Forall (fun c => cell_notna c = false) (removelast col) ->
   growth_column col = Ok (map (fun _ => CNum NaN) col)) /\
  (Exists (fun c => cell_notna c = true) (removelast col) ->
   growth_column col = Raise TypeError).
Proof.
  intros Ht. unfold growth_column. rewrite (to_floats_string col Ht).
  destruct (present_pairs (ffill_cells col)) as [|p ps] eqn:E.
  - split; [reflexivity|]. intros Hex. exfalso.
    apply present_pairs_none in E. apply Exists_exists in Hex as (c & Hc & Hn).
    rewrite Forall_forall in E. rewrite (E c Hc) in Hn. discriminate.
  - split; [|reflexivity]. intros Hall. exfalso.
    apply present_pairs_none in Hall. rewrite Hall in E. discriminate.
Qed.

(** In a column that holds a string and is null before its last row,
    the last row is the string. *)
Lemma lone_string_is_last (col : column) :
  (exists t, CStr t ∈ col) ->
  Forall (fun c => cell_notna c = false) (removelast col) ->
  exists t, last col = Some (CStr t).
Proof.
  intros [t Ht] Hall.
  destruct (last col) as [l|] eqn:El.
  - destruct col as [|c col]; [discriminate|].
    rewrite (app_removelast_last l) in Ht by discriminate.
    assert (Hl : List.last (c :: col) l = l).
    { apply last_Some in El as [pre E]. rewrite E. apply List.last_last. }
    rewrite Hl in Ht. apply elem_of_app in Ht as [Ht|Ht].
    + rewrite Forall_forall in Hall. discriminate (Hall _ Ht).
    + apply list_elem_of_singleton in Ht as <-. exists t. reflexivity.
  - apply last_None in El. subst col. apply elem_of_nil in Ht. contradiction.
Qed.

End GrowthShape.

(** X5.  The growth column [df[c].pct_change() * 100] is computed for
    every column without a string, whatever numbers it holds (missing
    values and infinities too): it has as many rows as the column, and
    its first row is null.  A column that holds a string raises
    [TypeError] when some row before its last row is not null; when
    every row before the last is null (a text column of one row, for
    one) nothing is raised and every row of the growth column is
    null. *)
Theorem growth_column_shape (col : column) :
  ((forall t, CStr t ∉ col) ->
   exists g, growth_column col = Ok g /\ length g = length col /\
             (col <> [] -> g !! 0%nat = Some (CNum NaN))) /\
  ((exists t, CStr t ∈ col) ->
   (Forall (fun c => cell_notna c = false) (removelast col) ->
    growth_column col = Ok (map (fun _ => CNum NaN) col)) /\
   (Exists (fun c => cell_notna c = true) (removelast col) ->
    growth_column col = Raise TypeError)).
Proof.
  split.
  - intros H. destruct (to_floats_numbers col H) as (xs & Hxs & ->).
    exists (of_floats (growth_pct xs)). split; [|split].
    + unfold growth_column. rewrite Hxs. reflexivity.
    + unfold of_floats. rewrite !length_map. apply growth_pct_length.
    + intros Hne. destruct xs as [|x xs]; [contradiction|].
      unfold of_floats. change (map CNum ?l) with (CNum <$> l).
      rewrite list_lookup_fmap, growth_pct_first. reflexivity.
  - apply growth_column_text.
Qed.

Lemma growth_column_shape_witness :
  (exists g, growth_column [CNum NaN; CNum PInf; CNum (Fin 3)] = Ok g /\ length g = 3) /\
  growth_column [CNum (Fin 1); CStr "n/a"] = Raise TypeError /\
  growth_column [CStr "n/a"] = Ok [CNum NaN].
Proof.
  split; [|split].
  - destruct (growth_column_shape [CNum NaN; CNum PInf; CNum (Fin 3)]) as [Hnum _].
    destruct Hnum as (g & Hg & Hlen & _).
    + intros t Ht. repeat (apply elem_of_cons in Ht as [Ht|Ht]; [discriminate|]).
      apply elem_of_nil in Ht. exact Ht.
    + exists g. split; [exact Hg | exact Hlen].
  - destruct (growth_column_shape [CNum (Fin 1); CStr "n/a"]) as [_ Hstr].
    destruct Hstr as [_ Hraise]; [exists "n/a"; repeat constructor|].
    apply Hraise. left. reflexivity.
  - destruct (growth_column_shape [CStr "n/a"]) as [_ Hstr].
    destruct Hstr as [Hnull _]; [exists "n/a"; repeat constructor|].
    apply Hnull. constructor.
Defined.

(** ** Failures of the historical analysis *)

Section HistoricalErrors.

Variables (s : state) (df : DataFrame).
Hypothesis Hh : Dict.get "historical" (data s) = Some df.

Let banner := Banner "HISTORICAL TRENDS ANALYSIS (2020-2024)".

Lemma historical_start :
  analyze_historical_trends s
  = (column_of "historical" "Demand_MU" ≫= fun demand =>
     lift (growth_column demand) ≫= fun g =>
     assign_column "historical" "Demand_Growth_%" g ≫= fun _ =>
     column_of "historical" "Cost_Rs_per_unit" ≫= fun cost =>
     lift (growth_column cost) ≫= fun g =>
     assign_column "historical" "Cost_Growth_%" g ≫= fun _ =>
     column_of "historical" "Demand_MU" ≫= fun demand =>
     lift (column_cagr demand 4) ≫= fun demand_cagr =>
     column_of "historical" "Cost_Rs_per_unit" ≫= fun cost =>
     lift (column_cagr cost 4) ≫= fun cost_cagr =>
     print (Metric "Demand CAGR (2020-2024)" demand_cagr) ≫= fun _ =>
     print (Metric "Cost CAGR (2020-2024)" cost_cagr) ≫= fun _ =>
     column_of "historical" "Peak_Demand_MW" ≫= fun peak =>
     lift (column_rise peak) ≫= fun rise =>
     print (Metric "Peak Demand Growth" rise) ≫= fun _ =>
     table "historical" ≫= fun df => mret (Some df))
    {| data := data s; out := out s ++ [banner] |}.
Proof.
  unfold analyze_historical_trends.
  rewrite (bind_ok _ _ s s (data s)) by reflexivity. rewrite Hh.
  rewrite (bind_ok _ _ _ _ _ (print_run _ _)). reflexivity.
Qed.

Lemma historical_no_demand :
  Dict.get "Demand_MU" df = None ->
  analyze_historical_trends s
  = (Raise (KeyError "Demand_MU"), {| data := data s; out := out s ++ [banner] |}).
Proof.
  intros Hd. rewrite historical_start.
  apply bind_raise. apply (column_of_missing _ _ df); [exact Hh | exact Hd].
Qed.

Lemma historical_text_demand (demand : column) :
  Dict.get "Demand_MU" df = Some demand -> (exists t, CStr t ∈ demand) ->
  Exists (fun c => cell_notna c = true) (removelast demand) ->
  analyze_historical_trends s
  = (Raise TypeError, {| data := data s; out := out s ++ [banner] |}).
Proof.
  intros Hd Ht Hex. rewrite historical_start.
  set (s1 := {| data := data s; out := _ |}).
  rewrite (bind_ok _ _ _ _ _ (column_of_run "historical" "Demand_MU" df demand s1 Hh Hd)).
  apply bind_raise. destruct (growth_column_text demand Ht) as [_ Hraise].
  rewrite (Hraise Hex). reflexivity.
Qed.

Lemma column_cagr_text_last (col : column) (t : string) (n : Z) :
  last col = Some (CStr t) -> column_cagr col n = Raise TypeError.
Proof.
  intros Hl. unfold column_cagr, iloc_last. rewrite Hl.
  destruct col as [|c col]; [discriminate|]. reflexivity.
Qed.

(** A demand column that is one string after nulls only: both growth
    columns are assigned, and the growth rate then divides the
    string. *)
Lemma historical_lone_text (demand : column) (cost : list f64) :
  Dict.get "Demand_MU" df = Some demand -> (exists t, CStr t ∈ demand) ->
  Forall (fun c => cell_notna c = false) (removelast demand) ->
  Dict.get "Cost_Rs_per_unit" df = Some (of_floats cost) ->
  analyze_historical_trends s
  = (Raise TypeError,
     {| data := Dict.set "historical"
                  (Dict.set "Cost_Growth_%" (of_floats (growth_pct cost))
                     (Dict.set "Demand_Growth_%" (map (fun _ => CNum NaN) demand) df))
                  (data s);
        out := out s ++ [banner] |}).
Proof.
  intros Hd Ht Hall Hc. rewrite historical_start.
  destruct (lone_string_is_last demand Ht Hall) as [t Hlast].
  destruct (growth_column_text demand Ht) as [Hnull _].
  set (s1 := {| data := data s; out := _ |}).
  rewrite (bind_ok _ _ _ _ _ (column_of_run "historical" "Demand_MU" df demand s1 Hh Hd)).
  rewrite (Hnull Hall), (bind_ok _ _ _ _ _ (lift_run _ _)).
  rewrite (bind_ok _ _ _ _ _ (assign_column_run "historical" _ _ df s1 Hh)).
  set (df1 := Dict.set "Demand_Growth_%" _ df).
  set (s2 := {| data := Dict.set "historical" df1 (data s1); out := out s1 |}).
  assert (H2 : Dict.get "historical" (data s2) = Some df1) by apply get_set_eq.
  assert (Hc1 : Dict.get "Cost_Rs_per_unit" df1 = Some (of_floats cost)).
  { unfold df1. rewrite get_set_ne by discriminate. exact Hc. }
  rewrite (bind_ok _ _ _ _ _ (column_of_run _ _ _ _ s2 H2 Hc1)).
  rewrite growth_column_of_floats, (bind_ok _ _ _ _ _ (lift_run _ _)).
  rewrite (bind_ok _ _ _ _ _ (assign_column_run "historical" _ _ df1 s2 H2)).
  set (df2 := Dict.set "Cost_Growth_%" _ df1).
  set (s3 := {| data := Dict.set "historical" df2 (data s2); out := out s2 |}).
  assert (H3 : Dict.get "historical" (data s3) = Some df2) by apply get_set_eq.
  assert (Hd2 : Dict.get "Demand_MU" df2 = Some demand).
  { unfold df2, df1. rewrite !get_set_ne by discriminate. exact Hd. }
  rewrite (bind_ok _ _ _ _ _ (column_of_run _ _ _ _ s3 H3 Hd2)).
  rewrite (column_cagr_text_last demand t 4 Hlast).
  rewrite (bind_raise _ _ s3 s3 TypeError) by reflexivity.
  unfold s3, s2, s1, df2, df1. cbn [data out]. rewrite set_set. reflexivity.
Qed.

Lemma historical_no_cost (demand : list f64) :
  Dict.get "Demand_MU" df = Some (of_floats demand) ->
  Dict.get "Cost_Rs_per_unit" df = None ->
  analyze_historical_trends s
  = (Raise (KeyError "Cost_Rs_per_unit"),
     {| data := Dict.set "historical"
                  (Dict.set "Demand_Growth_%" (of_floats (growth_pct demand)) df) (data s);
        out := out s ++ [banner] |}).
Proof.
  intros Hd Hc. rewrite historical_start.
  set (s1 := {| data := data s; out := _ |}).
  rewrite (bind_ok _ _ _ _ _ (column_of_run "historical" "Demand_MU" df _ s1 Hh Hd)).
  rewrite growth_column_of_floats, (bind_ok _ _ _ _ _ (lift_run _ _)).
  rewrite (bind_ok _ _ _ _ _ (assign_column_run "historical" _ _ df s1 Hh)).
  set (df1 := Dict.set "Demand_Growth_%" _ df).
  set (s2 := {| data := Dict.set "historical" df1 (data s1); out := out s1 |}).
  apply bind_raise. apply (column_of_missing _ _ df1).
  - apply get_set_eq.
  - unfold df1. rewrite get_set_ne by discriminate. exact Hc.
Qed.

Lemma historical_no_rows :
  Dict.get "Demand_MU" df = Some [] ->
  Dict.get "Cost_Rs_per_unit" df = Some [] ->
  analyze_historical_trends s
  = (Raise IndexError,
     {| data := Dict.set "historical" (with_growth df [] []) (data s);
        out := out s ++ [banner] |}).
Proof.
  intros Hd Hc. rewrite historical_start.
  set (s1 := {| data := data s; out := _ |}).
  rewrite (bind_ok _ _ _ _ _ (column_of_run "historical" "Demand_MU" df [] s1 Hh Hd)).
  change (growth_column []) with (@Ok (list cell) []).
  rewrite (bind_ok _ _ _ _ _ (lift_run _ _)).
  rewrite (bind_ok _ _ _ _ _ (assign_column_run "historical" _ _ df s1 Hh)).
  set (df1 := Dict.set "Demand_Growth_%" _ df).
  set (s2 := {| data := Dict.set "historical" df1 (data s1); out := out s1 |}).
  assert (H2 : Dict.get "historical" (data s2) = Some df1) by apply get_set_eq.
  assert (Hc1 : Dict.get "Cost_Rs_per_unit" df1 = Some []).
  { unfold df1. rewrite get_set_ne by discriminate. exact Hc. }
  rewrite (bind_ok _ _ _ _ _ (column_of_run _ _ _ _ s2 H2 Hc1)).
  change (growth_column []) with (@Ok (list cell) []).
  rewrite (bind_ok _ _ _ _ _ (lift_run _ _)).
  rewrite (bind_ok _ _ _ _ _ (assign_column_run "historical" _ _ df1 s2 H2)).
  set (df2 := Dict.set "Cost_Growth_%" _ df1).
  set (s3 := {| data := Dict.set "historical" df2 (data s2); out := out s2 |}).
  assert (H3 : Dict.get "historical" (data s3) = Some df2) by apply get_set_eq.
  assert (Hd2 : Dict.get "Demand_MU" df2 = Some []).
  { unfold df2, df1. rewrite !get_set_ne by discriminate. exact Hd. }
  rewrite (bind_ok _ _ _ _ _ (column_of_run _ _ _ _ s3 H3 Hd2)).
  rewrite (bind_raise _ _ s3 s3 IndexError) by reflexivity.
  unfold s3, s2, s1, df2, df1, with_growth. cbn [data out]. rewrite set_set. reflexivity.
Qed.

Lemma historical_no_peak (demand cost : list f64) :
  Dict.get "Demand_MU" df = Some (of_floats demand) ->
  Dict.get "Cost_Rs_per_unit" df = Some (of_floats cost) ->
  Dict.get "Peak_Demand_MW" df = None ->
  demand <> [] -> cost <> [] ->
  exists demand_cagr cost_cagr,
    analyze_historical_trends s
    = (Raise (KeyError "Peak_Demand_MW"),
       {| data := Dict.set "historical" (with_growth df demand cost) (data s);
          out := out s ++ [ banner;
                            Metric "Demand CAGR (2020-2024)" demand_cagr;
                            Metric "Cost CAGR (2020-2024)" cost_cagr ] |}).
Proof.
  intros Hd Hc Hp Nd Nc.
  destruct (column_cagr_total demand 4 Nd) as [dc Hdc]; [lia|].
  destruct (column_cagr_total cost 4 Nc) as [cc Hcc]; [lia|].
  exists dc, cc. rewrite historical_start.
  set (s1 := {| data := data s; out := _ |}).
  rewrite (bind_ok _ _ _ _ _ (column_of_run "historical" "Demand_MU" df _ s1 Hh Hd)).
  rewrite growth_column_of_floats, (bind_ok _ _ _ _ _ (lift_run _ _)).
  rewrite (bind_ok _ _ _ _ _ (assign_column_run "historical" _ _ df s1 Hh)).
  set (df1 := Dict.set "Demand_Growth_%" _ df).
  set (s2 := {| data := Dict.set "historical" df1 (data s1); out := out s1 |}).
  assert (H2 : Dict.get "historical" (data s2) = Some df1) by apply get_set_eq.
  assert (Hc1 : Dict.get "Cost_Rs_per_unit" df1 = Some (of_floats cost)).
  { unfold df1. rewrite get_set_ne by discriminate. exact Hc. }
  rewrite (bind_ok _ _ _ _ _ (column_of_run _ _ _ _ s2 H2 Hc1)).
  rewrite growth_column_of_floats, (bind_ok _ _ _ _ _ (lift_run _ _)).
  rewrite (bind_ok _ _ _ _ _ (assign_column_run "historical" _ _ df1 s2 H2)).
  set (df2 := Dict.set "Cost_Growth_%" _ df1).
  set (s3 := {| data := Dict.set "historical" df2 (data s2); out := out s2 |}).
  assert (H3 : Dict.get "historical" (data s3) = Some df2) by apply get_set_eq.
  assert (Hd2 : Dict.get "Demand_MU" df2 = Some (of_floats demand)).
  { unfold df2, df1. rewrite !get_set_ne by discriminate. exact Hd. }
  assert (Hc2 : Dict.get "Cost_Rs_per_unit" df2 = Some (of_floats cost)).
  { unfold df2. rewrite get_set_ne by discriminate. exact Hc1. }
  assert (Hp2 : Dict.get "Peak_Demand_MW" df2 = None).
  { unfold df2, df1. rewrite !get_set_ne by discriminate. exact Hp. }
  rewrite (bind_ok _ _ _ _ _ (column_of_run _ _ _ _ s3 H3 Hd2)).
  rewrite Hdc, (bind_ok _ _ _ _ _ (lift_run _ _)).
  rewrite (bind_ok _ _ _ _ _ (column_of_run _ _ _ _ s3 H3 Hc2)).
  rewrite Hcc, (bind_ok _ _ _ _ _ (lift_run _ _)).
  rewrite (bind_ok _ _ _ _ _ (print_run _ _)).
  rewrite (bind_ok _ _ _ _ _ (print_run _ _)).
  set (s5 := {| data := _; out := _ |}).
  assert (H5 : Dict.get "historical" (data s5) = Some df2) by exact H3.
  rewrite (bind_raise _ _ _ _ _ (column_of_missing _ _ _ s5 H5 Hp2)).
  unfold s5, s3, s2, s1, df2, df1, with_growth. cbn [data out].
  rewrite set_set, <- !app_assoc. reflexivity.
Qed.

End HistoricalErrors.

(** X6.  What [analyze_historical_trends] leaves behind when the
    historical table is not what it expects.  Without the demand
    column it raises [KeyError] after the banner, with the registry as
    it was; so does [TypeError] for a demand column that holds a string
    and a value in some row before its last.  For a demand column that
    is one string after nulls only (a text column of one row), both
    growth columns are assigned before [TypeError] is raised at the
    growth rate.  Without the cost column it raises [KeyError] when the
    demand growth column is already in the table.  On a table without
    rows it raises [IndexError] when both growth columns are in the
    table.  Without the peak-demand column it raises [KeyError] when
    both growth columns are in the table and both growth-rate lines are
    printed. *)
Theorem historical_analysis_failures (s : state) (df : DataFrame) :
  Dict.get "historical" (data s) = Some df ->
  let banner := Banner "HISTORICAL TRENDS ANALYSIS (2020-2024)" in
  (Dict.get "Demand_MU" df = None ->
   analyze_historical_trends s
   = (Raise (KeyError "Demand_MU"), {| data := data s; out := out s ++ [banner] |})) /\
  (forall demand : column,
     Dict.get "Demand_MU" df = Some demand -> (exists t, CStr t ∈ demand) ->
     Exists (fun c => cell_notna c = true) (removelast demand) ->
     analyze_historical_trends s
     = (Raise TypeError, {| data := data s; out := out s ++ [banner] |})) /\
  (forall (demand : column) (cost : list f64),
     Dict.get "Demand_MU" df = Some demand -> (exists t, CStr t ∈ demand) ->
     Forall (fun c => cell_notna c = false) (removelast demand) ->
     Dict.get "Cost_Rs_per_unit" df = Some (of_floats cost) ->
     analyze_historical_trends s
     = (Raise TypeError,
        {| data := Dict.set "historical"
                     (Dict.set "Cost_Growth_%" (of_floats (growth_pct cost))
                        (Dict.set "Demand_Growth_%" (map (fun _ => CNum NaN) demand) df))
                     (data s);
           out := out s ++ [banner] |})) /\
  (forall demand : list f64,
     Dict.get "Demand_MU" df = Some (of_floats demand) ->
     Dict.get "Cost_Rs_per_unit" df = None ->
     analyze_historical_trends s
     = (Raise (KeyError "Cost_Rs_per_unit"),
        {| data := Dict.set "historical"
                     (Dict.set "Demand_Growth_%" (of_floats (growth_pct demand)) df) (data s);
           out := out s ++ [banner] |})) /\
  (Dict.get "Demand_MU" df = Some [] -> Dict.get "Cost_Rs_per_unit" df = Some [] ->
   analyze_historical_trends s
   = (Raise IndexError,
      {| data := Dict.set "historical" (with_growth df [] []) (data s);
         out := out s ++ [banner] |})) /\
  (forall demand cost : list f64,
     Dict.get "Demand_MU" df = Some (of_floats demand) ->
     Dict.get "Cost_Rs_per_unit" df = Some (of_floats cost) ->
     Dict.get "Peak_Demand_MW" df = None ->
     demand <> [] -> cost <> [] ->
     exists demand_cagr cost_cagr,
       analyze_historical_trends s
       = (Raise (KeyError "Peak_Demand_MW"),
          {| data := Dict.set "historical" (with_growth df demand cost) (data s);
             out := out s ++ [ banner;
                               Metric "Demand CAGR (2020-2024)" demand_cagr;
                               Metric "Cost CAGR (2020-2024)" cost_cagr ] |})).
Proof.
  intros Hh banner. split; [|split; [|split; [|split; [|split]]]].
  - apply historical_no_demand, Hh.
  - intros demand. apply historical_text_demand, Hh.
  - intros demand cost. apply historical_lone_text, Hh.
  - intros demand. apply historical_no_cost, Hh.
  - apply historical_no_rows, Hh.
  - intros demand cost. apply historical_no_peak, Hh.
Qed.

Lemma historical_analysis_failures_witness :
  let df := [("Year", of_floats [Fin 2020; Fin 2021]);
             ("Demand_MU", of_floats [Fin 100; Fin 110])] in
  let text := [("Demand_MU", [CStr "high"]); ("Cost_Rs_per_unit", of_floats [Fin 4])] in
  analyze_historical_trends (holding "historical" df)
  = (Raise (KeyError "Cost_Rs_per_unit"),
     {| data := [("historical",
                  df ++ [("Demand_Growth_%", of_floats (growth_pct [Fin 100; Fin 110]))])];
        out := [Banner "HISTORICAL TRENDS ANALYSIS (2020-2024)"] |}) /\
  analyze_historical_trends (holding "historical" text)
  = (Raise TypeError,
     {| data := [("historical",
                  text ++ [("Demand_Growth_%", [CNum NaN]);
                           ("Cost_Growth_%", of_floats (growth_pct [Fin 4]))])];
        out := [Banner "HISTORICAL TRENDS ANALYSIS (2020-2024)"] |}).
Proof.
  intros df text. split.
  - destruct (historical_analysis_failures (holding "historical" df) df eq_refl)
      as (_ & _ & _ & Hcost & _).
    exact (Hcost [Fin 100; Fin 110] eq_refl eq_refl).
  - destruct (historical_analysis_failures (holding "historical" text) text eq_refl)
      as (_ & _ & Hlone & _).
    exact (Hlone [CStr "high"] [Fin 4] eq_refl
             ltac:(exists "high"; left) ltac:(constructor) eq_refl).
Defined.

(** ** The outcome of the loading, and the registry through the report *)

Section LoadOutcome.

Variable w : world.

(** Every file of a list can be read or is missing, or there is a first
    one whose read fails otherwise. *)
Lemma first_failure (files : list (string * string)) :
  (forall kf, kf ∈ files -> found_or_missing w kf.2) \/
  exists before key filename after e,
    files = before ++ (key, filename) :: after /\
    (forall kf, kf ∈ before -> found_or_missing w kf.2) /\
    read_csv w filename = Raise e /\ is_FileNotFoundError e = false.
Proof.
  induction files as [|[key filename] files IH].
  - left. intros kf H. apply elem_of_nil in H. contradiction.
  - destruct (read_csv w filename) as [df|e] eqn:E.
    + destruct IH as [IH|(before & k & f & after & e & -> & Hb & Hr & He)].
      * left. intros kf [->|H]%elem_of_cons; [left; exists df; exact E | apply IH, H].
      * right. exists ((key, filename) :: before), k, f, after, e.
        split; [reflexivity|]. split; [|auto].
        intros kf [->|H]%elem_of_cons; [left; exists df; exact E | apply Hb, H].
    + destruct (is_FileNotFoundError e) eqn:He.
      * destruct e as [f| | | | |]; try discriminate.
        destruct IH as [IH|(before & k & f' & after & e & -> & Hb & Hr & He')].
        -- left. intros kf [->|H]%elem_of_cons; [right; exists f; exact E | apply IH, H].
        -- right. exists ((key, filename) :: before), k, f', after, e.
           split; [reflexivity|]. split; [|auto].
           intros kf [->|H]%elem_of_cons; [right; exists f; exact E | apply Hb, H].
      * right. exists [], key, filename, files, e. split; [reflexivity|].
        split; [|auto]. intros kf H. apply elem_of_nil in H. contradiction.
Qed.

Lemma not_found_or_missing (filename : string) (e : exn) :
  read_csv w filename = Raise e -> is_FileNotFoundError e = false ->
  ~ found_or_missing w filename.
Proof.
  intros Hr He [[df H]|[f H]]; rewrite Hr in H; [discriminate|].
  injection H as ->. discriminate.
Qed.

Lemma load_loop_failure (before after : list (string * string)) (key filename : string)
    (e : exn) (s : state) :
  NoDup (map fst before) ->
  (forall kf, kf ∈ before -> found_or_missing w kf.2) ->
  read_csv w filename = Raise e -> is_FileNotFoundError e = false ->
  exists s1,
    for_each (before ++ (key, filename) :: after) (fun kf => load_one w kf.1 kf.2) s
    = (Raise e, s1).
Proof.
  intros Hnd Hb Hr He.
  destruct (load_loop w before s Hnd Hb) as (s1 & Hrun & _).
  exists s1. rewrite (for_each_app _ _ _ _ _ Hrun).
  apply (for_each_raise (key, filename) after (fun kf => load_one w kf.1 kf.2)).
  apply load_one_fails; assumption.
Qed.

Lemma load_all_data_outcome (s : state) :
  exists b s', load_all_data w s = (Ok b, s') /\
    (b = true <-> forall kf, kf ∈ data_files -> found_or_missing w kf.2).
Proof.
  destruct (first_failure data_files)
    as [Hall|(before & key & filename & after & e & Hsplit & Hb & Hr & He)].
  - destruct (load_loop w data_files s data_files_keys Hall) as (s1 & Hrun & _).
    exists true. eexists. split; [apply (load_all_data_of_loop w s s1 Hrun)|].
    split; auto.
  - pose proof data_files_keys as Hnd. rewrite Hsplit in Hnd.
    rewrite map_app in Hnd. apply NoDup_app in Hnd as (Hnd & _).
    destruct (load_loop_failure before after key filename e s Hnd Hb Hr He) as [s1 Hrun].
    rewrite <- Hsplit in Hrun.
    exists false. eexists. split; [apply (load_all_data_of_failure w s s1 e Hrun)|].
    split; [discriminate|]. intros Hall. exfalso.
    apply (not_found_or_missing filename e Hr He).
    apply (Hall (key, filename)). rewrite Hsplit. apply elem_of_app. right. left.
Qed.

End LoadOutcome.

(** X7.  [load_all_data] never raises, whatever the reads do: it returns
    [True] when every read succeeds or finds no file, and [False] when
    some read fails in another way. *)
Theorem load_all_data_never_raises (w : world) (s : state) :
  exists b s',
    load_all_data w s = (Ok b, s') /\
    (b = true <-> forall kf, kf ∈ data_files -> found_or_missing w kf.2).
Proof. apply load_all_data_outcome. Qed.

Lemma load_all_data_never_raises_witness :
  exists s', load_all_data unreadable_historical start = (Ok false, s').
Proof.
  destruct (load_all_data_never_raises unreadable_historical start) as (b & s' & Hrun & Hb).
  exists s'. destruct b; [|exact Hrun].
  exfalso. destruct Hb as [Hall _].
  destruct (Hall eq_refl ("historical", "chennai_electricity_historical_2020_2024.csv"))
    as [[df H]|[f H]]; [unfold data_files; left | discriminate H | discriminate H].
Defined.

Section ReadOnly.

Variable w : world.

Lemma keeps_statements (R : Dict.t DataFrame -> Dict.t DataFrame -> Prop)
    (statements : list (M unit)) :
  (forall d, R d d) -> (forall d1 d2 d3, R d1 d2 -> R d2 d3 -> R d1 d3) ->
  Forall (keeps R) statements -> keeps R (for_each statements (fun m => m)).
Proof.
  intros Hr Ht H. induction H as [|m ms Hm _ IH]; cbn [for_each].
  - apply (keeps_ret _ Hr).
  - apply (keeps_bind _ Ht); [exact Hm | intros; exact IH].
Qed.

Lemma reading_methods_frame (R : Dict.t DataFrame -> Dict.t DataFrame -> Prop) :
  (forall d, R d d) -> (forall d1 d2 d3, R d1 d2 -> R d2 d3 -> R d1 d3) ->
  Forall (keeps R) (reading_methods w).
Proof.
  intros Hr Ht. unfold reading_methods.
  repeat (apply List.Forall_cons || apply List.Forall_nil).
  all: try apply (keeps_call _ Hr Ht).
  all: try unfold display_data_summary; try unfold analyze_seasonal_patterns;
    try unfold analyze_sector_wise_consumption;
    try unfold create_demand_projection_chart; try unfold create_seasonal_heatmap;
    try unfold create_sector_pie_chart; try unfold create_daily_load_profile;
    try unfold create_infrastructure_dashboard.
  all: repeat first
         [ match goal with |- keeps _ (match Dict.get ?k ?d with _ => _ end) =>
             destruct (Dict.get k d)
           end
         | keeps_step Hr Ht ].
Qed.

End ReadOnly.

(** X8.  The methods of the report other than [load_all_data] and
    [analyze_historical_trends] never change the registry, whether they
    return or raise. *)
Theorem reading_methods_keep_registry (w : world) (m : M unit) (s : state) :
  m ∈ reading_methods w -> data (m s).2 = data s.
Proof.
  intros Hin.
  pose proof (reading_methods_frame w same_data same_data_refl same_data_trans) as H.
  rewrite Forall_forall in H.
  destruct (m s) as [r s'] eqn:E. exact (H m Hin s r s' E).
Qed.

Lemma reading_methods_keep_registry_witness :
  data (create_sector_pie_chart no_files
          (holding "sector_wise" [("Sector", [CStr "Domestic"])])).2
  = [("sector_wise", [("Sector", [CStr "Domestic"])])].
Proof.
  apply (reading_methods_keep_registry no_files (create_sector_pie_chart no_files)).
  unfold reading_methods. repeat constructor.
Defined.

(** X9.  Whatever the reads and the drawing do, and whether the report
    runs to its end or is aborted: [load_all_data] returns, and from the
    registry it leaves to the registry at the end of the report the keys
    are the same, every dataset but the historical one is the same, and
    the historical table differs at most in its two growth columns. *)
Theorem report_changes_growth_columns_only (w : world) (s : state) :
  exists b s1,
    load_all_data w
      {| data := data s;
         out := out s ++ [Banner "COMPREHENSIVE CHENNAI ELECTRICITY ANALYTICS REPORT"] |}
    = (Ok b, s1) /\
    historical_frame (data s1) (data (generate_comprehensive_report w s).2).
Proof.
  pose proof historical_frame_refl as Hr. pose proof historical_frame_trans as Ht.
  match goal with |- exists b s1, load_all_data w ?s0 = _ /\ _ =>
    destruct (load_all_data_outcome w s0) as (b & s1 & Hload & _)
  end.
  exists b, s1. split; [exact Hload|].
  unfold generate_comprehensive_report, report_statements.
  run_statement (print_run (Banner "COMPREHENSIVE CHENNAI ELECTRICITY ANALYTICS REPORT") s).
  run_statement (call_run _ _ _ _ Hload).
  match goal with |- historical_frame _ (data (?m s1).2) =>
    destruct (m s1) as [r s'] eqn:E; revert E; apply keeps_statements; [exact Hr | exact Ht |]
  end.
  pose proof (reading_methods_frame w historical_frame Hr Ht) as H.
  rewrite Forall_forall in H.
  repeat (apply List.Forall_cons || apply List.Forall_nil).
  all: try apply (keeps_print _ Hr).
  all: try solve [apply H; unfold reading_methods; repeat constructor].
  apply (keeps_call _ Hr Ht), historical_analysis_keeps_frame.
Qed.

Section NothingLoaded.

Variable w : world.

Lemma load_fails_after_missing (before after : list (string * string))
    (key filename : string) (e : exn) (s : state) :
  (forall kf, kf ∈ before -> exists f, read_csv w kf.2 = Raise (FileNotFoundError f)) ->
  read_csv w filename = Raise e -> is_FileNotFoundError e = false ->
  for_each (before ++ (key, filename) :: after) (fun kf => load_one w kf.1 kf.2) s
  = (Raise e, {| data := data s;
                 out := out s ++ map (fun kf => NotFound kf.2) before |}).
Proof.
  intros Hb Hr He. revert s. induction before as [|[k f0] before IH]; intros s.
  - cbn [app map]. rewrite app_nil_r.
    rewrite (for_each_raise (key, filename) after (fun kf => load_one w kf.1 kf.2) s s e
               (load_one_fails w key filename e s Hr He)).
    destruct s; reflexivity.
  - destruct (Hb (k, f0) ltac:(left)) as [f Hf]. cbn [snd] in Hf.
    change (((k, f0) :: before) ++ (key, filename) :: after)
      with ((k, f0) :: (before ++ (key, filename) :: after)).
    rewrite (for_each_next (k, f0) _ (fun kf => load_one w kf.1 kf.2) s _
               (load_one_missing w k f0 f s Hf)).
    rewrite IH by (intros kf H; apply Hb; right; exact H).
    cbn [data out map snd]. rewrite <- app_assoc. reflexivity.
Qed.

Lemma report_on_empty (o : list event) :
  for_each (drop 2 (report_statements w)) (fun m => m) {| data := []; out := o |}
  = (Ok tt, {| data := []; out := o ++ nothing_to_analyse |}).
Proof.
  unfold report_statements. cbn [drop].
  repeat
    match goal with
    | |- for_each (print ?e :: _) _ ?s = _ =>
        run_statement (print_run e s); cbn [data out]
    | |- for_each (display_data_summary :: _) _ {| data := []; out := ?o' |} = _ =>
        run_statement (display_data_summary_empty o')
    | |- for_each (?m :: _) _ {| data := []; out := ?o' |} = _ =>
        run_statement (absent_in_empty w _ _ m o'
                         ltac:(unfold dependent_analyses; repeat constructor))
    end.
  cbn [for_each]. unfold mret, M_ret. do 2 f_equal.
  unfold nothing_to_analyse. rewrite <- !app_assoc. reflexivity.
Qed.

End NothingLoaded.

(** X10.  When a read fails with anything but [FileNotFoundError] and
    every file before it is missing, the report is not aborted: it
    prints the load error, then that each dataset is not available, and
    still ends with its two lines of success; [main] prints no failure. *)
Theorem report_goes_on_after_load_failure (w : world)
    (before after : list (string * string)) (key filename : string) (e : exn) :
  data_files = before ++ (key, filename) :: after ->
  (forall kf, kf ∈ before -> exists f, read_csv w kf.2 = Raise (FileNotFoundError f)) ->
  read_csv w filename = Raise e -> is_FileNotFoundError e = false ->
  main w start
  = (Ok tt,
     {| data := [];
        out := [ Say "Chennai Electricity Analytics Program Initialized";
                 Banner "COMPREHENSIVE CHENNAI ELECTRICITY ANALYTICS REPORT" ]
               ++ map (fun kf => NotFound kf.2) before
               ++ [LoadFailed e] ++ nothing_to_analyse |}).
Proof.
  intros Hsplit Hb Hr He. unfold main. apply try_except_ok.
  rewrite (bind_ok _ _ _ _ _ (init_run start)).
  unfold generate_comprehensive_report.
  change (report_statements w)
    with (print (Banner "COMPREHENSIVE CHENNAI ELECTRICITY ANALYTICS REPORT")
          :: call (load_all_data w) :: drop 2 (report_statements w)).
  run_statement (print_run (Banner "COMPREHENSIVE CHENNAI ELECTRICITY ANALYTICS REPORT")
                   {| data := []; out := out start ++ [Say "Chennai Electricity Analytics Program Initialized"] |}).
  match goal with |- for_each _ _ ?s0 = _ =>
    pose proof (load_all_data_of_failure w s0 _ e
                  (eq_trans (f_equal (fun files => for_each files _ s0) Hsplit)
                     (load_fails_after_missing w before after key filename e s0 Hb Hr He)))
      as Hload
  end.
  run_statement (call_run _ _ _ _ Hload).
  cbn [data out]. rewrite report_on_empty.
  cbn [out start app]. rewrite <- !app_assoc. reflexivity.
Qed.

Lemma report_goes_on_after_load_failure_witness :
  main unreadable_historical start
  = (Ok tt,
     {| data := [];
        out := [ Say "Chennai Electricity Analytics Program Initialized";
                 Banner "COMPREHENSIVE CHENNAI ELECTRICITY ANALYTICS REPORT";
                 LoadFailed (OtherError "ParserError") ]
               ++ nothing_to_analyse |}).
Proof.
  apply (report_goes_on_after_load_failure unreadable_historical []
           (tail data_files) "historical" "chennai_electricity_historical_2020_2024.csv"
           (OtherError "ParserError") eq_refl).
  - intros kf H. apply elem_of_nil in H. contradiction.
  - reflexivity.
  - reflexivity.
Defined.

(** ** Largest and smallest rows *)

Section InOrder.

Context {A : Type}.




Variables (le : A -> A -> bool) (P : A -> Prop).
Hypothesis le_total : forall a b, P a -> P b -> le a b = true \/ le b a = true.
Hypothesis le_trans : forall a b c, P a -> P b -> P c ->
  le a b = true -> le b c = true -> le a c = true.



End InOrder.

Section TopN.

Context {A : Type}.
Variable val : A -> f64.






End TopN.



(** ** The growth index and the year-over-year bars of the dashboard *)

(** X13.  On a column of numbers whose first value is finite and not
    zero, the cumulative growth index of the dashboard has one entry
    for each row, the entry of a row is [value / first * 100] as the
    program computes it, and the first entry is 100 (the chart's
    [2025=100]).  With a first value of 0 the first entry is null, and
    an empty column raises [IndexError]. *)
Theorem growth_index_base_100 (xs : list f64) :
  (forall f : R, xs !! 0%nat = Some (Fin f) -> f <> 0%R ->
     exists idx : list f64,
       Dashboard.growth_index (of_floats xs) = Ok idx /\
       length idx = length xs /\
       idx !! 0%nat = Some (Fin 100) /\
       forall (i : nat) (x : f64), xs !! i = Some x ->
         idx !! i = Some (fmul (fdiv x (Fin f)) (Fin 100))) /\
  (xs !! 0%nat = Some (Fin 0) ->
     exists idx : list f64,
       Dashboard.growth_index (of_floats xs) = Ok idx /\ idx !! 0%nat = Some NaN) /\
  Dashboard.growth_index [] = Raise IndexError.
Proof.
  assert (Hrun : forall f0 : f64, xs !! 0%nat = Some f0 ->
            Dashboard.growth_index (of_floats xs)
            = Ok (map (fun x => fmul (fdiv x f0) (Fin 100)) xs)).
  { intros f0 H0. unfold Dashboard.growth_index.
    rewrite (iloc_first_of_floats xs f0 H0). cbn [mbind result_bind].
    rewrite to_floats_of_floats. reflexivity. }
  assert (Hrow : forall (f0 : f64) (i : nat) (x : f64), xs !! i = Some x ->
            map (fun x => fmul (fdiv x f0) (Fin 100)) xs !! i
            = Some (fmul (fdiv x f0) (Fin 100))).
  { intros f0 i x Hi. change (map ?g xs) with (g <$> xs).
    rewrite list_lookup_fmap, Hi. reflexivity. }
  split; [|split; [|reflexivity]].
  - intros f H0 Hf. eexists. split; [apply (Hrun (Fin f) H0)|].
    split; [apply length_map|]. split; [|intros i x; apply Hrow].
    rewrite (Hrow (Fin f) 0%nat (Fin f) H0), fdiv_fin by exact Hf.
    cbn. do 2 f_equal. field. exact Hf.
  - intros H0. eexists. split; [apply (Hrun (Fin 0) H0)|].
    rewrite (Hrow (Fin 0) 0%nat (Fin 0) H0), fdiv_fin_zero, Rsgn_zero. reflexivity.
Qed.

Lemma growth_index_base_100_witness :
  exists idx : list f64,
    Dashboard.growth_index (of_floats [Fin 200; Fin 300]) = Ok idx /\
    idx !! 0%nat = Some (Fin 100) /\
    idx !! 1%nat = Some (fmul (fdiv (Fin 300) (Fin 200)) (Fin 100)).
Proof.
  destruct (growth_index_base_100 [Fin 200; Fin 300]) as (Hidx & _).
  destruct (Hidx 200%R eq_refl) as (idx & Hrun & _ & H0 & Hrows); [lra|].
  exists idx. split; [exact Hrun|]. split; [exact H0|].
  exact (Hrows 1%nat (Fin 300) eq_refl).
Defined.

Section Bars.

Lemma growth_step_zero_zero : growth_step (Fin 0) (Fin 0) = NaN.
Proof. unfold growth_step. rewrite fdiv_fin_zero, Rsgn_zero. reflexivity. Qed.

Lemma count_notna_le (xs : list f64) : count_notna xs <= length xs.
Proof. unfold count_notna. apply length_filter. Qed.

(** Among the growth entries after the first row, none is null exactly
    when no zero is directly followed by a zero. *)
Lemma growth_after_count (p : f64) (xs : list f64) :
  Forall is_fin (p :: xs) ->
  (count_notna (growth_after p xs) = length xs <-> no_zero_pair (p :: xs)).
Proof.
  intros Hfin. split; [|apply growth_after_all_notna, Hfin].
  revert p Hfin. induction xs as [|x xs IH]; intros p Hfin Hcount.
  - intros [|i] H1 H2; discriminate.
  - apply Forall_cons in Hfin as [Hp Hfin].
    pose proof Hfin as Hfin'. apply Forall_cons in Hfin' as [Hx _].
    destruct p as [a| | |]; try contradiction.
    destruct x as [b| | |]; try contradiction.
    unfold count_notna in Hcount. cbn [growth_after length] in Hcount.
    pose proof (count_notna_le (growth_after (Fin b) xs)) as Hle.
    rewrite growth_after_length in Hle. unfold count_notna in Hle.
    destruct (notna (growth_step (Fin b) (Fin a))) eqn:E.
    + rewrite filter_cons_True in Hcount by exact E. cbn [length] in Hcount.
      assert (Hrest : no_zero_pair (Fin b :: xs)).
      { apply (IH (Fin b) Hfin). unfold count_notna. lia. }
      intros [|i] H1 H2.
      * cbn in H1, H2. injection H1 as ->. injection H2 as ->.
        rewrite growth_step_zero_zero in E. discriminate.
      * exact (Hrest i H1 H2).
    + rewrite filter_cons_False in Hcount by (rewrite E; discriminate). lia.
Qed.

Lemma filter_all {A} (P : A -> Prop) `{!forall x, Decision (P x)} (xs : list A) :
  length (filter P xs) = length xs -> filter P xs = xs.
Proof.
  induction xs as [|x xs IH]; [reflexivity|].
  destruct (decide (P x)) as [Hx|Hx].
  - rewrite filter_cons_True by exact Hx. cbn [length].
    intros [= Hlen]. f_equal. apply IH, Hlen.
  - rewrite filter_cons_False by exact Hx. cbn [length]. intros Hlen.
    pose proof (length_filter P xs). lia.
Qed.

End Bars.

(** X14.  On a column of finite numbers, the year-over-year growth
    chart of the dashboard never has more bars than the years
    [Year.iloc[1:]] it draws them against, and it has as many (one for
    each row after the first) exactly when no zero is directly followed
    by a zero: a zero after a zero gives a null growth, which is
    dropped.  When it has as many, the bar of a row is
    [(value / previous value - 1) * 100] as the program computes it. *)
Theorem yearly_growth_bars (xs : list f64) (year : column) :
  Forall is_fin xs -> xs <> [] -> length year = length xs ->
  exists bars : list f64,
    Dashboard.growth_rates (of_floats xs) = Ok bars /\
    length bars <= length (Dashboard.years_after_first year) /\
    (length bars = length (Dashboard.years_after_first year) <-> no_zero_pair xs) /\
    (no_zero_pair xs ->
     forall (i : nat) (prev cur : f64),
       xs !! i = Some prev -> xs !! (S i) = Some cur ->
       bars !! i = Some (fmul (fsub (fdiv cur prev) (Fin 1)) (Fin 100))).
Proof.
  intros Hfin Hne Hyear. destruct xs as [|x xs]; [contradiction|].
  assert (Hlen : length (Dashboard.years_after_first year) = length xs).
  { unfold Dashboard.years_after_first. rewrite length_drop, Hyear. cbn. lia. }
  exists (filter (fun g => notna g = true) (growth_after x xs)).
  split; [|split; [|split]].
  - unfold Dashboard.growth_rates. rewrite to_floats_of_floats.
    cbn [mbind result_bind]. rewrite (growth_pct_fin _ _ Hfin).
    unfold Dashboard.dropna. rewrite filter_cons_False by discriminate. reflexivity.
  - rewrite Hlen, <- (growth_after_length x xs). apply length_filter.
  - rewrite Hlen. apply (growth_after_count x xs Hfin).
  - intros Hz i prev cur Hprev Hcur.
    rewrite filter_all.
    + apply (growth_after_lookup x xs i); assumption.
    + rewrite growth_after_length. apply (growth_after_count x xs Hfin), Hz.
Qed.

Lemma yearly_growth_bars_witness :
  exists bars : list f64,
    Dashboard.growth_rates (of_floats [Fin 100; Fin 110; Fin 121]) = Ok bars /\
    length bars = 2%nat /\
    bars !! 1%nat = Some (fmul (fsub (fdiv (Fin 121) (Fin 110)) (Fin 1)) (Fin 100)).
Proof.
  assert (Hz : no_zero_pair [Fin 100; Fin 110; Fin 121]).
  { intros [|[|[|i]]]; cbn; intros [= H]; lra. }
  destruct (yearly_growth_bars [Fin 100; Fin 110; Fin 121]
              [CStr "2025"; CStr "2026"; CStr "2027"])
    as (bars & Hrun & _ & Hcount & Hrows);
    [repeat constructor | discriminate | reflexivity |].
  exists bars. split; [exact Hrun|]. split.
  - apply Hcount in Hz. exact Hz.
  - exact (Hrows Hz 1%nat (Fin 110) (Fin 121) eq_refl eq_refl).
Defined.

(** ** The seasonal rows, and a sector table without rows *)

Section SeasonalRows.




End SeasonalRows.



Section NoRows.

Lemma select_none {A} (mask : list bool) (xs : list A) :
  Forall (fun b => b = false) mask -> select mask xs = [].
Proof.
  intros H. revert xs. induction H as [|b mask -> _ IH]; intros xs; [reflexivity|].
  destruct xs as [|x xs]; [reflexivity|]. cbn. apply IH.
Qed.

Lemma col_eq_none (col : column) (v : cell) :
  v ∉ col -> Forall (fun b => b = false) (col_eq col v).
Proof.
  intros H. unfold col_eq. rewrite Forall_forall. intros b Hb.
  change (map ?f col) with (f <$> col) in Hb.
  apply list_elem_of_fmap in Hb as (c & -> & Hc).
  apply bool_decide_eq_false. intros ->. exact (H Hc).
Qed.

Lemma filter_rows_none (mask : list bool) (df : DataFrame) :
  Forall (fun b => b = false) mask ->
  filter_rows mask df = map (fun kc => (kc.1, [])) df.
Proof.
  intros H. unfold filter_rows. apply map_ext. intros [c col].
  rewrite (select_none mask col H). reflexivity.
Qed.

Lemma get_no_rows (c : string) (col : column) (df : DataFrame) :
  Dict.get c df = Some col ->
  Dict.get c (map (fun kc : string * column => (kc.1, @nil cell)) df) = Some [].
Proof.
  induction df as [|[c' col'] df IH]; [discriminate|].
  cbn. destruct (decide (c = c')); [reflexivity | exact IH].
Qed.

End NoRows.

(** X16.  On a sector table without a row of the year 2025 and without
    a row of the year 2030 (so also when the years were read as text),
    [analyze_sector_wise_consumption] does not fail: it prints the two
    breakdowns without rows and no line of growth, returns the two
    tables without rows, and leaves the registry as it was. *)
Theorem sector_analysis_without_rows (s : state) (df : DataFrame)
    (years sector demand share : column) :
  Dict.get "sector_wise" (data s) = Some df ->
  Dict.get "Year" df = Some years ->
  Dict.get "Sector" df = Some sector ->
  Dict.get "Demand_MU" df = Some demand ->
  Dict.get "Share_%" df = Some share ->
  CNum (of_Z 2025) ∉ years -> CNum (of_Z 2030) ∉ years ->
  let no_rows := map (fun kc : string * column => (kc.1, @nil cell)) df in
  let breakdown : DataFrame := [("Sector", []); ("Demand_MU", []); ("Share_%", [])] in
  analyze_sector_wise_consumption s
  = (Ok (Some (no_rows, no_rows)),
     {| data := data s;
        out := out s ++
          [ Banner "SECTOR-WISE CONSUMPTION ANALYSIS";
            Table "2025 SECTOR BREAKDOWN:" breakdown;
            Table "2030 PROJECTED SECTOR BREAKDOWN:" breakdown;
            Say "SECTOR GROWTH (2025-2030):" ] |}).
Proof.
  intros Hs Hy Hsec Hdem Hsh H25 H30 no_rows breakdown.
  assert (Hof : forall y, CNum (of_Z y) ∉ years -> of_year y df = Ok no_rows).
  { intros y Hn. unfold of_year, get_col. rewrite Hy. cbn [mbind result_bind].
    f_equal. apply filter_rows_none, col_eq_none, Hn. }
  assert (Hsel : select_cols ["Sector"; "Demand_MU"; "Share_%"] no_rows = Ok breakdown).
  { unfold select_cols, get_col, no_rows.
    rewrite (get_no_rows _ _ _ Hsec), (get_no_rows _ _ _ Hdem), (get_no_rows _ _ _ Hsh).
    reflexivity. }
  assert (Hg : sector_growth no_rows no_rows "Sector" "Demand_MU" = Ok []).
  { unfold sector_growth, indexed, get_col, no_rows.
    rewrite (get_no_rows _ _ _ Hsec), (get_no_rows _ _ _ Hdem). reflexivity. }
  rewrite (analyze_sector_wise_consumption_run s df no_rows no_rows breakdown breakdown []
             Hs (Hof _ H25) (Hof _ H30) Hsel Hsel Hg).
  unfold sector_report. rewrite app_nil_r. reflexivity.
Qed.

Lemma sector_analysis_without_rows_witness :
  let df : DataFrame :=
    [ ("Year", [CStr "2025"; CStr "2030"]);
      ("Sector", [CStr "Domestic"; CStr "Domestic"]);
      ("Demand_MU", of_floats [Fin 100; Fin 150]);
      ("Share_%", of_floats [Fin 100; Fin 100]) ] in
  (analyze_sector_wise_consumption (holding "sector_wise" df)).1
  = Ok (Some ([("Year", []); ("Sector", []); ("Demand_MU", []); ("Share_%", [])],
              [("Year", []); ("Sector", []); ("Demand_MU", []); ("Share_%", [])])).
Proof.
  intros df.
  rewrite (sector_analysis_without_rows (holding "sector_wise" df) df
             [CStr "2025"; CStr "2030"] [CStr "Domestic"; CStr "Domestic"]
             (of_floats [Fin 100; Fin 150]) (of_floats [Fin 100; Fin 100])
             eq_refl eq_refl eq_refl eq_refl eq_refl).
  - reflexivity.
  - intros H. repeat (apply elem_of_cons in H as [H|H]; [discriminate|]).
    apply elem_of_nil in H. exact H.
  - intros H. repeat (apply elem_of_cons in H as [H|H]; [discriminate|]).
    apply elem_of_nil in H. exact H.
Defined.
